(** * Meeting & calendar service (src/q2_content_analysis_mcp/src/server.py)

    A shallow embedding of the helper functions and endpoints of the
    service, and the properties of its specification proved (or refuted)
    on that embedding.

    - Python values read from the JSON fixture are [pyval]s; a meeting or
      a user is a dict, [gmap string pyval].
    - Exceptions are explicit: a computation returns [Ok v] or [Raise e].
    - The global [data] and the system clock are threaded through a state
      monad [M]; every reading of the clock consumes one tick.
    - Floating point is binary64 ([PrimFloat]), instants are integer
      microsecond counts. *)

From Stdlib Require Import ZArith Lia List Ascii String.
From Stdlib Require Import Floats.PrimFloat Floats.SpecFloat Floats.FloatOps.
From stdpp Require Import gmap strings list pretty.

#[local] Set Warnings "-inexact-float,-register-all".
#[local] Open Scope Z_scope.

(** ** Exceptions and results *)

Inductive exn :=
| KeyError | IndexError | TypeError | ValueError | AttributeError
| ZeroDivisionError | OverflowError
| HTTPException (status_code : Z).

Inductive result (A : Type) :=
| Ok (a : A)
| Raise (e : exn).
Arguments Ok {A} a.
Arguments Raise {A} e.


(** Sequencing of fallible computations: [x ←ᵣ c; k] runs [c], then [k] on
    its value; an exception of [c] ends the sequence. *)
Declare Scope py_scope.
Definition bind_result {A B} (c : result A) (k : A → result B) : result B :=
  match c with Ok a => k a | Raise e => Raise e end.
Notation "x ←ᵣ c ; k" := (bind_result c (λ x, k))
  (at level 20, c at level 100, k at level 200, only parsing) : py_scope.
#[local] Open Scope py_scope.

(** ** Python values *)

Inductive pyval :=
| PNone
| PBool (b : bool)
| PInt (n : Z)
| PFloat (f : float)
| PStr (s : string)
| PList (l : list pyval)
| PDict (d : gmap string pyval).

Abbreviation dict := (gmap string pyval).

(** [d[k]] *)
Definition getitem (d : dict) (k : string) : result pyval :=
  match d !! k with Some v => Ok v | None => Raise KeyError end.

(** [d.get(k, dflt)] *)
Definition get_default (d : dict) (k : string) (dflt : pyval) : pyval :=
  default dflt (d !! k).

(** Truth value of an object, as tested by [if x] and [not x]. *)
Definition truthy (v : pyval) : bool :=
  match v with
  | PNone => false
  | PBool b => b
  | PInt n => negb (n =? 0)
  | PFloat f => negb (PrimFloat.eqb f 0)
  | PStr s => negb (String.eqb s "")
  | PList l => match l with [] => false | _ => true end
  | PDict d => negb (bool_decide (d = ∅))
  end.

(** [needle in haystack] for strings: [haystack] has [needle] as a
    contiguous substring. *)
Fixpoint str_contains (needle haystack : string) : bool :=
  String.prefix needle haystack ||
  match haystack with
  | EmptyString => false
  | String _ rest => str_contains needle rest
  end.

(** [user_id in container], for a string [user_id]. *)
Definition py_in (user_id : string) (container : pyval) : result bool :=
  match container with
  | PList l =>
      Ok (existsb (λ x, match x with PStr s => String.eqb s user_id | _ => false end) l)
  | PStr s => Ok (str_contains user_id s)
  | PDict d => Ok (bool_decide (is_Some (d !! user_id)))
  | _ => Raise TypeError
  end.

(** [len(v)]; a str is modelled with one character per code point. *)
Definition py_len (v : pyval) : result Z :=
  match v with
  | PStr s => Ok (Z.of_nat (String.length s))
  | PList l => Ok (Z.of_nat (length l))
  | PDict d => Ok (Z.of_nat (size d))
  | _ => Raise TypeError
  end.

(** [v == s] for a string [s]. *)
Definition py_eq_str (v : pyval) (s : string) : bool :=
  match v with PStr s' => String.eqb s' s | _ => false end.

(** ** Binary64 arithmetic *)

(** [float(z)]: the integer rounded to the nearest double. *)
Definition Z2float (z : Z) : float := SF2Prim (binary_normalize prec emax z 0 false).

(** [a / b] on integers (true division), correctly rounded; [b] is positive. *)
Definition Z_truediv (a : Z) (b : positive) : float :=
  match a with
  | Z0 => 0%float
  | Zpos p => SF2Prim (SFdiv prec emax (S754_finite false p 0) (S754_finite false b 0))
  | Zneg p => SF2Prim (SFdiv prec emax (S754_finite true p 0) (S754_finite false b 0))
  end.

(** [x / y] on floats: Python raises where IEEE 754 returns an infinity or a NaN. *)
Definition float_truediv (x y : float) : result float :=
  if PrimFloat.eqb y 0 then Raise ZeroDivisionError else Ok (x / y)%float.

(** Nearest integer to [num / 2^k], ties to even. *)
Definition round_half_even_shift (num : Z) (k : Z) : Z :=
  let den := 2 ^ k in
  let q := num / den in
  let r := num mod den in
  match (2 * r) ?= den with
  | Lt => q
  | Gt => q + 1
  | Eq => if Z.even q then q else q + 1
  end.

(** [round(x, 2)]: the exact value of [x] is rounded to the nearest multiple
    of 1/100 (ties to even), and the nearest double to that decimal is
    returned. *)
Definition round2 (x : float) : float :=
  match Prim2SF x with
  | S754_finite s m e =>
      let n := if (0 <=? e) then Z.pos m * 100 * 2 ^ e
               else round_half_even_shift (Z.pos m * 100) (- e) in
      if n =? 0 then (if s then (-0)%float else 0%float)
      else Z_truediv (if s then - n else n) 100
  | _ => x
  end.

(** ** Dates and times

    A [datetime] is its wall-clock reading, in microseconds since
    0001-01-01T00:00:00, together with the UTC offset of its [tzinfo]
    (in microseconds) when it has one. The library keeps a datetime within
    the years 1 to 9999 and a timedelta within 999999999 days: an
    arithmetic result outside raises OverflowError. *)

Record datetime := { wall : Z; tzinfo : option Z }.

Definition us_per_second : Z := 1000000.
Definition us_per_minute : Z := 60 * us_per_second.
Definition us_per_hour : Z := 60 * us_per_minute.
Definition us_per_day : Z := 24 * us_per_hour.

(** The wall-clock reading of 9999-12-31T23:59:59.999999. *)
Definition max_wall : Z := 3652059 * us_per_day - 1.

(** [timedelta(days=d, hours=h, minutes=m)], in microseconds. *)
Definition timedelta (days hours minutes : Z) : result Z :=
  let us := days * us_per_day + hours * us_per_hour + minutes * us_per_minute in
  if (- 999999999 * us_per_day <=? us) && (us <? 1000000000 * us_per_day)
  then Ok us else Raise OverflowError.

(** [dt + td] keeps the tzinfo. *)
Definition dt_add (dt : datetime) (td : Z) : result datetime :=
  let w := wall dt + td in
  if (0 <=? w) && (w <=? max_wall)
  then Ok {| wall := w; tzinfo := tzinfo dt |} else Raise OverflowError.

(** [dt + timedelta(days=d, hours=h, minutes=m)] *)
Definition dt_plus (dt : datetime) (days hours minutes : Z) : result datetime :=
  match timedelta days hours minutes with
  | Ok td => dt_add dt td
  | Raise e => Raise e
  end.

(** [dt.replace(tzinfo=pytz.UTC)] *)
Definition replace_tzinfo_utc (dt : datetime) : datetime :=
  {| wall := wall dt; tzinfo := Some 0 |}.

(** The point in time an aware datetime denotes (microseconds, UTC). *)
Definition instant (dt : datetime) : Z := wall dt - default 0 (tzinfo dt).

Definition aware (dt : datetime) : Prop := is_Some (tzinfo dt).

(** Comparison of two datetimes: both naive or both aware, else TypeError. *)
Definition dt_cmp (op : Z → Z → bool) (a b : datetime) : result bool :=
  match tzinfo a, tzinfo b with
  | None, None => Ok (op (wall a) (wall b))
  | Some oa, Some ob => Ok (op (wall a - oa) (wall b - ob))
  | _, _ => Raise TypeError
  end.

Definition dt_lt := dt_cmp Z.ltb.
Definition dt_le := dt_cmp Z.leb.

(** [a - b], a timedelta in microseconds. *)
Definition dt_sub (a b : datetime) : result Z :=
  match tzinfo a, tzinfo b with
  | None, None => Ok (wall a - wall b)
  | Some oa, Some ob => Ok ((wall a - oa) - (wall b - ob))
  | _, _ => Raise TypeError
  end.

(** [td.total_seconds()] *)
Definition total_seconds (td : Z) : float := Z_truediv td 1000000.

(** [dt.hour] and [dt.date()] (the day number). *)
Definition hour (dt : datetime) : Z := (wall dt mod us_per_day) / us_per_hour.
Definition date (dt : datetime) : Z := wall dt / us_per_day.

(** ** The libraries and the clock

    What the service takes from outside: the two timestamp parsers, the
    rendering of a datetime, and the system clock.
    - [fromisoformat s] is [None] when [datetime.fromisoformat] raises
      ValueError (the only exception it raises on a str);
    - [dateutil_parse s] is [None] when [dateutil.parser.parse] raises;
    - [clock n] is the [n]-th reading of the system clock (UTC);
    - [localtime t] is the local wall-clock reading at the instant [t]. *)

Record env := {
  fromisoformat : string → option datetime;
  dateutil_parse : string → option datetime;
  isoformat : datetime → string;
  clock : nat → Z;
  localtime : Z → Z
}.

(** ** State: the global [data] and the number of clock readings so far *)

Record state := {
  meetings : list dict;
  users : list dict;
  ticks : nat
}.

Definition M (A : Type) : Type := state → result A * state.

Definition ret {A} (a : A) : M A := λ st, (Ok a, st).
Definition bind_M {A B} (c : M A) (k : A → M B) : M B := λ st,
  match c st with
  | (Ok a, st') => k a st'
  | (Raise e, st') => (Raise e, st')
  end.

(** The same in [M]: [x ← c; k]. *)
Notation "x ← c ; k" := (bind_M c (λ x, k))
  (at level 20, c at level 100, k at level 200, only parsing) : py_scope.

Definition lift {A} (r : result A) : M A := λ st, (r, st).
Definition raise {A} (e : exn) : M A := λ st, (Raise e, st).

(** [try: c  except <handled>: h] *)
Definition try_except {A} (c : M A) (handled : exn → bool) (h : M A) : M A :=
  λ st, match c st with
        | (Ok a, st') => (Ok a, st')
        | (Raise e, st') => if handled e then h st' else (Raise e, st')
        end.

Definition except_ValueError (e : exn) : bool :=
  match e with ValueError => true | _ => false end.
(** [except Exception] and a bare [except]: every exception of the model. *)
Definition except_Exception (e : exn) : bool := true.

Definition get_meetings : M (list dict) := λ st, (Ok (meetings st), st).
Definition get_users : M (list dict) := λ st, (Ok (users st), st).

(** ** Requests and responses *)

Record MeetingCreateRequest := {
  mc_title : string;
  mc_participants : list string;
  mc_duration : Z;
  mc_start_time : option string;
  mc_timezone : string;
  mc_agenda : option string;
  mc_meeting_type : string
}.

Record OptimalSlotsRequest := {
  os_participants : list string;
  os_duration : Z;
  os_date_range : list string
}.

Record ConflictRequest := {
  cf_user_id : string;
  cf_time_range : list string
}.

(** An entry of [conflicts_detected] in the answer of [create_meeting]. *)
Record detected_conflict := {
  dc_participant : string;
  dc_conflicting_meeting : pyval;
  dc_conflict_time : pyval
}.

Record CreateMeetingResponse := {
  cm_status : string;
  cm_meeting : dict;
  cm_conflicts_detected : list detected_conflict;
  cm_message : string
}.

(** A slot of [find_optimal_slots]; the two datetimes are rendered with
    [isoformat()] in the answer. *)
Record optimal_slot := {
  opt_start_time : datetime;
  opt_end_time : datetime;
  opt_duration_minutes : Z;
  ai_score : Z;
  recommended : bool
}.

Record OptimalSlotsResponse := {
  osr_status : string;
  optimal_slots : list optimal_slot;
  osr_participants : list string;
  osr_duration_minutes : Z
}.

(** An entry of [conflicts] in the answer of [detect_scheduling_conflicts]. *)
Record range_conflict := {
  rc_meeting_id : pyval;
  rc_title : pyval;
  rc_start_time : pyval;
  rc_end_time : pyval;
  rc_participants : pyval
}.

Record ConflictResponse := {
  cfr_status : string;
  cfr_user_id : string;
  cfr_time_range : list string;
  conflicts_found : Z;
  conflicts : list range_conflict
}.

Record WorkloadBalanceRequest := { wb_team_members : list string }.

(** An entry of [workload_distribution]. Where Python holds the int [0]
    (an empty sum, a guarded division) the model holds the float [0]:
    the two are equal and enter the later arithmetic alike. *)
Record member_workload := {
  total_meetings : Z;
  total_duration_minutes : float;
  average_daily_meetings : float;
  max_daily_meetings : Z;
  workload_score : float;
  preference_limit : pyval
}.

Record balance_analysis := {
  average_workload : float;
  overloaded_members : list string;
  underutilized_members : list string;
  balance_score : float
}.

Record WorkloadBalanceResponse := {
  wbr_status : string;
  wbr_team_members : list string;
  workload_distribution : list (string * member_workload);
  balance : balance_analysis;
  wbr_recommendations : list string
}.

Record EffectivenessScoreRequest := { es_meeting_id : string }.

Record score_breakdown := {
  duration_score : Z;
  participant_score : Z;
  time_score : Z;
  type_score : Z;
  agenda_score : Z;
  historical_score : option pyval
}.

Record EffectivenessResponse := {
  er_status : string;
  er_meeting_id : string;
  er_meeting_title : pyval;
  effectiveness_score : float;
  er_score_breakdown : score_breakdown;
  improvement_suggestions : list string;
  ai_analysis : bool
}.

Record OptimizeScheduleRequest := { op_user_id : string }.

(** The entries of [recommendations]; dates are day numbers, and the
    [suggestion] texts, which only render the other fields, are left out. *)
Inductive recommendation :=
| overloaded_day (day : Z) (meeting_count : Z) (meetings_to_reschedule : list pyval)
| insufficient_break (day : Z) (meeting1 meeting2 : pyval)
| non_business_hours (titles : list pyval).

Record ai_insights := {
  schedule_efficiency : string;
  workload_distribution_label : string;
  time_utilization : string
}.

Inductive OptimizeResponse :=
| NoMeetings (user_id : string) (message : string)
| Optimized (user_id : string) (current_meeting_count : Z)
    (optimization_score : Z) (recommendations : list recommendation)
    (insights : ai_insights).

Record PatternAnalysisRequest := {
  pa_user_id : string;
  pa_period : string
}.

Record productivity := {
  high_effectiveness_meetings : Z;
  low_effectiveness_meetings : Z
}.

(** The entry [patterns]; the two distributions are dicts, in insertion
    order. *)
Record meeting_patterns := {
  pt_total_meetings : Z;
  pt_total_duration_minutes : float;
  average_duration_minutes : float;
  meeting_type_distribution : list (pyval * Z);
  average_effectiveness_score : float;
  hour_distribution : list (Z * Z);
  productivity_trends : productivity
}.

Inductive PatternAnalysisResponse :=
| NoMeetingsFound (user_id period message : string)
| Patterns (user_id period : string) (patterns : meeting_patterns).

Record AgendaSuggestionRequest := {
  ag_meeting_topic : string;
  ag_participants : list string
}.

Record AgendaSuggestionResponse := {
  agr_status : string;
  agr_meeting_topic : string;
  agr_participants : list string;
  agenda_suggestions : list string;
  ai_enhanced : bool;
  based_on_history : Z
}.

(** ** Python operators on fixture values *)

Definition b2z (b : bool) : Z := if b then 1 else 0.

(** The exact order between a float and an integer ([None] for a NaN). *)
Definition float_cmp_Z (f : float) (z : Z) : option comparison :=
  match Prim2SF f with
  | S754_nan => None
  | S754_infinity s => Some (if s then Lt else Gt)
  | S754_zero _ => Some (0 ?= z)
  | S754_finite s m e =>
      let v := if s then Z.neg m else Z.pos m in
      Some (if 0 <=? e then (v * 2 ^ e ?= z) else (v ?= z * 2 ^ (- e)))
  end.

(** [v > 0] *)
Definition py_gt_zero (v : pyval) : result bool :=
  match v with
  | PBool b => Ok b
  | PInt n => Ok (0 <? n)
  | PFloat f => Ok (0 <? f)%float
  | _ => Raise TypeError
  end.

(** [v * w] for a float [w]. *)
Definition py_mul_float (v : pyval) (w : float) : result float :=
  match v with
  | PBool b => Ok (Z2float (b2z b) * w)%float
  | PInt n =>
      if is_infinity (Z2float n) then Raise OverflowError
      else Ok (Z2float n * w)%float
  | PFloat f => Ok (f * w)%float
  | _ => Raise TypeError
  end.

(** [n > v] for an int [n]. *)
Definition py_int_gt (n : Z) (v : pyval) : result bool :=
  match v with
  | PBool b => Ok (b2z b <? n)
  | PInt k => Ok (k <? n)
  | PFloat f => Ok (match float_cmp_Z f n with Some Lt => true | _ => false end)
  | _ => Raise TypeError
  end.

(** [l[v:]] *)
Definition py_slice_from {A} (l : list A) (v : pyval) : result (list A) :=
  match v with
  | PNone => Ok l
  | PBool b => Ok (drop (Z.to_nat (b2z b)) l)
  | PInt k =>
      Ok (if 0 <=? k then drop (Z.to_nat k) l
          else drop (Z.to_nat (Z.of_nat (length l) + k)) l)
  | _ => Raise TypeError
  end.

(** [a < b] between two sort keys. The keys that reach the sort of
    [optimize_meeting_schedule] have gone through [parse_datetime] before,
    so each is a str or a false value; [<] is given on those (an operand
    that is a non-empty list cannot occur there and is answered like a
    dict, with TypeError). *)
Definition py_lt (a b : pyval) : result bool :=
  match a, b with
  | PStr x, PStr y => Ok (String.ltb x y)
  | PBool x, PBool y => Ok (b2z x <? b2z y)
  | PBool x, PInt y => Ok (b2z x <? y)
  | PInt x, PBool y => Ok (x <? b2z y)
  | PInt x, PInt y => Ok (x <? y)
  | PFloat x, PFloat y => Ok (x <? y)%float
  | PFloat x, PInt y =>
      Ok (match float_cmp_Z x y with Some Lt => true | _ => false end)
  | PFloat x, PBool y =>
      Ok (match float_cmp_Z x (b2z y) with Some Lt => true | _ => false end)
  | PInt x, PFloat y =>
      Ok (match float_cmp_Z y x with Some Gt => true | _ => false end)
  | PBool x, PFloat y =>
      Ok (match float_cmp_Z y (b2z x) with Some Gt => true | _ => false end)
  | PList [], PList [] => Ok false
  | _, _ => Raise TypeError
  end.

(** [sorted(l, key=...)] on the list of (key, element) pairs: a stable
    insertion; it raises when a comparison does. *)
Fixpoint insert_sorted {A} (x : pyval * A) (l : list (pyval * A))
  : result (list (pyval * A)) :=
  match l with
  | [] => Ok [x]
  | y :: ys =>
      b ←ᵣ py_lt (fst y) (fst x);
      if b then (r ←ᵣ insert_sorted x ys; Ok (y :: r)) else Ok (x :: y :: ys)
  end.

Fixpoint sort_by_key {A} (l : list (pyval * A)) : result (list (pyval * A)) :=
  match l with
  | [] => Ok []
  | x :: xs => r ←ᵣ sort_by_key xs; insert_sorted x r
  end.

(** A dict that a loop fills, in insertion order. *)
Fixpoint assoc_get {K V} `{EqDecision K} (k : K) (l : list (K * V)) : option V :=
  match l with
  | [] => None
  | (k', v) :: rest => if decide (k = k') then Some v else assoc_get k rest
  end.

Fixpoint assoc_set {K V} `{EqDecision K} (k : K) (v : V) (l : list (K * V))
  : list (K * V) :=
  match l with
  | [] => [(k, v)]
  | (k', v') :: rest =>
      if decide (k = k') then (k, v) :: rest else (k', v') :: assoc_set k v rest
  end.

(** [max(l)] and [min(l)] on a list of floats with first element [x]. *)
Definition py_max (x : float) (l : list float) : float :=
  fold_left (λ m y, if (m <? y)%float then y else m) l x.
Definition py_min (x : float) (l : list float) : float :=
  fold_left (λ m y, if (y <? m)%float then y else m) l x.

(** [sum(l)] on floats: the start value is the int [0]. *)
Definition py_sum (l : list float) : float :=
  fold_left (λ acc x, acc + x)%float l 0%float.

(** The table [type_scores] of line 530. *)
Definition type_scores : gmap string Z :=
  list_to_map
    [("team_sync", 8); ("planning", 9); ("review", 8); ("workshop", 9);
     ("standup", 7); ("retrospective", 8); ("demo", 8); ("training", 7)].

(** [type_scores.get(meeting_type, 6)] *)
Definition type_scores_get (meeting_type : pyval) : result Z :=
  match meeting_type with
  | PStr s => Ok (default 6 (type_scores !! s))
  | PList _ | PDict _ => Raise TypeError
  | _ => Ok 6
  end.

(** [s.lower()]. A str is a sequence of code points below 256; there
    [lower] moves A-Z and the capital letters of Latin-1 (192 to 222, but
    for the sign 215) up by 32, and keeps every other code point. *)
Definition lower_char (c : ascii) : ascii :=
  let n := N_of_ascii c in
  if ((65 <=? n) && (n <=? 90) || (192 <=? n) && (n <=? 222) && negb (n =? 215))%N
  then ascii_of_N (n + 32) else c.

Fixpoint lower (s : string) : string :=
  match s with
  | EmptyString => EmptyString
  | String c rest => String (lower_char c) (lower rest)
  end.

(** [v.lower()]: only a str has the method. *)
Definition py_lower (v : pyval) : result string :=
  match v with
  | PStr s => Ok (lower s)
  | _ => Raise AttributeError
  end.

(** The numbers that [sum] accumulates: an int or a float. *)
Inductive number :=
| NInt (n : Z)
| NFloat (f : float).

(** A fixture value as an operand of [+] with a number; a bool is an int. *)
Definition py_number (v : pyval) : result number :=
  match v with
  | PBool b => Ok (NInt (b2z b))
  | PInt n => Ok (NInt n)
  | PFloat f => Ok (NFloat f)
  | _ => Raise TypeError
  end.

(** The conversion of an int operand to float. *)
Definition float_of_int (n : Z) : result float :=
  if is_infinity (Z2float n) then Raise OverflowError else Ok (Z2float n).

(** [a + b] on numbers. *)
Definition num_add (a b : number) : result number :=
  match a, b with
  | NInt x, NInt y => Ok (NInt (x + y))
  | NInt x, NFloat g => f ←ᵣ float_of_int x; Ok (NFloat (f + g))
  | NFloat f, NInt y => g ←ᵣ float_of_int y; Ok (NFloat (f + g))
  | NFloat f, NFloat g => Ok (NFloat (f + g))
  end.

(** [sum(l)] on fixture values, from the accumulator [acc] (the int [0]
    at the start). *)
Fixpoint sum_from (acc : number) (l : list pyval) : result number :=
  match l with
  | [] => Ok acc
  | v :: rest =>
      x ←ᵣ py_number v;
      acc' ←ᵣ num_add acc x;
      sum_from acc' rest
  end.

(** [x / n] for the length [n] of a list. *)
Definition num_truediv (x : number) (n : Z) : result float :=
  if n =? 0 then Raise ZeroDivisionError else
  match x with
  | NInt a =>
      let q := Z_truediv a (Z.to_pos n) in
      if is_infinity q then Raise OverflowError else Ok q
  | NFloat f => Ok (f / Z2float n)%float
  end.

(** [v >= n] and [v < n] for an int [n]. *)
Definition py_ge_int (v : pyval) (n : Z) : result bool :=
  match v with
  | PBool b => Ok (n <=? b2z b)
  | PInt k => Ok (n <=? k)
  | PFloat f =>
      Ok (match float_cmp_Z f n with Some Gt | Some Eq => true | _ => false end)
  | _ => Raise TypeError
  end.

Definition py_lt_int (v : pyval) (n : Z) : result bool :=
  match v with
  | PBool b => Ok (b2z b <? n)
  | PInt k => Ok (k <? n)
  | PFloat f => Ok (match float_cmp_Z f n with Some Lt => true | _ => false end)
  | _ => Raise TypeError
  end.

(** [[x for x in l if test(x)]] *)
Fixpoint select_if {A} (test : A → result bool) (l : list A) : result (list A) :=
  match l with
  | [] => Ok []
  | x :: rest =>
      b ←ᵣ test x;
      r ←ᵣ select_if test rest;
      Ok (if b then x :: r else r)
  end.

(** *** Fixture values as dict keys

    A list and a dict are unhashable. Two keys are the same when they are
    equal: a bool is the int 0 or 1, an int and a float are compared by
    value. Every NaN of the fixture is the one object that the JSON
    decoder returns for [NaN], which a dict finds by identity. *)
Definition py_hashable (v : pyval) : bool :=
  match v with PList _ | PDict _ => false | _ => true end.

Definition int_of (v : pyval) : option Z :=
  match v with
  | PBool b => Some (b2z b)
  | PInt n => Some n
  | _ => None
  end.

Definition float_eq_Z (f : float) (z : Z) : bool :=
  match float_cmp_Z f z with Some Eq => true | _ => false end.

Definition key_eq (a b : pyval) : bool :=
  match int_of a, int_of b with
  | Some x, Some y => x =? y
  | Some x, None => match b with PFloat g => float_eq_Z g x | _ => false end
  | None, Some y => match a with PFloat f => float_eq_Z f y | _ => false end
  | None, None =>
      match a, b with
      | PNone, PNone => true
      | PStr x, PStr y => String.eqb x y
      | PFloat f, PFloat g => (f =? g)%float || (is_nan f && is_nan g)
      | _, _ => false
      end
  end.

(** [d.get(k, dflt)] and [d[k] = v] on a dict that a loop fills, in
    insertion order; an entry keeps the key that created it. *)
Fixpoint key_get {V} (k : pyval) (dflt : V) (d : list (pyval * V)) : V :=
  match d with
  | [] => dflt
  | (k', v) :: rest => if key_eq k k' then v else key_get k dflt rest
  end.

Fixpoint key_set {V} (k : pyval) (v : V) (d : list (pyval * V)) : list (pyval * V) :=
  match d with
  | [] => [(k, v)]
  | (k', v') :: rest =>
      if key_eq k k' then (k', v) :: rest else (k', v') :: key_set k v rest
  end.

Section Server.
Context (E : env).

(** [datetime.now(pytz.UTC)] *)
Definition now_utc : M datetime := λ st,
  (Ok {| wall := clock E (ticks st); tzinfo := Some 0 |},
   {| meetings := meetings st; users := users st; ticks := S (ticks st) |}).

(** [datetime.now()]: naive local time. *)
Definition now_local : M datetime := λ st,
  (Ok {| wall := localtime E (clock E (ticks st)); tzinfo := None |},
   {| meetings := meetings st; users := users st; ticks := S (ticks st) |}).

(** [datetime.fromisoformat(v)] *)
Definition py_fromisoformat (v : pyval) : M datetime :=
  match v with
  | PStr s => match fromisoformat E s with Some dt => ret dt | None => raise ValueError end
  | _ => raise TypeError
  end.

(** [parser.parse(v)] *)
Definition py_dateutil_parse (v : pyval) : M datetime :=
  match v with
  | PStr s => match dateutil_parse E s with Some dt => ret dt | None => raise ValueError end
  | _ => raise TypeError
  end.

(** [s.replace('Z', '+00:00')] *)
Fixpoint replace_Z (s : string) : string :=
  match s with
  | EmptyString => EmptyString
  | String c rest =>
      if Ascii.eqb c "Z"%char then "+00:00" +:+ replace_Z rest
      else String c (replace_Z rest)
  end.

Definition py_replace_Z (v : pyval) : M pyval :=
  match v with
  | PStr s => ret (PStr (replace_Z s))
  | _ => raise AttributeError
  end.

(** [if dt.tzinfo is None: dt = dt.replace(tzinfo=pytz.UTC)] *)
Definition ensure_utc (dt : datetime) : datetime :=
  match tzinfo dt with
  | None => replace_tzinfo_utc dt
  | Some _ => dt
  end.

(** [parse_datetime], server.py lines 72-104. *)
Definition parse_datetime (dt_str : pyval) : M datetime :=
  if negb (truthy dt_str) then now_utc
  else
    try_except
      (dt ← py_fromisoformat dt_str;
       ret (ensure_utc dt))
      except_ValueError
      (try_except
         (z ← py_replace_Z dt_str;
          dt ← py_fromisoformat z;
          ret (ensure_utc dt))
         except_ValueError
         (try_except
            (dt ← py_fromisoformat dt_str;
             ret (replace_tzinfo_utc dt))
            except_ValueError
            (try_except
               (dt ← py_dateutil_parse dt_str;
                ret (ensure_utc dt))
               except_Exception
               now_utc))).

(** [get_user_meetings], lines 57-63, on the list [data["meetings"]]. *)
Fixpoint user_meetings_of (user_id : string) (data_meetings : list dict)
  : result (list dict) :=
  match data_meetings with
  | [] => Ok []
  | meeting :: rest =>
      ps ←ᵣ getitem meeting "participants";
      b ←ᵣ py_in user_id ps;
      user_meetings ←ᵣ user_meetings_of user_id rest;
      Ok (if b then meeting :: user_meetings else user_meetings)
  end.

Definition get_user_meetings (user_id : string) : M (list dict) :=
  data_meetings ← get_meetings;
  lift (user_meetings_of user_id data_meetings).

(** [get_user_preferences], lines 65-70, on the list [data["users"]]. *)
Fixpoint user_preferences_of (user_id : string) (data_users : list dict)
  : result (option dict) :=
  match data_users with
  | [] => Ok None
  | user :: rest =>
      uid ←ᵣ getitem user "user_id";
      if py_eq_str uid user_id then Ok (Some user)
      else user_preferences_of user_id rest
  end.

Definition get_user_preferences (user_id : string) : M (option dict) :=
  data_users ← get_users;
  lift (user_preferences_of user_id data_users).

(** [parse_datetime(meeting[key])] *)
Definition parse_field (meeting : dict) (key : string) : M datetime :=
  v ← lift (getitem meeting key);
  parse_datetime v.

(** [check_time_conflict], lines 106-127. *)
Definition check_time_conflict (meeting1 meeting2 : dict) : M bool :=
  try_except
    (start1 ← parse_field meeting1 "start_time";
     end1 ← parse_field meeting1 "end_time";
     start2 ← parse_field meeting2 "start_time";
     end2 ← parse_field meeting2 "end_time";
     let start1 := ensure_utc start1 in
     let end1 := ensure_utc end1 in
     let start2 := ensure_utc start2 in
     let end2 := ensure_utc end2 in
     a ← lift (dt_lt start1 end2);
     if a then lift (dt_lt start2 end1) else ret false)
    except_Exception
    (ret false).

(** A [for] loop that updates a local value; an exception leaves the loop. *)
Fixpoint for_each {A S} (l : list A) (body : S → A → M S) (acc : S) : M S :=
  match l with
  | [] => ret acc
  | x :: xs => acc' ← body acc x; for_each xs body acc'
  end.

(** [l[i]] on a list of strings. *)
Definition py_index (l : list string) (i : nat) : result pyval :=
  match l !! i with Some s => Ok (PStr s) | None => Raise IndexError end.

(** A slot, as emitted by [find_available_slots]; [start_time] and
    [end_time] are the datetimes that the code renders with [isoformat()]. *)
Record slot := {
  slot_start_time : datetime;
  slot_end_time : datetime;
  slot_duration_minutes : Z
}.

(** Lines 152-155: is there a busy interval that the candidate overlaps? *)
Fixpoint slot_conflict (busy_times : list (datetime * datetime))
    (current_time slot_end : datetime) : result bool :=
  match busy_times with
  | [] => Ok false
  | (busy_start, busy_end) :: rest =>
      a ←ᵣ dt_lt current_time busy_end;
      b ←ᵣ (if a then dt_lt busy_start slot_end else Ok false);
      if b then Ok true else slot_conflict rest current_time slot_end
  end.

(** The [while] loop of lines 148-164. [None]: the fuel ran out before the
    loop condition became false. *)
Fixpoint slot_scan (fuel : nat) (busy_times : list (datetime * datetime))
    (duration : Z) (end_date current_time : datetime)
    (available_slots : list slot) : option (result (list slot)) :=
  match fuel with
  | O => None
  | S fuel' =>
      match (probe ←ᵣ dt_plus current_time 0 0 duration; dt_le probe end_date) with
      | Raise e => Some (Raise e)
      | Ok false => Some (Ok available_slots)
      | Ok true =>
          match (slot_end ←ᵣ dt_plus current_time 0 0 duration;
                 conflict ←ᵣ slot_conflict busy_times current_time slot_end;
                 next ←ᵣ dt_plus current_time 0 1 0;
                 Ok (next,
                     if conflict then available_slots
                     else available_slots ++
                          [{| slot_start_time := current_time;
                              slot_end_time := slot_end;
                              slot_duration_minutes := duration |}])) with
          | Raise e => Some (Raise e)
          | Ok (next, available_slots) =>
              slot_scan fuel' busy_times duration end_date next available_slots
          end
      end
  end.

(** Lines 136-143: the busy intervals of the participants. *)
Definition collect_busy_times (participants : list string)
    (start_date end_date : datetime) : M (list (datetime * datetime)) :=
  for_each participants (λ busy_times participant,
    user_meetings ← get_user_meetings participant;
    for_each user_meetings (λ busy_times meeting,
      meeting_start ← parse_field meeting "start_time";
      meeting_end ← parse_field meeting "end_time";
      a ← lift (dt_le start_date meeting_start);
      b ← (if a then lift (dt_le meeting_start end_date) else ret false);
      ret (if b then busy_times ++ [(meeting_start, meeting_end)] else busy_times))
      busy_times) [].

(** [find_available_slots], lines 129-166. *)
Definition find_available_slots (fuel : nat) (participants : list string)
    (duration : Z) (date_range : list string) : M (option (list slot)) :=
  r0 ← lift (py_index date_range 0);
  start_date ← parse_datetime r0;
  r1 ← lift (py_index date_range 1);
  end_date ← parse_datetime r1;
  busy_times ← collect_busy_times participants start_date end_date;
  match slot_scan fuel busy_times duration end_date start_date [] with
  | None => ret None
  | Some r => available_slots ← lift r; ret (Some (take 5 available_slots))
  end.

(** *** Blocks under [try: ... except Exception: ...] that update a local list

    The list keeps what was appended before the exception. A block returns
    the value reached and the exception that ended it, if any. *)

Definition K (S : Type) : Type := state → (S * option exn) * state.

Definition keep {S} (acc : S) (c : M S) : K S := λ st,
  match c st with
  | (Ok acc', st') => ((acc', None), st')
  | (Raise e, st') => ((acc, Some e), st')
  end.

Definition bind_keep {A S} (acc : S) (c : M A) (k : A → K S) : K S := λ st,
  match c st with
  | (Ok a, st') => k a st'
  | (Raise e, st') => ((acc, Some e), st')
  end.

Fixpoint for_keep {A S} (l : list A) (body : S → A → K S) (acc : S) : K S :=
  match l with
  | [] => λ st, ((acc, None), st)
  | x :: xs => λ st,
      match body acc x st with
      | ((acc', None), st') => for_keep xs body acc' st'
      | ((acc', Some e), st') => ((acc', Some e), st')
      end
  end.

(** [try: block  except Exception as e: print(...)] *)
Definition try_print {S} (block : K S) : M S := λ st,
  let '((acc, _), st') := block st in (Ok acc, st').

(** Lines 205-219: the conflict scan of [create_meeting]. *)
Definition scan_conflicts (new_meeting : dict) (participants : list string)
  : K (list detected_conflict) :=
  for_keep participants (λ conflicts participant,
    bind_keep conflicts (get_user_meetings participant) (λ user_meetings,
      for_keep user_meetings (λ conflicts meeting,
        keep conflicts
          (b ← check_time_conflict new_meeting meeting;
           if b then
             t ← lift (getitem meeting "title");
             s ← lift (getitem meeting "start_time");
             ret (conflicts ++ [{| dc_participant := participant;
                                   dc_conflicting_meeting := t;
                                   dc_conflict_time := s |}])
           else ret conflicts))
        conflicts))
    [].

(** [data["meetings"].append(new_meeting)] *)
Definition append_meeting (new_meeting : dict) : M unit := λ st,
  (Ok tt, {| meetings := meetings st ++ [new_meeting];
             users := users st; ticks := ticks st |}).

(** [s or dflt] for an optional string. *)
Definition str_or (s : option string) (dflt : string) : string :=
  match s with
  | Some s' => if String.eqb s' "" then dflt else s'
  | None => dflt
  end.

Definition opt_str (s : option string) : pyval :=
  match s with Some s' => PStr s' | None => PNone end.

(** Lines 180-190: the end time of the new meeting. *)
Definition end_time_of (req : MeetingCreateRequest) (current_time : datetime)
  : M string :=
  let fallback : M string :=
    end_dt ← lift (dt_plus current_time 0 0 (mc_duration req));
    ret (isoformat E end_dt) in
  if truthy (opt_str (mc_start_time req)) then
    try_except
      (start_dt ← parse_datetime (opt_str (mc_start_time req));
       end_dt ← lift (dt_plus start_dt 0 0 (mc_duration req));
       ret (isoformat E end_dt))
      except_Exception
      fallback
  else fallback.

(** [create_meeting], lines 169-232. *)
Definition create_meeting (req : MeetingCreateRequest) : M CreateMeetingResponse :=
  try_except
    (data_meetings ← get_meetings;
     let meeting_id := "m" +:+ pretty (Z.of_nat (length data_meetings) + 1) in
     current_time ← now_utc;
     let start_time := str_or (mc_start_time req) (isoformat E current_time) in
     end_time ← end_time_of req current_time;
     let new_meeting : dict :=
       <["id" := PStr meeting_id]>
       (<["title" := PStr (mc_title req)]>
       (<["participants" := PList (PStr <$> mc_participants req)]>
       (<["start_time" := PStr start_time]>
       (<["end_time" := PStr end_time]>
       (<["timezone" := PStr (mc_timezone req)]>
       (<["agenda" := PStr (str_or (mc_agenda req)
                              ("Meeting agenda for " +:+ mc_title req))]>
       (<["meeting_type" := PStr (mc_meeting_type req)]>
       (<["effectiveness_score" := PFloat 0]> ∅)))))))) in
     conflicts ← try_print (scan_conflicts new_meeting (mc_participants req));
     _ ← append_meeting new_meeting;
     ret {| cm_status := "success";
            cm_meeting := new_meeting;
            cm_conflicts_detected := conflicts;
            cm_message := "Meeting '" +:+ mc_title req +:+ "' created successfully" |})
    except_Exception
    (raise (HTTPException 500)).

(** Lines 242-252: the loop over [range(5)]. *)
Fixpoint example_slots_loop (current_time : datetime) (duration : Z)
    (indices : list Z) (example_slots : list optimal_slot)
  : result (list optimal_slot) :=
  match indices with
  | [] => Ok example_slots
  | i :: rest =>
      slot_start ←ᵣ dt_plus current_time (i + 1) 9 0;
      slot_end ←ᵣ dt_plus slot_start 0 0 duration;
      example_slots_loop current_time duration rest
        (example_slots ++
         [{| opt_start_time := slot_start;
             opt_end_time := slot_end;
             opt_duration_minutes := duration;
             ai_score := 10 - i;
             recommended := i <? 2 |}])
  end.

(** [find_optimal_slots], lines 234-262. *)
Definition find_optimal_slots (req : OptimalSlotsRequest) : M OptimalSlotsResponse :=
  try_except
    (current_time ← now_local;
     example_slots ←
       lift (example_slots_loop current_time (os_duration req) (seqZ 0 5) []);
     ret {| osr_status := "success";
            optimal_slots := example_slots;
            osr_participants := os_participants req;
            osr_duration_minutes := os_duration req |})
    except_Exception
    (raise (HTTPException 500)).

(** [lo <= x <= hi] *)
Definition dt_between (lo x hi : datetime) : result bool :=
  a ←ᵣ dt_le lo x;
  if a then dt_le x hi else Ok false.

(** The test of lines 276-278. *)
Definition in_time_range (start_time end_time meeting_start meeting_end : datetime)
  : result bool :=
  a ←ᵣ dt_between start_time meeting_start end_time;
  if a then Ok true else
  b ←ᵣ dt_between start_time meeting_end end_time;
  if b then Ok true else
  dt_between meeting_start start_time meeting_end.

(** [detect_scheduling_conflicts], lines 264-293. *)
Definition detect_scheduling_conflicts (req : ConflictRequest) : M ConflictResponse :=
  user_meetings ← get_user_meetings (cf_user_id req);
  r0 ← lift (py_index (cf_time_range req) 0);
  start_time ← parse_datetime r0;
  r1 ← lift (py_index (cf_time_range req) 1);
  end_time ← parse_datetime r1;
  conflicts ← for_each user_meetings (λ conflicts meeting,
    meeting_start ← parse_field meeting "start_time";
    meeting_end ← parse_field meeting "end_time";
    c ← lift (in_time_range start_time end_time meeting_start meeting_end);
    if c then
      i ← lift (getitem meeting "id");
      t ← lift (getitem meeting "title");
      s ← lift (getitem meeting "start_time");
      e ← lift (getitem meeting "end_time");
      p ← lift (getitem meeting "participants");
      ret (conflicts ++ [{| rc_meeting_id := i; rc_title := t; rc_start_time := s;
                            rc_end_time := e; rc_participants := p |}])
    else ret conflicts) [];
  ret {| cfr_status := "success";
         cfr_user_id := cf_user_id req;
         cfr_time_range := cf_time_range req;
         conflicts_found := Z.of_nat (length conflicts);
         conflicts := conflicts |}.

(** [(parse_datetime(m["end_time"]) - parse_datetime(m["start_time"])).total_seconds() / 60] *)
Definition duration_minutes (m : dict) : M float :=
  e ← parse_field m "end_time";
  s ← parse_field m "start_time";
  td ← lift (dt_sub e s);
  ret (total_seconds td / 60)%float.

(** [analyze_meeting_patterns], lines 295-349. *)
Definition analyze_meeting_patterns (req : PatternAnalysisRequest)
  : M PatternAnalysisResponse :=
  user_meetings ← get_user_meetings (pa_user_id req);
  match user_meetings with
  | [] =>
      ret (NoMeetingsFound (pa_user_id req) (pa_period req)
             "No meetings found for this user in the specified period")
  | _ =>
      let total_meetings := Z.of_nat (length user_meetings) in
      durations ← for_each user_meetings (λ ds m,
        d ← duration_minutes m; ret (ds ++ [d])) [];
      let total_duration := py_sum durations in
      meeting_types ← for_each user_meetings (λ meeting_types meeting,
        let meeting_type := get_default meeting "meeting_type" (PStr "unknown") in
        if py_hashable meeting_type then
          ret (key_set meeting_type (key_get meeting_type 0 meeting_types + 1)
                 meeting_types)
        else raise TypeError) [];
      let effectiveness_scores :=
        (λ m, get_default m "effectiveness_score" (PInt 0)) <$> user_meetings in
      avg_effectiveness ← lift
        (match effectiveness_scores with
         | [] => Ok 0%float
         | _ =>
             s ←ᵣ sum_from (NInt 0) effectiveness_scores;
             num_truediv s (Z.of_nat (length effectiveness_scores))
         end);
      hour_distribution ← for_each user_meetings (λ hour_distribution meeting,
        start_time ← parse_field meeting "start_time";
        let hour := hour start_time in
        ret (assoc_set hour (default 0 (assoc_get hour hour_distribution) + 1)
               hour_distribution)) [];
      let average_duration :=
        if 0 <? total_meetings
        then (total_duration / Z2float total_meetings)%float else 0%float in
      high ← lift (select_if (λ s, py_ge_int s 8) effectiveness_scores);
      low ← lift (select_if (λ s, py_lt_int s 6) effectiveness_scores);
      ret (Patterns (pa_user_id req) (pa_period req)
             {| pt_total_meetings := total_meetings;
                pt_total_duration_minutes := total_duration;
                average_duration_minutes := average_duration;
                meeting_type_distribution := meeting_types;
                average_effectiveness_score := avg_effectiveness;
                hour_distribution := hour_distribution;
                productivity_trends :=
                  {| high_effectiveness_meetings := Z.of_nat (length high);
                     low_effectiveness_meetings := Z.of_nat (length low) |} |})
  end.

(** The agenda literals of lines 368-398 and 403-406. *)
Definition planning_agenda : list string :=
  ["Review current status and progress";
   "Identify key objectives and goals";
   "Discuss timeline and milestones";
   "Assign responsibilities and next steps";
   "Risk assessment and mitigation strategies"].

Definition review_agenda : list string :=
  ["Present findings and results";
   "Discuss feedback and improvements";
   "Review metrics and KPIs";
   "Action items and follow-up tasks";
   "Next steps and recommendations"].

Definition sync_agenda : list string :=
  ["Team updates and progress reports";
   "Blockers and challenges discussion";
   "Upcoming priorities and deadlines";
   "Resource needs and support requests";
   "Team coordination and collaboration"].

Definition general_agenda : list string :=
  ["Meeting objectives and goals";
   "Key discussion points";
   "Decision points and outcomes";
   "Action items and assignments";
   "Next steps and follow-up"].

Definition history_agenda : list string :=
  ["Historical context from previous meetings";
   "Lessons learned and best practices"].

(** Line 361: is the topic, in lower case, part of the title in lower case? *)
Definition similar_title (meeting_topic : string) (m : dict) : result bool :=
  title ←ᵣ py_lower (get_default m "title" (PStr ""));
  Ok (str_contains (lower meeting_topic) title).

(** [generate_agenda_suggestions], lines 351-415. *)
Definition generate_agenda_suggestions (req : AgendaSuggestionRequest)
  : M AgendaSuggestionResponse :=
  participant_meetings ← for_each (ag_participants req)
    (λ participant_meetings participant,
       user_meetings ← get_user_meetings participant;
       ret (participant_meetings ++ user_meetings)) [];
  similar_meetings ←
    lift (select_if (similar_title (ag_meeting_topic req)) participant_meetings);
  let topic := lower (ag_meeting_topic req) in
  let agenda_suggestions :=
    if str_contains "planning" topic then planning_agenda
    else if str_contains "review" topic then review_agenda
    else if str_contains "sync" topic then sync_agenda
    else general_agenda in
  let agenda_suggestions :=
    match similar_meetings with
    | [] => agenda_suggestions
    | _ =>
        let recent_agendas :=
          (λ m, get_default m "agenda" (PStr ""))
            <$> drop (length similar_meetings - 3) similar_meetings in
        agenda_suggestions ++ history_agenda
    end in
  ret {| agr_status := "success";
         agr_meeting_topic := ag_meeting_topic req;
         agr_participants := ag_participants req;
         agenda_suggestions := agenda_suggestions;
         ai_enhanced := true;
         based_on_history := Z.of_nat (length similar_meetings) |}.

(** [user_prefs.get("meeting_preferences", {}).get("max_daily_meetings", 5)
     if user_prefs else 5] *)
Definition max_daily_limit_of (user_prefs : option dict) : result pyval :=
  match user_prefs with
  | None => Ok (PInt 5)
  | Some u =>
      if truthy (PDict u) then
        match get_default u "meeting_preferences" (PDict ∅) with
        | PDict prefs => Ok (get_default prefs "max_daily_meetings" (PInt 5))
        | _ => Raise AttributeError
        end
      else Ok (PInt 5)
  end.

(** Lines 422-449: the workload of one member. *)
Definition member_workload_of (member : string) : M member_workload :=
  user_meetings ← get_user_meetings member;
  user_prefs ← get_user_preferences member;
  let total_meetings := Z.of_nat (length user_meetings) in
  durations ← for_each user_meetings (λ ds m,
    d ← duration_minutes m; ret (ds ++ [d])) [];
  let total_duration := py_sum durations in
  daily_meetings ← for_each user_meetings (λ daily_meetings meeting,
    meeting_start ← parse_field meeting "start_time";
    let meeting_date := date meeting_start in
    ret (assoc_set meeting_date
           (default 0 (assoc_get meeting_date daily_meetings) + 1)
           daily_meetings)) [];
  let max_daily_meetings :=
    match daily_meetings with
    | [] => 0
    | (_, n) :: rest => fold_left Z.max (snd <$> rest) n
    end in
  limit ← lift (max_daily_limit_of user_prefs);
  ret {| total_meetings := total_meetings;
         total_duration_minutes := total_duration;
         average_daily_meetings :=
           if 0 <? total_meetings
           then (Z2float total_meetings / 30)%float else 0%float;
         max_daily_meetings := max_daily_meetings;
         workload_score :=
           (Z2float total_meetings * 0.4 + total_duration * 0.01
            + Z2float max_daily_meetings * 0.6)%float;
         preference_limit := limit |}.

(** Line 469: [1 - (max(ws) - min(ws)) / max(ws) if ws else 1]. *)
Definition balance_score_of (workload_scores : list float) : result float :=
  match workload_scores with
  | [] => Ok 1%float
  | x :: rest =>
      let spread := (py_max x rest - py_min x rest)%float in
      q ←ᵣ float_truediv spread (py_max x rest);
      Ok (1 - q)%float
  end.

(** [calculate_workload_balance], lines 417-474. *)
Definition calculate_workload_balance (req : WorkloadBalanceRequest)
  : M WorkloadBalanceResponse :=
  team_workload ← for_each (wb_team_members req) (λ team_workload member,
    w ← member_workload_of member;
    ret (assoc_set member w team_workload)) [];
  let workload_scores := (λ mw, workload_score (snd mw)) <$> team_workload in
  let avg_workload :=
    match workload_scores with
    | [] => 0%float
    | _ => (py_sum workload_scores / Z2float (Z.of_nat (length workload_scores)))%float
    end in
  let overloaded :=
    fst <$> filter (λ mw, (avg_workload * 1.2 <? workload_score (snd mw))%float = true)
              team_workload in
  let underutilized :=
    fst <$> filter (λ mw, (workload_score (snd mw) <? avg_workload * 0.8)%float = true)
              team_workload in
  bs ← lift (balance_score_of workload_scores);
  ret {| wbr_status := "success";
         wbr_team_members := wb_team_members req;
         workload_distribution := team_workload;
         balance := {| average_workload := avg_workload;
                       overloaded_members := overloaded;
                       underutilized_members := underutilized;
                       balance_score := bs |};
         wbr_recommendations :=
           [match overloaded, underutilized with
            | _ :: _, _ :: _ =>
                "Consider redistributing meetings from "
                +:+ String.concat ", " overloaded +:+ " to "
                +:+ String.concat ", " underutilized
            | _, _ => "Workload is well balanced"
            end] |}.

(** Lines 480-484: the first meeting of [data] with the given id. *)
Fixpoint find_meeting (meeting_id : string) (data_meetings : list dict)
  : result (option dict) :=
  match data_meetings with
  | [] => Ok None
  | m :: rest =>
      i ←ᵣ getitem m "id";
      if py_eq_str i meeting_id then Ok (Some m) else find_meeting meeting_id rest
  end.

(** [min(10, max(0, score))]; the ints [0] and [10] are held as floats. *)
Definition clamp_score (score : float) : float :=
  let lower := if (0 <? score)%float then score else 0%float in
  if (lower <? 10)%float then lower else 10%float.

(** Lines 489-577 of [score_meeting_effectiveness], for the meeting found. *)
Definition score_meeting (meeting_id : string) (meeting : dict)
  : M EffectivenessResponse :=
  let score := 0%float in
  duration ← duration_minutes meeting;
  let duration_score :=
    if (30 <=? duration)%float && (duration <=? 60)%float then 10
    else if (15 <=? duration)%float && (duration <=? 90)%float then 7
    else 4 in
  let score := (score + Z2float duration_score * 0.2)%float in
  ps ← lift (getitem meeting "participants");
  participant_count ← lift (py_len ps);
  let participant_score :=
    if (3 <=? participant_count) && (participant_count <=? 8) then 10
    else if (2 <=? participant_count) && (participant_count <=? 12) then 7
    else 4 in
  let score := (score + Z2float participant_score * 0.15)%float in
  start_time ← parse_field meeting "start_time";
  let hour := hour start_time in
  let time_score :=
    if (9 <=? hour) && (hour <=? 17) then 10
    else if (8 <=? hour) && (hour <=? 18) then 7
    else 4 in
  let score := (score + Z2float time_score * 0.15)%float in
  let meeting_type := get_default meeting "meeting_type" (PStr "general") in
  type_score ← lift (type_scores_get meeting_type);
  let score := (score + Z2float type_score * 0.2)%float in
  let agenda := get_default meeting "agenda" (PStr "") in
  agenda_len ← lift (py_len agenda);
  let agenda_score :=
    if 20 <? agenda_len then 10
    else if 10 <? agenda_len then 7
    else 4 in
  let score := (score + Z2float agenda_score * 0.1)%float in
  has_history ← lift (py_gt_zero (get_default meeting "effectiveness_score" (PInt 0)));
  with_history ←
    (if has_history then
       historical_score ← lift (getitem meeting "effectiveness_score");
       h ← lift (py_mul_float historical_score 0.2);
       ret ((score + h)%float, Some historical_score)
     else ret (score, @None pyval));
  let score := fst with_history in
  let historical := snd with_history in
  let final_score := clamp_score score in
  let suggestions :=
    (if duration_score <? 7
     then ["Consider adjusting meeting duration for better engagement"] else [])
    ++ (if participant_score <? 7
        then ["Review participant list to ensure optimal group size"] else [])
    ++ (if time_score <? 7
        then ["Consider rescheduling to business hours for better attendance"] else [])
    ++ (if agenda_score <? 7
        then ["Add detailed agenda items to improve meeting focus"] else []) in
  title ← lift (getitem meeting "title");
  ret {| er_status := "success";
         er_meeting_id := meeting_id;
         er_meeting_title := title;
         effectiveness_score := round2 final_score;
         er_score_breakdown :=
           {| duration_score := duration_score;
              participant_score := participant_score;
              time_score := time_score;
              type_score := type_score;
              agenda_score := agenda_score;
              historical_score := historical |};
         improvement_suggestions := suggestions;
         ai_analysis := true |}.

(** [score_meeting_effectiveness], lines 476-577. *)
Definition score_meeting_effectiveness (req : EffectivenessScoreRequest)
  : M EffectivenessResponse :=
  data_meetings ← get_meetings;
  found ← lift (find_meeting (es_meeting_id req) data_meetings);
  match found with
  | None => raise (HTTPException 404)
  | Some meeting =>
      if negb (truthy (PDict meeting)) then raise (HTTPException 404)
      else score_meeting (es_meeting_id req) meeting
  end.

(** Lines 593-598: the meetings of each date, in order of first occurrence. *)
Definition group_by_date (user_meetings : list dict) : M (list (Z * list dict)) :=
  for_each user_meetings (λ daily_meetings meeting,
    meeting_start ← parse_field meeting "start_time";
    let meeting_date := date meeting_start in
    ret (assoc_set meeting_date
           (default [] (assoc_get meeting_date daily_meetings) ++ [meeting])
           daily_meetings)) [].

(** Lines 605-606: the dates with more meetings than the limit. *)
Fixpoint overloaded_days_of (max_daily_limit : pyval)
    (daily_meetings : list (Z * list dict)) : result (list (Z * list dict)) :=
  match daily_meetings with
  | [] => Ok []
  | (day, day_meetings) :: rest =>
      b ←ᵣ py_int_gt (Z.of_nat (length day_meetings)) max_daily_limit;
      r ←ᵣ overloaded_days_of max_daily_limit rest;
      Ok (if b then (day, day_meetings) :: r else r)
  end.

(** [[m[key] for m in l]] *)
Fixpoint field_of_each (key : string) (l : list dict) : result (list pyval) :=
  match l with
  | [] => Ok []
  | m :: rest =>
      v ←ᵣ getitem m key;
      r ←ᵣ field_of_each key rest;
      Ok (v :: r)
  end.

(** Lines 608-615. *)
Fixpoint overloaded_recommendations (max_daily_limit : pyval)
    (overloaded_days : list (Z * list dict)) : result (list recommendation) :=
  match overloaded_days with
  | [] => Ok []
  | (day, day_meetings) :: rest =>
      excess ←ᵣ py_slice_from day_meetings max_daily_limit;
      titles ←ᵣ field_of_each "title" excess;
      r ←ᵣ overloaded_recommendations max_daily_limit rest;
      Ok (overloaded_day day (Z.of_nat (length day_meetings)) titles :: r)
  end.

(** Lines 624-635: the consecutive pairs of one sorted day. *)
Fixpoint break_scan (day : Z) (sorted_meetings : list dict)
    (recommendations : list recommendation) : M (list recommendation) :=
  match sorted_meetings with
  | [] => ret recommendations
  | m1 :: rest =>
      match rest with
      | [] => ret recommendations
      | m2 :: _ =>
          current_end ← parse_field m1 "end_time";
          next_start ← parse_field m2 "start_time";
          td ← lift (dt_sub next_start current_end);
          recommendations ←
            (if (total_seconds td <? 900)%float then
               t1 ← lift (getitem m1 "title");
               t2 ← lift (getitem m2 "title");
               ret (recommendations ++ [insufficient_break day t1 t2])
             else ret recommendations);
          break_scan day rest recommendations
      end
  end.

(** Lines 618-635. *)
Definition break_recommendations (daily_meetings : list (Z * list dict))
    (recommendations : list recommendation) : M (list recommendation) :=
  for_each daily_meetings (λ recommendations dm,
    let '(day, day_meetings) := dm in
    if 1 <? Z.of_nat (length day_meetings) then
      keys ← lift (field_of_each "start_time" day_meetings);
      sorted ← lift (sort_by_key (zip keys day_meetings));
      break_scan day (snd <$> sorted) recommendations
    else ret recommendations) recommendations.

(** Lines 638-642. *)
Definition non_business_meetings_of (user_meetings : list dict) : M (list dict) :=
  for_each user_meetings (λ non_business_meetings meeting,
    start_time ← parse_field meeting "start_time";
    ret (if (hour start_time <? 8) || (18 <? hour start_time)
         then non_business_meetings ++ [meeting]
         else non_business_meetings)) [].

(** [optimize_meeting_schedule], lines 579-669. *)
Definition optimize_meeting_schedule (req : OptimizeScheduleRequest)
  : M OptimizeResponse :=
  user_meetings ← get_user_meetings (op_user_id req);
  user_prefs ← get_user_preferences (op_user_id req);
  match user_meetings with
  | [] => ret (NoMeetings (op_user_id req) "No meetings found for optimization")
  | _ =>
      daily_meetings ← group_by_date user_meetings;
      max_daily_limit ← lift (max_daily_limit_of user_prefs);
      overloaded_days ← lift (overloaded_days_of max_daily_limit daily_meetings);
      recommendations ← lift (overloaded_recommendations max_daily_limit overloaded_days);
      recommendations ← break_recommendations daily_meetings recommendations;
      non_business_meetings ← non_business_meetings_of user_meetings;
      recommendations ←
        (match non_business_meetings with
         | [] => ret recommendations
         | _ =>
             titles ← lift (field_of_each "title" non_business_meetings);
             ret (recommendations ++ [non_business_hours titles])
         end);
      let optimization_score :=
        100 - Z.of_nat (length overloaded_days) * 20
            - Z.of_nat (length non_business_meetings) * 10 in
      ret (Optimized (op_user_id req)
             (Z.of_nat (length user_meetings))
             (Z.max 0 optimization_score)
             recommendations
             {| schedule_efficiency :=
                  if 80 <=? optimization_score then "Good" else "Needs improvement";
                workload_distribution_label :=
                  match overloaded_days with [] => "Balanced" | _ => "Unbalanced" end;
                time_utilization :=
                  match non_business_meetings with
                  | [] => "Optimal" | _ => "Suboptimal"
                  end |})
  end.

End Server.

(** ** A concrete environment

    A parser and a printer for the timestamps
    [YYYY-MM-DDTHH:MM:SS[.ffffff][+HH:MM]], on which they agree with
    [datetime.fromisoformat] and [datetime.isoformat], and a clock that
    starts on 2024-01-01T14:30:00 UTC and advances by one second a reading.
    They instantiate the theorems below on concrete data. *)

Definition is_leap (y : Z) : bool :=
  (y mod 4 =? 0) && (negb (y mod 100 =? 0) || (y mod 400 =? 0)).

Definition days_in_month (y m : Z) : Z :=
  if m =? 2 then (if is_leap y then 29 else 28)
  else if (m =? 4) || (m =? 6) || (m =? 9) || (m =? 11) then 30 else 31.

Definition days_before_year (y : Z) : Z :=
  let y' := y - 1 in y' * 365 + y' / 4 - y' / 100 + y' / 400.

Fixpoint days_before_month (y : Z) (m : nat) : Z :=
  match m with
  | O => 0
  | S m' => days_before_month y m' + days_in_month y (Z.of_nat m)
  end.

(** The day number of a calendar date (0 for 0001-01-01). *)
Definition ymd_to_day (y m d : Z) : Z :=
  days_before_year y + days_before_month y (Z.to_nat (m - 1)) + d - 1.

Definition digit_of (c : ascii) : option Z :=
  let n := Z.of_N (N_of_ascii c) in
  if (48 <=? n) && (n <=? 57) then Some (n - 48) else None.

(** Reads exactly [n] decimal digits. *)
Fixpoint read_digits (n : nat) (acc : Z) (s : string) : option (Z * string) :=
  match n with
  | O => Some (acc, s)
  | S n' =>
      match s with
      | String c rest =>
          match digit_of c with
          | Some d => read_digits n' (acc * 10 + d) rest
          | None => None
          end
      | EmptyString => None
      end
  end.

Definition read_char (c : ascii) (s : string) : option string :=
  match s with
  | String c' rest => if Ascii.eqb c c' then Some rest else None
  | EmptyString => None
  end.

(** The optional [.ffffff] and the optional [+HH:MM] or [-HH:MM]. *)
Definition read_fraction (s : string) : option (Z * string) :=
  match s with
  | String "." rest => read_digits 6 0 rest
  | _ => Some (0, s)
  end.

Definition read_offset (s : string) : option (option Z) :=
  match s with
  | EmptyString => Some None
  | String sign rest =>
      if Ascii.eqb sign "+" || Ascii.eqb sign "-" then
        '(h, rest) ← read_digits 2 0 rest;
        rest ← read_char ":" rest;
        '(m, rest) ← read_digits 2 0 rest;
        match rest with
        | EmptyString =>
            if (h <? 24) && (m <? 60) then
              let off := h * us_per_hour + m * us_per_minute in
              Some (Some (if Ascii.eqb sign "-" then - off else off))
            else None
        | _ => None
        end
      else None
  end%stdpp.

Definition sample_fromisoformat (s : string) : option datetime :=
  ('(y, s) ← read_digits 4 0 s;
   s ← read_char "-" s;
   '(mo, s) ← read_digits 2 0 s;
   s ← read_char "-" s;
   '(d, s) ← read_digits 2 0 s;
   s ← read_char "T" s;
   '(h, s) ← read_digits 2 0 s;
   s ← read_char ":" s;
   '(mi, s) ← read_digits 2 0 s;
   s ← read_char ":" s;
   '(sec, s) ← read_digits 2 0 s;
   '(us, s) ← read_fraction s;
   tz ← read_offset s;
   if (1 <=? y) && (1 <=? mo) && (mo <=? 12) && (1 <=? d)
      && (d <=? days_in_month y mo) && (h <? 24) && (mi <? 60) && (sec <? 60)
   then Some {| wall := ymd_to_day y mo d * us_per_day + h * us_per_hour
                        + mi * us_per_minute + sec * us_per_second + us;
                tzinfo := tz |}
   else None)%stdpp.

(** Calendar date of a day number. *)
Fixpoint year_of_day (fuel : nat) (y : Z) (n : Z) : Z * Z :=
  match fuel with
  | O => (y, n)
  | S fuel' =>
      let len := if is_leap y then 366 else 365 in
      if n <? len then (y, n) else year_of_day fuel' (y + 1) (n - len)
  end.

Fixpoint month_of_day (fuel : nat) (y m : Z) (n : Z) : Z * Z :=
  match fuel with
  | O => (m, n)
  | S fuel' =>
      let len := days_in_month y m in
      if n <? len then (m, n) else month_of_day fuel' y (m + 1) (n - len)
  end.

Definition day_to_ymd (n : Z) : Z * Z * Z :=
  let n400 := n / 146097 in
  let '(y, r) := year_of_day 400 (n400 * 400 + 1) (n mod 146097) in
  let '(m, r) := month_of_day 12 y 1 r in
  (y, m, r + 1).

(** [n] written with at least [width] digits. *)
Definition zero_pad (width : nat) (n : Z) : string :=
  let s := pretty n in
  String.concat "" (replicate (width - String.length s)%nat "0") +:+ s.

Definition sample_isoformat (dt : datetime) : string :=
  let '(y, m, d) := day_to_ymd (wall dt / us_per_day) in
  let r := wall dt mod us_per_day in
  let us := r mod us_per_second in
  zero_pad 4 y +:+ "-" +:+ zero_pad 2 m +:+ "-" +:+ zero_pad 2 d +:+ "T"
  +:+ zero_pad 2 (r / us_per_hour) +:+ ":"
  +:+ zero_pad 2 (r mod us_per_hour / us_per_minute) +:+ ":"
  +:+ zero_pad 2 (r mod us_per_minute / us_per_second)
  +:+ (if us =? 0 then "" else "." +:+ zero_pad 6 us)
  +:+ match tzinfo dt with
      | None => ""
      | Some off =>
          (if off <? 0 then "-" else "+")
          +:+ zero_pad 2 (Z.abs off / us_per_hour) +:+ ":"
          +:+ zero_pad 2 (Z.abs off mod us_per_hour / us_per_minute)
      end.

(** 2024-01-01T14:30:00 as a wall-clock reading. *)
Definition sample_epoch : Z := ymd_to_day 2024 1 1 * us_per_day + 14 * us_per_hour + 30 * us_per_minute.

Definition sample_env : env := {|
  fromisoformat := sample_fromisoformat;
  dateutil_parse := sample_fromisoformat;
  isoformat := sample_isoformat;
  clock := λ n, sample_epoch + Z.of_nat n * us_per_second;
  localtime := λ t, t
|}.

(** ** The specification's notions *)

(** §4.1 [parseInstant]: the first attempt that succeeds, in the order
    (a) direct ISO parse, (b) [Z] replaced by [+00:00], (c) the ISO parse
    again, (d) the permissive parser. *)
Definition first_parsed (E : env) (s : string) : option datetime :=
  match fromisoformat E s with
  | Some d => Some d
  | None =>
      match fromisoformat E (replace_Z s) with
      | Some d => Some d
      | None => dateutil_parse E s
      end
  end.

(** "Any instant lacking a timezone is assigned UTC." *)
Definition assign_utc_if_naive (d : datetime) : datetime :=
  match tzinfo d with
  | None => {| wall := wall d; tzinfo := Some 0 |}
  | Some off => {| wall := wall d; tzinfo := Some off |}
  end.

(** "The current instant in UTC", and the state after reading the clock. *)
Definition current_instant_utc (E : env) (st : state) : datetime :=
  {| wall := clock E (ticks st); tzinfo := Some 0 |}.
Definition after_clock_reading (st : state) : state :=
  {| meetings := meetings st; users := users st; ticks := S (ticks st) |}.

(** §4.1 [parseInstant] on a text that may be absent. *)
Definition parseInstant (E : env) (text : option string) (st : state)
  : datetime * state :=
  match text with
  | None => (current_instant_utc E st, after_clock_reading st)
  | Some s =>
      if String.eqb s "" then (current_instant_utc E st, after_clock_reading st)
      else match first_parsed E s with
           | Some d => (assign_utc_if_naive d, st)
           | None => (current_instant_utc E st, after_clock_reading st)
           end
  end.

(** §4.1 [intervalsOverlap], on instants. *)
Definition intervalsOverlap (startA endA startB endB : Z) : bool :=
  (startA <? endB) && (startB <? endA).

(** The instant that a stored timestamp denotes when it parses (so that
    the clock is not consulted). *)
Definition known_time (E : env) (v : pyval) : option datetime :=
  match v with
  | PStr s =>
      if String.eqb s "" then None else assign_utc_if_naive <$> first_parsed E s
  | _ => None
  end.

(** Start and end of a meeting whose two timestamps parse. *)
Definition meeting_span (E : env) (m : dict) : option (datetime * datetime) :=
  match m !! "start_time", m !! "end_time" with
  | Some vs, Some ve =>
      match known_time E vs, known_time E ve with
      | Some s, Some e => Some (s, e)
      | _, _ => None
      end
  | _, _ => None
  end.

(** *** Notions used in the statements *)

(** The data ([meetings], [users]) is the same in two states. *)
Definition same_data (st st' : state) : Prop :=
  meetings st' = meetings st ∧ users st' = users st.

Definition keeps_data {A} (c : M A) : Prop := ∀ st, same_data st (c st).2.
Definition block_keeps_data {S} (b : K S) : Prop := ∀ st, same_data st (b st).2.

(** A stored meeting that [conflicts_detected] can name: it has the title
    and the start time of the entry, and an end time. *)
Definition names_stored_meeting (data_meetings : list dict) (c : detected_conflict) : Prop :=
  ∃ m, m ∈ data_meetings
       ∧ m !! "title" = Some (dc_conflicting_meeting c)
       ∧ m !! "start_time" = Some (dc_conflict_time c)
       ∧ is_Some (m !! "end_time").

(** A member without meetings whose preferences can be read. *)
Definition idle_member (st : state) (member : string) : Prop :=
  user_meetings_of member (meetings st) = Ok []
  ∧ ∃ prefs limit, user_preferences_of member (users st) = Ok prefs
                   ∧ max_daily_limit_of prefs = Ok limit.

(** §4.6: the weighted sum of the five sub-scores, as lines 490-546
    accumulate it. *)
Definition weighted_score (ds ps ts ty ags : Z) : float :=
  (0 + Z2float ds * 0.2 + Z2float ps * 0.15 + Z2float ts * 0.15
   + Z2float ty * 0.2 + Z2float ags * 0.1)%float.

(** The values of a three-level sub-score. *)
Definition level (z : Z) : Prop := z = 10 ∨ z = 7 ∨ z = 4.

(** §4.3 [detectConflictsInRange]: "start or end falls inside
    [rangeStart, rangeEnd], or span fully contains the range". *)
Definition falls_inside (range_start range_end x : datetime) : bool :=
  (instant range_start <=? instant x) && (instant x <=? instant range_end).

Definition span_contains_range (s e range_start range_end : datetime) : bool :=
  (instant s <=? instant range_start) && (instant range_end <=? instant e).

Definition reported_in_range (E : env) (range_start range_end : datetime) (m : dict)
  : bool :=
  match meeting_span E m with
  | Some (s, e) =>
      falls_inside range_start range_end s || falls_inside range_start range_end e
      || span_contains_range s e range_start range_end
  | None => false
  end.

(** The test as lines 276-278 write it: the third condition is that the
    range start falls inside the meeting. *)
Definition reported_by_code (E : env) (range_start range_end : datetime) (m : dict)
  : bool :=
  match meeting_span E m with
  | Some (s, e) =>
      falls_inside range_start range_end s || falls_inside range_start range_end e
      || falls_inside s e range_start
  | None => false
  end.

(** The entry of [conflicts] for a meeting that has the five fields. *)
Definition range_conflict_of (m : dict) : range_conflict :=
  {| rc_meeting_id := default PNone (m !! "id");
     rc_title := default PNone (m !! "title");
     rc_start_time := default PNone (m !! "start_time");
     rc_end_time := default PNone (m !! "end_time");
     rc_participants := default PNone (m !! "participants") |}.

(** A stored meeting as §3 describes it, for the range query: its two
    timestamps parse and it has an id, a title and participants. *)
Definition listed_meeting (E : env) (m : dict) : Prop :=
  is_Some (meeting_span E m) ∧ is_Some (m !! "id") ∧ is_Some (m !! "title")
  ∧ is_Some (m !! "participants").

(** Both ends of an interval are timezone-aware. *)
Definition aware_pair (b : datetime * datetime) : Prop := aware b.1 ∧ aware b.2.

(** §4.4 [findAvailableSlots]: what is promised of an emitted slot. It
    starts a whole number of hours after the range start, lasts
    [duration] minutes, ends no later than the range end, and overlaps no
    busy interval. *)
Definition available_slot (range_start range_end : datetime) (duration : Z)
    (busy_times : list (datetime * datetime)) (sl : slot) : Prop :=
  (∃ k : Z, 0 ≤ k
     ∧ instant (slot_start_time sl) = instant range_start + k * us_per_hour)
  ∧ instant (slot_end_time sl) - instant (slot_start_time sl) = duration * us_per_minute
  ∧ slot_duration_minutes sl = duration
  ∧ instant (slot_end_time sl) ≤ instant range_end
  ∧ Forall (λ b, intervalsOverlap (instant (slot_start_time sl))
                   (instant (slot_end_time sl))
                   (instant b.1) (instant b.2) = false) busy_times.

(** Iterations that the hourly walk can need, plus the one that leaves it. *)
Definition scan_fuel (range_start range_end : datetime) (duration : Z) : nat :=
  S (Z.to_nat (Z.max 0
       ((instant range_end - instant range_start - duration * us_per_minute)
          / us_per_hour + 1))).

(** The spans of the meetings that start inside the range. *)
Definition spans_starting_in (E : env) (range_start range_end : datetime)
    (l : list dict) : list (datetime * datetime) :=
  l ≫= λ m,
    match meeting_span E m with
    | Some (s, e) => if falls_inside range_start range_end s then [(s, e)] else []
    | None => []
    end.

(** The meetings of a participant ([[]] when the lookup raises). *)
Definition meetings_of (data_meetings : list dict) (participant : string) : list dict :=
  match user_meetings_of participant data_meetings with
  | Ok l => l
  | Raise _ => []
  end.

(** Every participant's meetings can be listed and have timestamps that parse. *)
Definition timed_participants (E : env) (data_meetings : list dict)
    (participants : list string) : Prop :=
  Forall (λ p, ∃ l, user_meetings_of p data_meetings = Ok l
                    ∧ Forall (λ m, is_Some (meeting_span E m)) l) participants.

(** §4.8 [optimizeSchedule]. The start of a meeting whose timestamps parse. *)
Definition start_of (E : env) (m : dict) : datetime :=
  match meeting_span E m with
  | Some (s, _) => s
  | None => {| wall := 0; tzinfo := None |}
  end.

(** The distinct values of a list, in the order in which they first occur. *)
Definition first_occurrences (l : list Z) : list Z :=
  fold_left (λ acc d, if decide (d ∈ acc) then acc else acc ++ [d]) l [].

(** The calendar dates of the meetings, and the meetings of one date. *)
Definition dates_of (E : env) (l : list dict) : list Z :=
  first_occurrences ((λ m, date (start_of E m)) <$> l).

Definition meetings_on (E : env) (day : Z) (l : list dict) : list dict :=
  filter (λ m, date (start_of E m) = day) l.

(** "Dates whose meeting count exceeds the limit." *)
Definition overloaded_dates (E : env) (limit : Z) (l : list dict) : list Z :=
  filter (λ day, limit < Z.of_nat (length (meetings_on E day l))) (dates_of E l).

(** "Starting before 08:00 or after 18:00", on the time of day. *)
Definition starts_before_8_or_after_18 (dt : datetime) : bool :=
  let time_of_day := wall dt mod us_per_day in
  (time_of_day <? 8 * us_per_hour) || (18 * us_per_hour <? time_of_day).

(** The same on the hour alone, as line 641 tests it: a start from 18:00
    to 18:59 is inside business hours. *)
Definition start_hour_outside_8_to_18 (dt : datetime) : bool :=
  (hour dt <? 8) || (18 <? hour dt).

(** "Score starts at 100, loses 20 per overloaded day and 10 per
    non-business-hours meeting, floored at 0." *)
Definition optimization_score_of (outside : datetime → bool) (E : env)
    (limit : Z) (l : list dict) : Z :=
  Z.max 0 (100 - 20 * Z.of_nat (length (overloaded_dates E limit l))
               - 10 * Z.of_nat (length (filter (λ m, outside (start_of E m) = true) l))).

(** The grouping that lines 593-598 build. *)
Definition group_step (key : dict → Z) (acc : list (Z * list dict)) (m : dict)
  : list (Z * list dict) :=
  assoc_set (key m) (default [] (assoc_get (key m) acc) ++ [m]) acc.

Definition grouped (key : dict → Z) (l : list dict) : list (Z * list dict) :=
  fold_left (group_step key) l [].

Definition titles_of (l : list dict) : list pyval :=
  (λ m, default PNone (m !! "title")) <$> l.

Definition is_overloaded_day (r : recommendation) : bool :=
  match r with overloaded_day _ _ _ => true | _ => false end.

Definition is_insufficient_break (r : recommendation) : Prop :=
  match r with insufficient_break _ _ _ => True | _ => False end.

(** A meeting of the schedule: its timestamps parse and it has a title. *)
Definition scheduled_meeting (E : env) (m : dict) : Prop :=
  is_Some (meeting_span E m) ∧ is_Some (m !! "title").

(** [l[n:]] for an int [n]. *)
Definition slice_from {A} (n : Z) (l : list A) : list A :=
  if 0 <=? n then drop (Z.to_nat n) l
  else drop (Z.to_nat (Z.of_nat (length l) + n)) l.

(** Sort keys that are strings. *)
Definition str_key (kv : pyval * dict) : Prop := ∃ s, kv.1 = PStr s.

(** §4.4 [findOptimalSlots]: slot [i] as the loop of lines 242-252 builds
    it, [i+1] days and 9 hours after the clock reading. *)
Definition slot_after (now : datetime) (duration : Z) (i : Z) : optimal_slot :=
  let start := wall now + ((i + 1) * us_per_day + 9 * us_per_hour) in
  {| opt_start_time := {| wall := start; tzinfo := tzinfo now |};
     opt_end_time := {| wall := start + duration * us_per_minute; tzinfo := tzinfo now |};
     opt_duration_minutes := duration;
     ai_score := 10 - i;
     recommended := i <? 2 |}.

(** *** Notions for the helpers and the other endpoints *)

(** The participants of a meeting are a list that names the user. *)
Definition attends (user_id : string) (m : dict) : bool :=
  match m !! "participants" with
  | Some (PList l) => existsb (λ v, py_eq_str v user_id) l
  | _ => false
  end.

Definition has_participant_list (m : dict) : Prop :=
  ∃ l, m !! "participants" = Some (PList l).

(** A record whose field [key] is there and is not the string [s]. *)
Definition field_differs (key s : string) (r : dict) : Prop :=
  ∃ v, r !! key = Some v ∧ py_eq_str v s = false.

(** Candidate [k] of the hourly walk of [find_available_slots]: it starts
    [k] hours after the range start and lasts [duration] minutes. *)
Definition slot_at (range_start : datetime) (duration : Z) (k : Z) : slot :=
  {| slot_start_time :=
       {| wall := wall range_start + k * us_per_hour; tzinfo := tzinfo range_start |};
     slot_end_time :=
       {| wall := wall range_start + k * us_per_hour + duration * us_per_minute;
          tzinfo := tzinfo range_start |};
     slot_duration_minutes := duration |}.

(** The number of candidates that end by the range end. *)
Definition candidates (range_start range_end : datetime) (duration : Z) : Z :=
  Z.max 0 ((instant range_end - instant range_start - duration * us_per_minute)
             / us_per_hour + 1).

(** The slot overlaps none of the busy intervals. *)
Definition slot_is_free (busy_times : list (datetime * datetime)) (sl : slot) : bool :=
  forallb (λ b, negb (intervalsOverlap (instant (slot_start_time sl))
                        (instant (slot_end_time sl)) (instant b.1) (instant b.2)))
    busy_times.

(** The free candidates, in the order of the walk. *)
Definition free_slots (range_start range_end : datetime) (duration : Z)
    (busy_times : list (datetime * datetime)) : list slot :=
  filter (λ sl, slot_is_free busy_times sl = true)
    (slot_at range_start duration <$> seqZ 0 (candidates range_start range_end duration)).

(** The sum of the counts of a distribution. *)
Definition total_count {K} (d : list (K * Z)) : Z := foldr Z.add 0 (snd <$> d).

(** The answer of [analyze_meeting_patterns] with another period. *)
Definition with_period (period : string) (r : PatternAnalysisResponse)
  : PatternAnalysisResponse :=
  match r with
  | NoMeetingsFound user_id _ message => NoMeetingsFound user_id period message
  | Patterns user_id _ patterns => Patterns user_id period patterns
  end.

(** The title of the meeting is a str that contains the topic, case ignored. *)
Definition title_mentions (meeting_topic : string) (m : dict) : bool :=
  match similar_title meeting_topic m with
  | Ok b => b
  | Raise _ => false
  end.

(** The counts of an entry of [workload_distribution] agree with the
    meetings of its member: all of them are counted, and the busiest day
    has at least one of them and at most all. *)
Definition counts_of_member (data_meetings : list dict)
    (mw : string * member_workload) : Prop :=
  let n := Z.of_nat (length (meetings_of data_meetings mw.1)) in
  total_meetings mw.2 = n
  ∧ 0 ≤ max_daily_meetings mw.2 ≤ n
  ∧ (0 < n → 1 ≤ max_daily_meetings mw.2).

(** The meeting has begun and has not ended at the instant [x]. *)
Definition in_progress_at (E : env) (x : datetime) (m : dict) : bool :=
  match meeting_span E m with
  | Some (s, e) => falls_inside s e x
  | None => false
  end.

(** ** Sample data *)

Definition meeting_record (id title : string) (participants : list string)
    (start_time end_time agenda meeting_type : string) (score : pyval) : dict :=
  <["id" := PStr id]>
  (<["title" := PStr title]>
  (<["participants" := PList (PStr <$> participants)]>
  (<["start_time" := PStr start_time]>
  (<["end_time" := PStr end_time]>
  (<["agenda" := PStr agenda]>
  (<["meeting_type" := PStr meeting_type]>
  (<["effectiveness_score" := score]> ∅))))))).

Definition sample_state (data_meetings data_users : list dict) : state :=
  {| meetings := data_meetings; users := data_users; ticks := 0 |}.

(** A 45-minute planning meeting of three people at 10:00, with an agenda
    of more than 20 characters and a stored effectiveness score of 0. *)
Definition best_meeting : dict :=
  meeting_record "m1" "Roadmap planning" ["alice"; "bob"; "carol"]
    "2024-01-15T10:00:00" "2024-01-15T10:45:00"
    "Review the roadmap and assign owners" "planning" (PFloat 0).

Definition default_response : EffectivenessResponse :=
  {| er_status := ""; er_meeting_id := ""; er_meeting_title := PNone;
     effectiveness_score := 0;
     er_score_breakdown :=
       {| duration_score := 0; participant_score := 0; time_score := 0;
          type_score := 0; agenda_score := 0; historical_score := None |};
     improvement_suggestions := []; ai_analysis := false |}.

(** The answer of [score_meeting_effectiveness] for [best_meeting]. *)
Definition best_response : EffectivenessResponse :=
  Eval vm_compute in
    match (score_meeting_effectiveness sample_env {| es_meeting_id := "m1" |}
             (sample_state [best_meeting] [])).1 with
    | Ok r => r
    | Raise _ => default_response
    end.

(** A time of day on 2024-01-15, in UTC. *)
Definition on_2024_01_15 (h m : Z) : datetime :=
  {| wall := ymd_to_day 2024 1 15 * us_per_day + h * us_per_hour + m * us_per_minute;
     tzinfo := Some 0 |}.

(** Two meetings that touch at 10:00. *)
Definition meeting_9_to_10 : dict :=
  meeting_record "m1" "Standup" ["alice"]
    "2024-01-15T09:00:00" "2024-01-15T10:00:00" "" "standup" (PFloat 0).
Definition meeting_10_to_11 : dict :=
  meeting_record "m2" "Review" ["alice"]
    "2024-01-15T10:00:00" "2024-01-15T11:00:00" "" "review" (PFloat 0).

(** A meeting from 08:00 to 10:30, in progress at 09:00. *)
Definition in_progress_meeting : dict :=
  meeting_record "m7" "Workshop" ["alice"]
    "2024-01-15T08:00:00" "2024-01-15T10:30:00" "" "workshop" (PFloat 0).

Definition morning_range : list string :=
  ["2024-01-15T09:00:00"; "2024-01-15T12:00:00"].

(** A meeting that starts at 18:30. *)
Definition evening_meeting : dict :=
  meeting_record "m8" "Late sync" ["alice"]
    "2024-01-15T18:30:00" "2024-01-15T19:00:00" "" "team_sync" (PFloat 0).

(** Seven half-hour meetings of alice on 2024-01-15, on the hour from 09:00. *)
Definition busy_day : list dict :=
  [ meeting_record "m1" "Meeting 1" ["alice"]
      "2024-01-15T09:00:00" "2024-01-15T09:30:00" "" "general" (PFloat 0);
    meeting_record "m2" "Meeting 2" ["alice"]
      "2024-01-15T10:00:00" "2024-01-15T10:30:00" "" "general" (PFloat 0);
    meeting_record "m3" "Meeting 3" ["alice"]
      "2024-01-15T11:00:00" "2024-01-15T11:30:00" "" "general" (PFloat 0);
    meeting_record "m4" "Meeting 4" ["alice"]
      "2024-01-15T12:00:00" "2024-01-15T12:30:00" "" "general" (PFloat 0);
    meeting_record "m5" "Meeting 5" ["alice"]
      "2024-01-15T13:00:00" "2024-01-15T13:30:00" "" "general" (PFloat 0);
    meeting_record "m6" "Meeting 6" ["alice"]
      "2024-01-15T14:00:00" "2024-01-15T14:30:00" "" "general" (PFloat 0);
    meeting_record "m7" "Meeting 7" ["alice"]
      "2024-01-15T15:00:00" "2024-01-15T15:30:00" "" "general" (PFloat 0) ].

(** The preferences of alice: at most 5 meetings a day. *)
Definition alice_preferences : dict :=
  <["user_id" := PStr "alice"]>
  (<["meeting_preferences" := PDict (<["max_daily_meetings" := PInt 5]> ∅)]> ∅).

(** A meeting record without an end time. *)
Definition meeting_without_end : dict := delete "end_time" meeting_10_to_11.

(** A meeting of bob alone from 11:30 to 12:30, with a stored score of 9,
    and a record without participants. *)
Definition bob_meeting : dict :=
  meeting_record "m3" "Budget review" ["bob"]
    "2024-01-15T11:30:00" "2024-01-15T12:30:00" "Quarterly budget" "review" (PInt 9).

Definition meeting_without_participants : dict :=
  delete "participants" meeting_9_to_10.

(** The preferences of bob, and a second record of alice. *)
Definition bob_preferences : dict :=
  <["user_id" := PStr "bob"]>
  (<["meeting_preferences" := PDict (<["max_daily_meetings" := PInt 3]> ∅)]> ∅).

Definition alice_second_record : dict := <["user_id" := PStr "alice"]> ∅.

(** A range whose first bound, 12:00, is after its second, 09:30. *)
Definition backward_range : list string :=
  ["2024-01-15T12:00:00"; "2024-01-15T09:30:00"].

(** A request for a half-hour meeting of alice and bob at 10:30, and the
    same with a start time that is no timestamp. *)
Definition sync_request : MeetingCreateRequest :=
  {| mc_title := "Weekly sync";
     mc_participants := ["alice"; "bob"];
     mc_duration := 30;
     mc_start_time := Some "2024-01-15T10:30:00";
     mc_timezone := "UTC";
     mc_agenda := None;
     mc_meeting_type := "team_sync" |}.

Definition vague_request : MeetingCreateRequest :=
  {| mc_title := "Weekly sync";
     mc_participants := ["alice"; "bob"];
     mc_duration := 30;
     mc_start_time := Some "tomorrow-ish";
     mc_timezone := "UTC";
     mc_agenda := None;
     mc_meeting_type := "team_sync" |}.

(** The stored meetings of the examples: two of alice, one of bob. *)
Definition three_meetings : list dict :=
  [meeting_9_to_10; meeting_10_to_11; bob_meeting].

(** * Proofs *)

Ltac unfold_monad :=
  unfold bind_M, bind_result, ret, lift, raise, try_except, try_print,
    get_meetings, get_users in *.

Section Proofs.
Context (E : env).

Lemma ensure_utc_assign d : ensure_utc d = assign_utc_if_naive d.
Proof. destruct d as [w [o|]]; reflexivity. Qed.

Lemma assign_utc_aware d : aware (assign_utc_if_naive d).
Proof. destruct d as [w [o|]]; unfold aware; simpl; eauto. Qed.

Lemma ensure_utc_aware d : aware d → ensure_utc d = d.
Proof. destruct d as [w [o|]]; [reflexivity|]. intros [? [=]]. Qed.

(** [parse_datetime] on a non-empty string: the four attempts, then the clock. *)
Lemma parse_datetime_str s st :
  String.eqb s "" = false →
  parse_datetime E (PStr s) st =
    match first_parsed E s with
    | Some d => (Ok (assign_utc_if_naive d), st)
    | None => (Ok (current_instant_utc E st), after_clock_reading st)
    end.
Proof.
  intros Hs. unfold parse_datetime, first_parsed. simpl. rewrite Hs. simpl.
  unfold_monad. simpl.
  destruct (fromisoformat E s) as [d|] eqn:H1; simpl.
  { by rewrite ensure_utc_assign. }
  destruct (fromisoformat E (replace_Z s)) as [d|] eqn:H2; simpl.
  { by rewrite ensure_utc_assign. }
  destruct (dateutil_parse E s) as [d|] eqn:H3; simpl.
  { by rewrite ensure_utc_assign. }
  reflexivity.
Qed.

Lemma parse_datetime_opt_str text st :
  parse_datetime E (opt_str text) st =
    (Ok (parseInstant E text st).1, (parseInstant E text st).2).
Proof.
  destruct text as [s|]; [|reflexivity].
  simpl. destruct (String.eqb s "") eqn:Hs.
  - unfold parse_datetime. simpl. rewrite Hs. reflexivity.
  - rewrite parse_datetime_str by done. by destruct (first_parsed E s).
Qed.

Lemma parseInstant_aware text st : aware (parseInstant E text st).1.
Proof.
  unfold parseInstant.
  destruct text as [s|]; [|by (unfold aware; simpl; eauto)].
  destruct (String.eqb s ""); [by (unfold aware; simpl; eauto)|].
  destruct (first_parsed E s); [apply assign_utc_aware|].
  unfold aware; simpl; eauto.
Qed.

(** C5. For every input text (empty, absent and unparseable included)
    [parse_datetime] raises nothing: it returns the instant that
    [parseInstant] describes (the first successful attempt, given UTC when
    it has no timezone; the current instant in UTC when the text is empty
    or absent or every attempt fails), and that instant is timezone-aware. *)
Theorem parse_datetime_never_fails (text : option string) (st : state) :
  parse_datetime E (opt_str text) st
    = (Ok (parseInstant E text st).1, (parseInstant E text st).2)
  ∧ aware (parseInstant E text st).1.
Proof. split; [apply parse_datetime_opt_str | apply parseInstant_aware]. Qed.

(** *** Timestamps that parse *)

Lemma known_time_aware v d : known_time E v = Some d → aware d.
Proof.
  destruct v; try discriminate. simpl.
  destruct (String.eqb s ""); [discriminate|].
  destruct (first_parsed E s); [|discriminate].
  intros [= <-]. apply assign_utc_aware.
Qed.

Lemma parse_datetime_known v d st :
  known_time E v = Some d → parse_datetime E v st = (Ok d, st).
Proof.
  destruct v; try discriminate. simpl.
  destruct (String.eqb s "") eqn:Hs; [discriminate|].
  rewrite parse_datetime_str by done.
  destruct (first_parsed E s); [|discriminate]. by intros [= <-].
Qed.

Lemma parse_field_known m k v d st :
  m !! k = Some v → known_time E v = Some d →
  parse_field E m k st = (Ok d, st).
Proof.
  intros Hk Hv. unfold parse_field, getitem. unfold_monad. rewrite Hk.
  by apply parse_datetime_known.
Qed.

Lemma meeting_span_fields m s e :
  meeting_span E m = Some (s, e) →
  ∃ vs ve, m !! "start_time" = Some vs ∧ m !! "end_time" = Some ve
           ∧ known_time E vs = Some s ∧ known_time E ve = Some e.
Proof.
  unfold meeting_span.
  destruct (m !! "start_time") as [vs|]; [|discriminate].
  destruct (m !! "end_time") as [ve|]; [|discriminate].
  destruct (known_time E vs) as [s'|] eqn:Hs; [|discriminate].
  destruct (known_time E ve) as [e'|] eqn:He; [|discriminate].
  intros [= <- <-]. eauto 10.
Qed.

Lemma meeting_span_aware m s e :
  meeting_span E m = Some (s, e) → aware s ∧ aware e.
Proof.
  intros (vs & ve & _ & _ & Hs & He)%meeting_span_fields.
  split; eapply known_time_aware; eauto.
Qed.

Lemma parse_start_span m s e st :
  meeting_span E m = Some (s, e) → parse_field E m "start_time" st = (Ok s, st).
Proof.
  intros (vs & ve & H1 & _ & Hs & _)%meeting_span_fields.
  eapply parse_field_known; eauto.
Qed.

Lemma parse_end_span m s e st :
  meeting_span E m = Some (s, e) → parse_field E m "end_time" st = (Ok e, st).
Proof.
  intros (vs & ve & _ & H2 & _ & He)%meeting_span_fields.
  eapply parse_field_known; eauto.
Qed.

Lemma dt_cmp_aware op a b :
  aware a → aware b → dt_cmp op a b = Ok (op (instant a) (instant b)).
Proof.
  destruct a as [wa [oa|]], b as [wb [ob|]]; intros [? Ha] [? Hb];
    simpl in *; try discriminate; reflexivity.
Qed.

Lemma dt_lt_aware a b : aware a → aware b → dt_lt a b = Ok (instant a <? instant b).
Proof. apply dt_cmp_aware. Qed.

Lemma dt_le_aware a b : aware a → aware b → dt_le a b = Ok (instant a <=? instant b).
Proof. apply dt_cmp_aware. Qed.

Lemma dt_sub_aware a b : aware a → aware b → dt_sub a b = Ok (instant a - instant b).
Proof.
  destruct a as [wa [oa|]], b as [wb [ob|]]; intros [? Ha] [? Hb];
    simpl in *; try discriminate; reflexivity.
Qed.

Lemma dt_plus_Ok a days hours minutes b :
  dt_plus a days hours minutes = Ok b →
  b = {| wall := wall a + (days * us_per_day + hours * us_per_hour
                           + minutes * us_per_minute);
         tzinfo := tzinfo a |}.
Proof.
  unfold dt_plus, timedelta, dt_add.
  destruct (_ && _); [|discriminate]. destruct (_ && _); [|discriminate].
  by intros [= <-].
Qed.

Lemma dt_plus_aware a days hours minutes b :
  dt_plus a days hours minutes = Ok b → aware a → aware b.
Proof. by intros ->%dt_plus_Ok. Qed.

Lemma dt_plus_instant a days hours minutes b :
  dt_plus a days hours minutes = Ok b →
  instant b = instant a + (days * us_per_day + hours * us_per_hour
                           + minutes * us_per_minute).
Proof. intros ->%dt_plus_Ok. unfold instant. simpl. lia. Qed.

(** *** [check_time_conflict] *)

Lemma check_time_conflict_spans m1 m2 s1 e1 s2 e2 st :
  meeting_span E m1 = Some (s1, e1) →
  meeting_span E m2 = Some (s2, e2) →
  check_time_conflict E m1 m2 st
    = (Ok (intervalsOverlap (instant s1) (instant e1) (instant s2) (instant e2)), st).
Proof.
  intros H1 H2. unfold check_time_conflict, bind_M, try_except.
  rewrite (parse_start_span _ _ _ _ H1), (parse_end_span _ _ _ _ H1).
  rewrite (parse_start_span _ _ _ _ H2), (parse_end_span _ _ _ _ H2).
  destruct (meeting_span_aware _ _ _ H1) as [As1 Ae1].
  destruct (meeting_span_aware _ _ _ H2) as [As2 Ae2].
  rewrite !ensure_utc_aware by done.
  unfold lift, ret, intervalsOverlap.
  rewrite !dt_lt_aware by done.
  by destruct (instant s1 <? instant e2).
Qed.

(** C4. For two meetings A and B whose timestamps parse,
    [check_time_conflict] answers true iff start(A) < end(B) and
    start(B) < end(A); hence it gives the same answer with A and B
    exchanged, and it answers false when end(A) = start(B). *)
Theorem check_time_conflict_half_open m1 m2 s1 e1 s2 e2 st :
  meeting_span E m1 = Some (s1, e1) →
  meeting_span E m2 = Some (s2, e2) →
  (∃ b, check_time_conflict E m1 m2 st = (Ok b, st)
        ∧ (b = true ↔ instant s1 < instant e2 ∧ instant s2 < instant e1))
  ∧ check_time_conflict E m2 m1 st = check_time_conflict E m1 m2 st
  ∧ (instant e1 = instant s2 → check_time_conflict E m1 m2 st = (Ok false, st)).
Proof.
  intros H1 H2.
  rewrite (check_time_conflict_spans _ _ _ _ _ _ _ H1 H2).
  rewrite (check_time_conflict_spans _ _ _ _ _ _ _ H2 H1).
  unfold intervalsOverlap. split; [|split].
  - eexists; split; [reflexivity|].
    rewrite andb_true_iff, !Z.ltb_lt. tauto.
  - by rewrite andb_comm.
  - intros Heq. rewrite Heq.
    do 2 f_equal. rewrite andb_false_iff, !Z.ltb_ge. lia.
Qed.

(** *** The data is only changed by [append_meeting] *)

Lemma same_data_refl st : same_data st st.
Proof. by split. Qed.

Lemma same_data_trans st1 st2 st3 :
  same_data st1 st2 → same_data st2 st3 → same_data st1 st3.
Proof. intros [? ?] [? ?]. split; congruence. Qed.

Lemma keeps_data_ret {A} (a : A) : keeps_data (ret a).
Proof. intros st. apply same_data_refl. Qed.

Lemma keeps_data_raise {A} e : keeps_data (@raise A e).
Proof. intros st. apply same_data_refl. Qed.

Lemma keeps_data_lift {A} (r : result A) : keeps_data (lift r).
Proof. intros st. apply same_data_refl. Qed.

Lemma keeps_data_bind {A B} (c : M A) (k : A → M B) :
  keeps_data c → (∀ a, keeps_data (k a)) → keeps_data (bind_M c k).
Proof.
  intros Hc Hk st. unfold bind_M. specialize (Hc st).
  destruct (c st) as [[a|e] st1]; simpl in *; [|done].
  eapply same_data_trans; [done|apply Hk].
Qed.

Lemma keeps_data_try {A} (c h : M A) handled :
  keeps_data c → keeps_data h → keeps_data (try_except c handled h).
Proof.
  intros Hc Hh st. unfold try_except. specialize (Hc st).
  destruct (c st) as [[a|e] st1]; simpl in *; [done|].
  destruct (handled e); [|done].
  eapply same_data_trans; [done|apply Hh].
Qed.

Lemma keeps_data_now_utc : keeps_data (now_utc E).
Proof. intros st. by split. Qed.

Lemma keeps_data_get_meetings : keeps_data get_meetings.
Proof. intros st. apply same_data_refl. Qed.

Lemma keeps_data_get_users : keeps_data get_users.
Proof. intros st. apply same_data_refl. Qed.

Lemma keeps_data_for_each {A S} (l : list A) (body : S → A → M S) acc :
  (∀ acc x, keeps_data (body acc x)) → keeps_data (for_each l body acc).
Proof.
  intros Hb. revert acc. induction l as [|x xs IH]; intros acc; simpl.
  - apply keeps_data_ret.
  - apply keeps_data_bind; [apply Hb | intros a; apply IH].
Qed.

Ltac keeps_data_step :=
  first
    [ apply keeps_data_ret | apply keeps_data_raise | apply keeps_data_lift
    | apply keeps_data_now_utc | apply keeps_data_get_meetings
    | apply keeps_data_get_users
    | apply keeps_data_bind; [|intros ?]
    | apply keeps_data_try
    | apply keeps_data_for_each; intros ? ? ].

Lemma keeps_data_py_fromisoformat v : keeps_data (py_fromisoformat E v).
Proof.
  destruct v; simpl; try apply keeps_data_raise.
  destruct (fromisoformat E s); [apply keeps_data_ret | apply keeps_data_raise].
Qed.

Lemma keeps_data_py_dateutil_parse v : keeps_data (py_dateutil_parse E v).
Proof.
  destruct v; simpl; try apply keeps_data_raise.
  destruct (dateutil_parse E s); [apply keeps_data_ret | apply keeps_data_raise].
Qed.

Lemma keeps_data_py_replace_Z v : keeps_data (py_replace_Z v).
Proof. destruct v; simpl; first [apply keeps_data_ret | apply keeps_data_raise]. Qed.

Lemma keeps_data_parse_datetime v : keeps_data (parse_datetime E v).
Proof.
  unfold parse_datetime. destruct (negb (truthy v)); [apply keeps_data_now_utc|].
  repeat first
    [ apply keeps_data_py_fromisoformat | apply keeps_data_py_dateutil_parse
    | apply keeps_data_py_replace_Z | keeps_data_step ].
Qed.

Lemma keeps_data_parse_field m k : keeps_data (parse_field E m k).
Proof.
  unfold parse_field. apply keeps_data_bind; [apply keeps_data_lift|].
  intros v. apply keeps_data_parse_datetime.
Qed.

Lemma keeps_data_check_time_conflict m1 m2 : keeps_data (check_time_conflict E m1 m2).
Proof.
  unfold check_time_conflict.
  apply keeps_data_try; [|apply keeps_data_ret].
  repeat first [ apply keeps_data_parse_field | keeps_data_step ].
  destruct a3; keeps_data_step.
Qed.

Lemma get_user_meetings_run user_id st :
  get_user_meetings user_id st = (user_meetings_of user_id (meetings st), st).
Proof. reflexivity. Qed.

Lemma get_user_preferences_run user_id st :
  get_user_preferences user_id st = (user_preferences_of user_id (users st), st).
Proof. reflexivity. Qed.

Lemma keeps_data_get_user_meetings u : keeps_data (get_user_meetings u).
Proof. intros st. apply same_data_refl. Qed.

(** The meetings of a user are meetings of the data, in the same order. *)
Lemma user_meetings_of_sublist user_id data_meetings user_meetings :
  user_meetings_of user_id data_meetings = Ok user_meetings →
  sublist user_meetings data_meetings.
Proof.
  revert user_meetings. induction data_meetings as [|m rest IH]; simpl.
  - intros ? [= <-]. constructor.
  - intros ums. unfold bind_result.
    destruct (getitem m "participants") as [ps|]; [|discriminate].
    destruct (py_in user_id ps) as [b|]; [|discriminate].
    destruct (user_meetings_of user_id rest) as [r|]; [|discriminate].
    intros [= <-]. destruct b; [apply sublist_skip|apply sublist_cons]; by apply IH.
Qed.

Lemma user_meetings_of_elem user_id data_meetings user_meetings m :
  user_meetings_of user_id data_meetings = Ok user_meetings →
  m ∈ user_meetings → m ∈ data_meetings.
Proof.
  intros H%user_meetings_of_sublist Hm. eapply sublist_submseteq, elem_of_submseteq in H; eauto.
Qed.

(** *** [check_time_conflict] and the conflict scan of [create_meeting] *)

Lemma check_time_conflict_total m1 m2 st :
  ∃ b st', check_time_conflict E m1 m2 st = (Ok b, st').
Proof.
  unfold check_time_conflict, try_except.
  match goal with |- context [match ?c st with _ => _ end] => destruct (c st) as [[b|e] st1] end;
    simpl; eauto.
Qed.

Lemma check_time_conflict_true_fields m1 m2 st st' :
  check_time_conflict E m1 m2 st = (Ok true, st') →
  is_Some (m1 !! "start_time") ∧ is_Some (m1 !! "end_time")
  ∧ is_Some (m2 !! "start_time") ∧ is_Some (m2 !! "end_time").
Proof.
  unfold check_time_conflict, parse_field, getitem, try_except, bind_M, lift, ret.
  intros H.
  destruct (m1 !! "start_time") as [v1|]; [|by simplify_eq/=].
  destruct (parse_datetime E v1 st) as [[d1|?] st1]; [|by simplify_eq/=].
  destruct (m1 !! "end_time") as [v2|]; [|by simplify_eq/=].
  destruct (parse_datetime E v2 st1) as [[d2|?] st2]; [|by simplify_eq/=].
  destruct (m2 !! "start_time") as [v3|]; [|by simplify_eq/=].
  destruct (parse_datetime E v3 st2) as [[d3|?] st3]; [|by simplify_eq/=].
  destruct (m2 !! "end_time") as [v4|]; [|by simplify_eq/=].
  eauto 10.
Qed.

Lemma for_keep_inv {A S} (I : S → state → Prop) (l : list A) (body : S → A → K S) :
  (∀ x acc st, x ∈ l → I acc st → I (body acc x st).1.1 (body acc x st).2) →
  ∀ acc st, I acc st → I (for_keep l body acc st).1.1 (for_keep l body acc st).2.
Proof.
  induction l as [|x xs IH]; intros Hb acc st HI; simpl; [done|].
  pose proof (Hb x acc st (list_elem_of_here _ _) HI) as Hx.
  destruct (body acc x st) as [[acc' [e|]] st1]; simpl in *; [done|].
  apply IH; [|done]. intros y ? ? Hy. apply Hb. by apply list_elem_of_further.
Qed.

Lemma scan_conflicts_inv new_meeting participants st :
  let r := scan_conflicts E new_meeting participants st in
  same_data st r.2 ∧ Forall (names_stored_meeting (meetings st)) r.1.1.
Proof.
  unfold scan_conflicts.
  apply (for_keep_inv
    (λ acc st', same_data st st' ∧ Forall (names_stored_meeting (meetings st)) acc));
    [|split; [apply same_data_refl|constructor]].
  intros participant acc st1 _ [Hd HF].
  unfold bind_keep. rewrite get_user_meetings_run.
  destruct (user_meetings_of participant (meetings st1)) as [ums|e] eqn:Hums;
    simpl; [|done].
  apply (for_keep_inv
    (λ acc st', same_data st st' ∧ Forall (names_stored_meeting (meetings st)) acc));
    [|done].
  intros m acc2 st2 Hm [Hd2 HF2].
  unfold keep, bind_M.
  pose proof (keeps_data_check_time_conflict new_meeting m st2) as Hk.
  destruct (check_time_conflict E new_meeting m st2) as [[b|e] st3] eqn:Hc;
    simpl in *; [|split; [by eapply same_data_trans|done]].
  destruct b; unfold lift, ret, getitem; simpl;
    [|split; [by eapply same_data_trans|done]].
  apply check_time_conflict_true_fields in Hc as (_ & _ & [vs Hs] & He).
  destruct (m !! "title") as [t|] eqn:Ht; simpl;
    [|split; [by eapply same_data_trans|done]].
  rewrite Hs. simpl. split; [by eapply same_data_trans|].
  apply Forall_app; split; [done|]. constructor; [|constructor].
  exists m. simpl. split_and!; try done.
  destruct Hd as [<- _]. eapply user_meetings_of_elem; eauto.
Qed.

Lemma keeps_data_end_time_of req now : keeps_data (end_time_of E req now).
Proof.
  unfold end_time_of. destruct (truthy (opt_str (mc_start_time req)));
    repeat first [ apply keeps_data_parse_datetime | keeps_data_step ].
Qed.

Lemma create_meeting_appends req st end_time st2 :
  end_time_of E req (current_instant_utc E st) (after_clock_reading st)
    = (Ok end_time, st2) →
  ∃ resp st',
    create_meeting E req st = (Ok resp, st')
    ∧ meetings st' = meetings st ++ [cm_meeting resp]
    ∧ Forall (names_stored_meeting (meetings st)) (cm_conflicts_detected resp).
Proof.
  intros Hend.
  pose proof (keeps_data_end_time_of req (current_instant_utc E st)
                (after_clock_reading st)) as Hd2.
  rewrite Hend in Hd2. simpl in Hd2.
  unfold create_meeting.
  unfold try_except at 1. unfold bind_M at 1. unfold get_meetings at 1.
  unfold bind_M at 1. unfold now_utc at 1.
  fold (after_clock_reading st). fold (current_instant_utc E st).
  unfold bind_M at 1. rewrite Hend.
  unfold bind_M at 1. unfold try_print.
  match goal with
  | |- context [scan_conflicts E ?nm ?ps st2] =>
      pose proof (scan_conflicts_inv nm ps st2) as [Hd3 HF];
      destruct (scan_conflicts E nm ps st2) as [[conflicts oe] st3]
  end.
  simpl in Hd3, HF. unfold bind_M, append_meeting, ret. simpl.
  eexists _, _. split; [reflexivity|]. simpl. split.
  - destruct Hd3 as [-> _], Hd2 as [-> _]. reflexivity.
  - destruct Hd2 as [Hm _]. by rewrite Hm in HF.
Qed.

(** C10. [check_time_conflict] returns a truth value on any two meeting
    records, never an exception; when a start or end time is missing the
    value is false. So the conflict scan cannot stop [create_meeting]:
    once the end time of the new meeting is computed, whatever the stored
    records are, the meeting is appended to the data and the answer is
    returned; [conflicts_detected] only names stored meetings that have a
    start and an end time, so that a meeting on which the check fails is
    left out. *)
Theorem check_time_conflict_absorbs_errors (m1 m2 : dict) (st : state) :
  (∃ b st', check_time_conflict E m1 m2 st = (Ok b, st'))
  ∧ (m1 !! "start_time" = None ∨ m1 !! "end_time" = None
     ∨ m2 !! "start_time" = None ∨ m2 !! "end_time" = None →
     (check_time_conflict E m1 m2 st).1 = Ok false)
  ∧ (∀ req end_time st2,
       end_time_of E req (current_instant_utc E st) (after_clock_reading st)
         = (Ok end_time, st2) →
       ∃ resp st',
         create_meeting E req st = (Ok resp, st')
         ∧ meetings st' = meetings st ++ [cm_meeting resp]
         ∧ Forall (names_stored_meeting (meetings st)) (cm_conflicts_detected resp)).
Proof.
  split; [apply check_time_conflict_total|].
  split; [|intros req end_time st2; apply create_meeting_appends].
  intros Hmiss.
  destruct (check_time_conflict_total m1 m2 st) as (b & st' & Hc).
  rewrite Hc. simpl. destruct b; [|done].
  apply check_time_conflict_true_fields in Hc as ([? H1] & [? H2] & [? H3] & [? H4]).
  destruct Hmiss as [H|[H|[H|H]]]; congruence.
Qed.

(** *** Loops *)

(** A loop whose every iteration succeeds and keeps [I] succeeds and keeps [I]. *)
Lemma for_each_ok {A S} (I : S → state → Prop) (l : list A) (body : S → A → M S) :
  (∀ x acc st, x ∈ l → I acc st →
     ∃ acc' st', body acc x st = (Ok acc', st') ∧ I acc' st') →
  ∀ acc st, I acc st →
    ∃ acc' st', for_each l body acc st = (Ok acc', st') ∧ I acc' st'.
Proof.
  induction l as [|x xs IH]; intros Hb acc st HI; simpl.
  - by eexists _, _.
  - destruct (Hb x acc st (list_elem_of_here _ _) HI) as (acc1 & st1 & Hx & HI1).
    unfold bind_M. rewrite Hx. apply IH; [|done].
    intros y ? ? Hy. apply Hb. by apply list_elem_of_further.
Qed.

(** A loop that succeeds has kept every [I] that its iterations keep. *)
Lemma for_each_inv {A S} (I : S → state → Prop) (l : list A) (body : S → A → M S) :
  (∀ x acc st acc' st', x ∈ l → I acc st →
     body acc x st = (Ok acc', st') → I acc' st') →
  ∀ acc st acc' st', I acc st →
    for_each l body acc st = (Ok acc', st') → I acc' st'.
Proof.
  induction l as [|x xs IH]; intros Hb acc st acc' st' HI; simpl.
  - unfold ret. by intros [= <- <-].
  - unfold bind_M. destruct (body acc x st) as [[acc1|e] st1] eqn:Hx; [|done].
    apply IH; [|by eapply Hb; [apply list_elem_of_here|..]].
    intros y ? ? ? ? Hy. apply Hb. by apply list_elem_of_further.
Qed.

(** *** [calculate_workload_balance] on members without meetings *)

Lemma py_max_zeros l : Forall (λ x, x = 0%float) l → py_max 0 l = 0%float.
Proof.
  unfold py_max. induction 1 as [|x l -> _ IH]; [done|]. simpl. exact IH.
Qed.

Lemma balance_score_of_zeros l :
  l ≠ [] → Forall (λ x, x = 0%float) l → balance_score_of l = Raise ZeroDivisionError.
Proof.
  destruct l as [|x rest]; [done|]. intros _ HF.
  apply Forall_cons in HF as [-> HF]. unfold balance_score_of.
  rewrite (py_max_zeros _ HF). reflexivity.
Qed.

Lemma member_workload_of_idle member st :
  idle_member st member →
  ∃ w, member_workload_of E member st = (Ok w, st) ∧ workload_score w = 0%float.
Proof.
  intros [Hums (prefs & limit & Hp & Hl)].
  unfold member_workload_of, bind_M.
  rewrite get_user_meetings_run, Hums, get_user_preferences_run, Hp. simpl.
  unfold lift, ret. rewrite Hl. eexists. split; [reflexivity|]. reflexivity.
Qed.

Lemma assoc_set_nonempty {K V} `{EqDecision K} (k : K) (v : V) l : assoc_set k v l ≠ [].
Proof. destruct l as [|[k' v'] l]; simpl; [done|]. by destruct (decide (k = k')). Qed.

Lemma assoc_set_Forall {K V} `{EqDecision K} (P : V → Prop) (k : K) (v : V) l :
  P v → Forall (λ kv, P kv.2) l → Forall (λ kv, P kv.2) (assoc_set k v l).
Proof.
  intros Hv. induction 1 as [|[k' v'] l Hx HF IH]; simpl.
  - by repeat constructor.
  - destruct (decide (k = k')); constructor; auto.
Qed.

(** C2 (what the code does). For a non-empty list of team members none of
    whom has a meeting, every workload score is [0.0], and line 469 divides
    by [max(workload_scores)]: [calculate_workload_balance] raises
    ZeroDivisionError instead of returning a balance score of 1. *)
Theorem calculate_workload_balance_idle_team_raises req st :
  wb_team_members req ≠ [] →
  Forall (idle_member st) (wb_team_members req) →
  calculate_workload_balance E req st = (Raise ZeroDivisionError, st).
Proof.
  intros Hne Hidle. unfold calculate_workload_balance.
  unfold bind_M at 1.
  set (body := λ (team_workload : list (string * member_workload)) member,
         bind_M (member_workload_of E member)
           (λ w, ret (assoc_set member w team_workload))).
  assert (∃ tw st', for_each (wb_team_members req) body [] st = (Ok tw, st')
                    ∧ (st' = st ∧ Forall (λ kv, workload_score kv.2 = 0%float) tw
                       ∧ (wb_team_members req ≠ [] → tw ≠ []))) as (tw & st' & -> & -> & HF & Hn).
  { destruct (wb_team_members req) as [|member members]; [done|].
    simpl. unfold body at 1. unfold bind_M.
    apply Forall_cons in Hidle as [Hm Hms].
    destruct (member_workload_of_idle member st Hm) as (w & -> & Hw). simpl.
    apply (for_each_ok (λ tw st', st' = st
             ∧ Forall (λ kv, workload_score kv.2 = 0%float) tw
             ∧ (member :: members ≠ [] → tw ≠ []))).
    - intros x acc st1 Hx (-> & HF & Hn). unfold body, bind_M.
      rewrite Forall_forall in Hms.
      destruct (member_workload_of_idle x st (Hms x Hx)) as (w' & -> & Hw').
      eexists _, _. split; [reflexivity|]. split_and!; [done| |].
      + by apply (assoc_set_Forall (λ w, workload_score w = 0%float)).
      + intros _. apply assoc_set_nonempty.
    - split_and!; [done|by repeat constructor|done]. }
  unfold lift, bind_M.
  rewrite balance_score_of_zeros; [done| |].
  - intros Hnil%fmap_nil_inv. by apply Hn.
  - apply Forall_fmap. eapply Forall_impl; [exact HF|]. by intros [k v].
Qed.

(** *** [score_meeting_effectiveness] *)

Lemma type_scores_get_range v z :
  type_scores_get v = Ok z → z = 6 ∨ z = 7 ∨ z = 8 ∨ z = 9.
Proof.
  destruct v; simpl; try (intros [= <-]; auto); try discriminate.
  destruct (type_scores !! s) as [n|] eqn:Hn; simpl; [|auto].
  apply elem_of_list_to_map_2 in Hn.
  repeat (apply elem_of_cons in Hn as [[= _ <-]|Hn]; [lia|]).
  by apply elem_of_nil in Hn.
Qed.

(** All 324 combinations of sub-scores. *)
Lemma weighted_score_bound ds ps ts ty ags :
  level ds → level ps → level ts → (ty = 6 ∨ ty = 7 ∨ ty = 8 ∨ ty = 9) → level ags →
  (round2 (clamp_score (weighted_score ds ps ts ty ags)) <=? 7.8)%float = true.
Proof.
  unfold level. intros Hd Hp Ht Hty Ha.
  destruct Hd as [-> | [-> | ->]], Hp as [-> | [-> | ->]], Ht as [-> | [-> | ->]],
    Hty as [-> | [-> | [-> | ->]]], Ha as [-> | [-> | ->]]; vm_compute; reflexivity.
Qed.

Lemma score_meeting_breakdown id m st resp st' :
  score_meeting E id m st = (Ok resp, st') →
  let b := er_score_breakdown resp in
  level (duration_score b) ∧ level (participant_score b) ∧ level (time_score b)
  ∧ (type_score b = 6 ∨ type_score b = 7 ∨ type_score b = 8 ∨ type_score b = 9)
  ∧ level (agenda_score b)
  ∧ (py_gt_zero (get_default m "effectiveness_score" (PInt 0)) = Ok false →
     historical_score b = None
     ∧ effectiveness_score resp =
         round2 (clamp_score (weighted_score (duration_score b) (participant_score b)
                                (time_score b) (type_score b) (agenda_score b)))).
Proof.
  unfold score_meeting, bind_M, lift, ret. intros H.
  destruct (duration_minutes E m st) as [[duration|?] st1]; [|discriminate].
  destruct (getitem m "participants") as [ps|]; [|discriminate].
  destruct (py_len ps) as [participant_count|]; [|discriminate].
  destruct (parse_field E m "start_time" st1) as [[start_time|?] st2]; [|discriminate].
  destruct (type_scores_get _) as [ty|] eqn:Hty; [|discriminate].
  destruct (py_len _) as [agenda_len|]; [|discriminate].
  destruct (py_gt_zero _) as [has_history|] eqn:Hh; [|discriminate].
  assert (∀ c1 c2 : bool, level (if c1 then 10 else if c2 then 7 else 4)) as Hlevel.
  { intros [] []; unfold level; auto. }
  destruct has_history.
  - destruct (getitem m "effectiveness_score") as [h|]; [|discriminate].
    destruct (py_mul_float h _) as [hw|]; [|discriminate].
    destruct (getitem m "title") as [t|]; [|discriminate].
    simpl in H. injection H as <- <-. simpl.
    split_and!; try apply Hlevel; [by eapply type_scores_get_range|].
    intros [=].
  - destruct (getitem m "title") as [t|]; [|discriminate].
    simpl in H. injection H as <- <-. simpl.
    split_and!; try apply Hlevel; [by eapply type_scores_get_range|].
    intros _. split; reflexivity.
Qed.

Lemma score_meeting_effectiveness_found req st meeting :
  find_meeting (es_meeting_id req) (meetings st) = Ok (Some meeting) →
  score_meeting_effectiveness E req st
    = if negb (truthy (PDict meeting)) then (Raise (HTTPException 404), st)
      else score_meeting E (es_meeting_id req) meeting st.
Proof.
  intros Hf. unfold score_meeting_effectiveness, bind_M, get_meetings, lift.
  rewrite Hf. by destruct (negb (truthy (PDict meeting))).
Qed.

(** *** [detect_scheduling_conflicts] *)

Lemma parse_datetime_aware v st d st' :
  parse_datetime E v st = (Ok d, st') → aware d.
Proof.
  destruct v as [|b|n|f|s|l|dd];
    try (unfold parse_datetime; destruct (negb (truthy _)); simpl;
         [intros [= <- <-]; unfold aware; simpl; eauto | discriminate]).
  pose proof (parse_datetime_opt_str (Some s) st) as H. simpl in H. rewrite H.
  intros [= <- <-]. apply (parseInstant_aware (Some s)).
Qed.

Lemma parse_field_aware m k st d st' :
  parse_field E m k st = (Ok d, st') → aware d.
Proof.
  unfold parse_field, bind_M, lift. destruct (getitem m k); [|discriminate].
  apply parse_datetime_aware.
Qed.

Lemma dt_between_aware lo x hi :
  aware lo → aware x → aware hi → dt_between lo x hi = Ok (falls_inside lo hi x).
Proof.
  intros. unfold dt_between, bind_result, falls_inside.
  rewrite !dt_le_aware by done. by destruct (instant lo <=? instant x).
Qed.

Lemma in_time_range_aware rs re s e :
  aware rs → aware re → aware s → aware e →
  in_time_range rs re s e
    = Ok (falls_inside rs re s || falls_inside rs re e || falls_inside s e rs).
Proof.
  intros. unfold in_time_range, bind_result.
  rewrite !dt_between_aware by done.
  by destruct (falls_inside rs re s), (falls_inside rs re e).
Qed.

(** For a proper range the third condition of the code says that the
    meeting contains the range. *)
Lemma reported_by_code_in_range rs re m :
  instant rs ≤ instant re → reported_by_code E rs re m = reported_in_range E rs re m.
Proof.
  intros Hle. unfold reported_by_code, reported_in_range.
  destruct (meeting_span E m) as [[s e]|]; [|done].
  unfold falls_inside, span_contains_range.
  apply eq_true_iff_eq.
  rewrite !orb_true_iff, !andb_true_iff, !Z.leb_le. lia.
Qed.

Lemma detect_loop rs re ums acc st :
  aware rs → aware re → Forall (listed_meeting E) ums →
  for_each ums (λ conflicts meeting,
    meeting_start ← parse_field E meeting "start_time";
    meeting_end ← parse_field E meeting "end_time";
    c ← lift (in_time_range rs re meeting_start meeting_end);
    if c then
      i ← lift (getitem meeting "id");
      t ← lift (getitem meeting "title");
      s ← lift (getitem meeting "start_time");
      e ← lift (getitem meeting "end_time");
      p ← lift (getitem meeting "participants");
      ret (conflicts ++ [{| rc_meeting_id := i; rc_title := t; rc_start_time := s;
                            rc_end_time := e; rc_participants := p |}])
    else ret conflicts) acc st
  = (Ok (acc ++ (range_conflict_of <$> filter (λ m, reported_by_code E rs re m = true) ums)), st).
Proof.
  intros Hrs Hre HF. revert acc.
  induction HF as [|m ums ([[s e] Hspan] & [i Hi] & [t Ht] & [p Hp]) _ IH];
    intros acc; simpl.
  { unfold ret. by rewrite app_nil_r. }
  unfold bind_M at 1. unfold bind_M at 1.
  rewrite (parse_start_span _ _ _ _ Hspan). unfold bind_M at 1.
  rewrite (parse_end_span _ _ _ _ Hspan).
  destruct (meeting_span_aware _ _ _ Hspan) as [As Ae].
  destruct (meeting_span_fields _ _ _ Hspan) as (vs & ve & Hvs & Hve & _).
  unfold bind_M at 1. unfold lift at 1.
  rewrite in_time_range_aware by done.
  assert (reported_by_code E rs re m
          = falls_inside rs re s || falls_inside rs re e || falls_inside s e rs)
    as Hrep by (unfold reported_by_code; by rewrite Hspan).
  rewrite filter_cons, Hrep.
  destruct (falls_inside rs re s || falls_inside rs re e || falls_inside s e rs).
  - unfold bind_M, lift, ret, getitem. rewrite Hi, Ht, Hvs, Hve, Hp.
    rewrite decide_True by done. rewrite IH. rewrite fmap_cons, <- app_assoc.
    unfold range_conflict_of. by rewrite Hi, Ht, Hvs, Hve, Hp.
  - unfold ret. rewrite decide_False by done. by rewrite IH.
Qed.

Lemma py_index_lookup (l : list string) (i : nat) (s : string) :
  l !! i = Some s → py_index l i = Ok (PStr s).
Proof. unfold py_index. by intros ->. Qed.

(** C6. For a user whose meetings are well formed and a range
    [rangeStart, rangeEnd], [detect_scheduling_conflicts] returns exactly
    the user's meetings whose start or end falls inside the range
    (boundaries included) or whose span contains the range. A meeting that
    ends exactly at rangeStart is among them, although the overlap test of
    §4.1 says that it does not overlap the range. *)
Theorem detect_scheduling_conflicts_inclusive
    (req : ConflictRequest) (st st1 st2 : state) (user_meetings : list dict)
    (r0 r1 : string) (range_start range_end : datetime) :
  user_meetings_of (cf_user_id req) (meetings st) = Ok user_meetings →
  Forall (listed_meeting E) user_meetings →
  cf_time_range req !! 0%nat = Some r0 →
  cf_time_range req !! 1%nat = Some r1 →
  parse_datetime E (PStr r0) st = (Ok range_start, st1) →
  parse_datetime E (PStr r1) st1 = (Ok range_end, st2) →
  instant range_start ≤ instant range_end →
  ∃ resp,
    detect_scheduling_conflicts E req st = (Ok resp, st2)
    ∧ conflicts resp
      = range_conflict_of
          <$> filter (λ m, reported_in_range E range_start range_end m = true)
                user_meetings
    ∧ conflicts_found resp = Z.of_nat (length (conflicts resp))
    ∧ ∀ m s e,
        m ∈ user_meetings → meeting_span E m = Some (s, e) →
        instant e = instant range_start →
        range_conflict_of m ∈ conflicts resp
        ∧ intervalsOverlap (instant s) (instant e)
            (instant range_start) (instant range_end) = false.
Proof.
  intros Hums HF H0 H1 Hp0 Hp1 Hle.
  pose proof (parse_datetime_aware _ _ _ _ Hp0) as Ars.
  pose proof (parse_datetime_aware _ _ _ _ Hp1) as Are.
  unfold detect_scheduling_conflicts.
  unfold bind_M at 1. rewrite get_user_meetings_run, Hums.
  unfold bind_M at 1. unfold lift at 1. rewrite (py_index_lookup _ _ _ H0).
  unfold bind_M at 1. rewrite Hp0.
  unfold bind_M at 1. unfold lift at 1. rewrite (py_index_lookup _ _ _ H1).
  unfold bind_M at 1. rewrite Hp1.
  assert (same_data st st2) as [Hm _].
  { eapply same_data_trans.
    - pose proof (keeps_data_parse_datetime (PStr r0) st) as H. by rewrite Hp0 in H.
    - pose proof (keeps_data_parse_datetime (PStr r1) st1) as H. by rewrite Hp1 in H. }
  unfold bind_M at 1. rewrite (detect_loop range_start range_end) by done.
  unfold ret. simpl. eexists. split; [reflexivity|]. simpl.
  assert (filter (λ m, reported_by_code E range_start range_end m = true) user_meetings
          = filter (λ m, reported_in_range E range_start range_end m = true) user_meetings)
    as ->.
  { apply list_filter_iff. intros m. by rewrite reported_by_code_in_range. }
  split; [reflexivity|]. split; [reflexivity|].
  intros m s e Hin Hspan Hend. split.
  - apply list_elem_of_fmap. exists m. split; [done|].
    apply list_elem_of_filter. split; [|done].
    unfold reported_in_range. rewrite Hspan.
    unfold falls_inside. rewrite Hend.
    rewrite !orb_true_iff, !andb_true_iff, !Z.leb_le. lia.
  - unfold intervalsOverlap. rewrite Hend.
    rewrite andb_false_iff, !Z.ltb_ge. lia.
Qed.

(** *** [find_available_slots] *)

Lemma us_per_hour_pos : 0 < us_per_hour.
Proof. reflexivity. Qed.

Lemma slot_conflict_aware busy current_time slot_end :
  aware current_time → aware slot_end → Forall aware_pair busy →
  slot_conflict busy current_time slot_end
    = Ok (existsb (λ b, intervalsOverlap (instant current_time) (instant slot_end)
                          (instant b.1) (instant b.2)) busy).
Proof.
  intros Hc He. induction 1 as [|[bs be] busy [Hbs Hbe] _ IH]; simpl; [done|].
  unfold bind_result. rewrite dt_lt_aware by done. simpl in *.
  unfold intervalsOverlap at 1.
  destruct (instant current_time <? instant be); simpl; [|exact IH].
  rewrite dt_lt_aware by done.
  destruct (instant bs <? instant slot_end); simpl; [done|exact IH].
Qed.

Lemma slot_scan_sound range_start range_end duration busy fuel :
  aware range_end → Forall aware_pair busy →
  ∀ cur k acc slots,
    aware cur → 0 ≤ k →
    instant cur = instant range_start + k * us_per_hour →
    Forall (available_slot range_start range_end duration busy) acc →
    slot_scan fuel busy duration range_end cur acc = Some (Ok slots) →
    Forall (available_slot range_start range_end duration busy) slots.
Proof.
  intros Hre Hbusy. induction fuel as [|fuel IH];
    intros cur k acc slots Hcur Hk Hinst Hacc; [discriminate|].
  cbn [slot_scan]. unfold bind_result.
  destruct (dt_plus cur 0 0 duration) as [slot_end|] eqn:Hend; [|discriminate].
  pose proof (dt_plus_aware _ _ _ _ _ Hend Hcur) as Aend.
  pose proof (dt_plus_instant _ _ _ _ _ Hend) as Iend.
  rewrite dt_le_aware by done.
  destruct (instant slot_end <=? instant range_end) eqn:Hfit; [|by intros [= <-]].
  apply Z.leb_le in Hfit.
  rewrite slot_conflict_aware by done.
  destruct (dt_plus cur 0 1 0) as [next|] eqn:Hnext; [|discriminate].
  pose proof (dt_plus_aware _ _ _ _ _ Hnext Hcur) as Anext.
  pose proof (dt_plus_instant _ _ _ _ _ Hnext) as Inext.
  apply (IH next (k + 1)); [done|lia|lia|].
  match goal with |- context [existsb ?f busy] => destruct (existsb f busy) eqn:Hex end;
    [done|].
  apply Forall_app. split; [done|]. constructor; [|constructor].
  unfold available_slot. simpl. split_and!.
  - exists k. lia.
  - lia.
  - done.
  - done.
  - apply Forall_forall. intros b Hb.
    apply not_true_is_false. intros Hov.
    apply not_true_iff_false in Hex. apply Hex.
    apply existsb_exists. exists b. split; [by apply list_elem_of_In|done].
Qed.

Lemma slot_scan_enough_fuel range_end duration busy fuel :
  aware range_end → Forall aware_pair busy →
  ∀ cur acc,
    aware cur →
    (scan_fuel cur range_end duration ≤ fuel)%nat →
    ∃ r, slot_scan fuel busy duration range_end cur acc = Some r.
Proof.
  intros Hre Hbusy. induction fuel as [|fuel IH]; intros cur acc Hcur Hfuel.
  { unfold scan_fuel in Hfuel. lia. }
  cbn [slot_scan]. unfold bind_result.
  destruct (dt_plus cur 0 0 duration) as [slot_end|] eqn:Hend; [|by eexists].
  pose proof (dt_plus_aware _ _ _ _ _ Hend Hcur) as Aend.
  pose proof (dt_plus_instant _ _ _ _ _ Hend) as Iend.
  rewrite dt_le_aware by done.
  destruct (instant slot_end <=? instant range_end) eqn:Hfit; [|by eexists].
  apply Z.leb_le in Hfit.
  rewrite slot_conflict_aware by done.
  destruct (dt_plus cur 0 1 0) as [next|] eqn:Hnext; [|by eexists].
  pose proof (dt_plus_aware _ _ _ _ _ Hnext Hcur) as Anext.
  pose proof (dt_plus_instant _ _ _ _ _ Hnext) as Inext.
  apply IH; [done|].
  unfold scan_fuel in *. rewrite Inext.
  pose proof us_per_hour_pos as Hpos.
  set (x := instant range_end - instant cur - duration * us_per_minute) in *.
  replace (instant range_end
           - (instant cur + (0 * us_per_day + 1 * us_per_hour + 0 * us_per_minute))
           - duration * us_per_minute)
    with (x + (-1) * us_per_hour) by (unfold x; lia).
  rewrite Z.div_add by lia.
  assert (0 ≤ x / us_per_hour) by (apply Z.div_pos; unfold x; lia).
  lia.
Qed.

Lemma collect_busy_times_aware participants rs re st busy st' :
  collect_busy_times E participants rs re st = (Ok busy, st') →
  Forall aware_pair busy.
Proof.
  unfold collect_busy_times.
  apply (for_each_inv (λ acc _, Forall aware_pair acc)); [|constructor].
  intros participant acc st1 acc' st1' _ Hacc. unfold bind_M.
  rewrite get_user_meetings_run.
  destruct (user_meetings_of participant (meetings st1)) as [ums|]; [|discriminate].
  apply (for_each_inv (λ acc _, Forall aware_pair acc)); [|done].
  clear. intros m acc st acc' st' _ Hacc. unfold bind_M, lift, ret.
  destruct (parse_field E m "start_time" st) as [[s|] st1] eqn:Hs; [|discriminate].
  destruct (parse_field E m "end_time" st1) as [[e|] st2] eqn:He; [|discriminate].
  destruct (dt_le rs s) as [[]|]; [| |discriminate].
  - destruct (dt_le s re) as [[]|]; [| |discriminate]; intros [= <- <-]; [|done].
    apply Forall_app. split; [done|]. constructor; [|constructor].
    split; simpl; eapply parse_field_aware; eauto.
  - by intros [= <- <-].
Qed.

(** C7. When [find_available_slots] returns, it returns at most 5 slots,
    and each of them starts a whole number of hours after the range start,
    lasts [duration] minutes, ends no later than the range end and
    overlaps none of the busy intervals collected for the participants
    (overlap being the test of §4.1). The hourly walk ends: with
    [scan_fuel] iterations the loop is left, by its condition or by an
    exception. *)
Theorem find_available_slots_sound
    (participants : list string) (duration : Z) (date_range : list string)
    (st : state) :
  (∀ fuel slots st',
     find_available_slots E fuel participants duration date_range st
       = (Ok (Some slots), st') →
     ∃ r0 r1 range_start range_end st1 st2 busy_times,
       date_range !! 0%nat = Some r0 ∧ date_range !! 1%nat = Some r1
       ∧ parse_datetime E (PStr r0) st = (Ok range_start, st1)
       ∧ parse_datetime E (PStr r1) st1 = (Ok range_end, st2)
       ∧ collect_busy_times E participants range_start range_end st2
         = (Ok busy_times, st')
       ∧ (length slots ≤ 5)%nat
       ∧ Forall (available_slot range_start range_end duration busy_times) slots)
  ∧ (∀ r0 r1 range_start range_end st1 st2 busy_times st',
       date_range !! 0%nat = Some r0 → date_range !! 1%nat = Some r1 →
       parse_datetime E (PStr r0) st = (Ok range_start, st1) →
       parse_datetime E (PStr r1) st1 = (Ok range_end, st2) →
       collect_busy_times E participants range_start range_end st2
         = (Ok busy_times, st') →
       ∀ fuel, (scan_fuel range_start range_end duration ≤ fuel)%nat →
         (∃ slots,
            find_available_slots E fuel participants duration date_range st
              = (Ok (Some slots), st'))
         ∨ (∃ e,
              find_available_slots E fuel participants duration date_range st
                = (Raise e, st'))).
Proof.
  split.
  - intros fuel slots st'. unfold find_available_slots, py_index.
    unfold bind_M at 1. unfold lift at 1.
    destruct (date_range !! 0%nat) as [r0|]; [|discriminate].
    unfold bind_M at 1.
    destruct (parse_datetime E (PStr r0) st) as [[rs|] st1] eqn:Hp0; [|discriminate].
    unfold bind_M at 1. unfold lift at 1.
    destruct (date_range !! 1%nat) as [r1|]; [|discriminate].
    unfold bind_M at 1.
    destruct (parse_datetime E (PStr r1) st1) as [[re|] st2] eqn:Hp1; [|discriminate].
    unfold bind_M at 1.
    destruct (collect_busy_times E participants rs re st2) as [[busy|] st3] eqn:Hb;
      [|discriminate].
    destruct (slot_scan fuel busy duration re rs []) as [[all|]|] eqn:Hscan;
      unfold bind_M, lift, ret; try discriminate.
    intros [= <- <-]. exists r0, r1, rs, re, st1, st2, busy.
    split_and!; try done.
    + rewrite length_take. lia.
    + apply Forall_take.
      pose proof (parse_datetime_aware _ _ _ _ Hp0) as Ars.
      pose proof (parse_datetime_aware _ _ _ _ Hp1) as Are.
      apply (slot_scan_sound rs re duration busy fuel Are
               (collect_busy_times_aware _ _ _ _ _ _ Hb) rs 0 [] all);
        [done|lia|lia|constructor|done].
  - intros r0 r1 rs re st1 st2 busy st' H0 H1 Hp0 Hp1 Hb fuel Hfuel.
    pose proof (parse_datetime_aware _ _ _ _ Hp0) as Ars.
    pose proof (parse_datetime_aware _ _ _ _ Hp1) as Are.
    destruct (slot_scan_enough_fuel re duration busy fuel Are
                (collect_busy_times_aware _ _ _ _ _ _ Hb) rs [] Ars Hfuel)
      as [r Hscan].
    assert (find_available_slots E fuel participants duration date_range st
            = (match r with
               | Ok all => Ok (Some (take 5 all))
               | Raise e => Raise e
               end, st')) as Hrun.
    { unfold find_available_slots, py_index.
      unfold bind_M at 1. unfold lift at 1. rewrite H0.
      unfold bind_M at 1. rewrite Hp0.
      unfold bind_M at 1. unfold lift at 1. rewrite H1.
      unfold bind_M at 1. rewrite Hp1.
      unfold bind_M at 1. rewrite Hb, Hscan. by destruct r. }
    destruct r as [all|e]; [left; exists (take 5 all)|right; exists e]; exact Hrun.
Qed.

Lemma collect_inner_spans rs re ums acc st :
  aware rs → aware re → Forall (λ m, is_Some (meeting_span E m)) ums →
  for_each ums (λ busy_times meeting,
      meeting_start ← parse_field E meeting "start_time";
      meeting_end ← parse_field E meeting "end_time";
      a ← lift (dt_le rs meeting_start);
      b ← (if a then lift (dt_le meeting_start re) else ret false);
      ret (if b then busy_times ++ [(meeting_start, meeting_end)] else busy_times))
    acc st
  = (Ok (acc ++ spans_starting_in E rs re ums), st).
Proof.
  intros Hrs Hre HF. revert acc.
  induction HF as [|m ums [[s e] Hspan] _ IH]; intros acc; simpl.
  { unfold ret. by rewrite app_nil_r. }
  unfold bind_M at 1. unfold bind_M at 1.
  rewrite (parse_start_span _ _ _ _ Hspan). unfold bind_M at 1.
  rewrite (parse_end_span _ _ _ _ Hspan).
  destruct (meeting_span_aware _ _ _ Hspan) as [As Ae].
  unfold bind_M at 1. unfold lift at 1. rewrite dt_le_aware by done.
  change (spans_starting_in E rs re (m :: ums))
    with (match meeting_span E m with
          | Some (s, e) => if falls_inside rs re s then [(s, e)] else []
          | None => []
          end ++ spans_starting_in E rs re ums).
  rewrite Hspan. unfold falls_inside.
  destruct (instant rs <=? instant s); simpl.
  - unfold bind_M at 1. unfold lift at 1. rewrite dt_le_aware by done.
    destruct (instant s <=? instant re); simpl; unfold bind_M, ret at 1.
    + rewrite IH. by rewrite <- app_assoc.
    + by rewrite IH.
  - unfold bind_M, ret at 1 2. by rewrite IH.
Qed.

Lemma collect_busy_times_spans participants rs re st :
  aware rs → aware re → timed_participants E (meetings st) participants →
  collect_busy_times E participants rs re st
    = (Ok (participants ≫= λ p,
             spans_starting_in E rs re (meetings_of (meetings st) p)), st).
Proof.
  intros Hrs Hre HF. unfold collect_busy_times.
  match goal with
  | |- for_each _ ?body [] st = _ =>
      enough (∀ acc, for_each participants body acc st
                     = (Ok (acc ++ (participants ≫= λ p,
                              spans_starting_in E rs re (meetings_of (meetings st) p))),
                        st)) as H by apply (H [])
  end.
  induction HF as [|p ps (ums & Hums & Hspans) _ IH]; intros acc; simpl.
  { unfold ret. by rewrite app_nil_r. }
  unfold bind_M at 1. unfold bind_M at 1. rewrite get_user_meetings_run, Hums.
  cbv beta iota. rewrite collect_inner_spans by done. rewrite IH.
  unfold meetings_of at 2. rewrite Hums. by rewrite <- app_assoc.
Qed.

Lemma spans_starting_in_inside rs re l b :
  b ∈ spans_starting_in E rs re l → falls_inside rs re b.1 = true.
Proof.
  unfold spans_starting_in. intros (m & Hb & _)%list_elem_of_bind.
  destruct (meeting_span E m) as [[s e]|]; [|by apply elem_of_nil in Hb].
  destruct (falls_inside rs re s) eqn:Hin; [|by apply elem_of_nil in Hb].
  by apply list_elem_of_singleton in Hb as ->.
Qed.

(** *** Grouping by date *)

Lemma first_occurrences_snoc l d :
  first_occurrences (l ++ [d])
  = if decide (d ∈ first_occurrences l) then first_occurrences l
    else first_occurrences l ++ [d].
Proof. unfold first_occurrences. by rewrite fold_left_app. Qed.

Lemma first_occurrences_spec l :
  NoDup (first_occurrences l) ∧ ∀ d, d ∈ first_occurrences l ↔ d ∈ l.
Proof.
  induction l as [|d l [IH1 IH2]] using rev_ind.
  { split; [constructor|done]. }
  rewrite first_occurrences_snoc. destruct (decide (d ∈ first_occurrences l)) as [Hin|Hin].
  - split; [done|]. intros d'. rewrite elem_of_app, list_elem_of_singleton, IH2.
    split; [auto|]. intros [?| ->]; [done|]. by apply IH2.
  - split.
    + apply NoDup_app. split_and!; [done| |apply NoDup_singleton].
      intros x Hx ->%list_elem_of_singleton. done.
    + intros d'. rewrite !elem_of_app, IH2. done.
Qed.

Lemma assoc_get_fmap (h : Z → list dict) (ds : list Z) (k : Z) :
  assoc_get k ((λ d, (d, h d)) <$> ds) = if decide (k ∈ ds) then Some (h k) else None.
Proof.
  induction ds as [|d ds IH].
  { destruct (decide (k ∈ [])) as [H|H]; [by apply elem_of_nil in H|done]. }
  rewrite fmap_cons. cbn [assoc_get]. rewrite IH.
  destruct (decide (k = d)) as [->|Hne].
  - rewrite decide_True; [done|]. apply list_elem_of_here.
  - destruct (decide (k ∈ ds)) as [Hin|Hin].
    + rewrite decide_True; [done|]. by apply list_elem_of_further.
    + rewrite decide_False; [done|]. by intros [?|?]%elem_of_cons.
Qed.

Lemma assoc_set_fmap_in (h : Z → list dict) (ds : list Z) (k : Z) (v : list dict) :
  NoDup ds → k ∈ ds →
  assoc_set k v ((λ d, (d, h d)) <$> ds)
  = (λ d, (d, if decide (d = k) then v else h d)) <$> ds.
Proof.
  induction 1 as [|d ds Hd Hnd IH]; intros Hin.
  { by apply elem_of_nil in Hin. }
  rewrite !fmap_cons. cbn [assoc_set].
  destruct (decide (k = d)) as [->|Hne].
  - rewrite decide_True by done. f_equal.
    apply list_fmap_ext. intros i d' Hd'.
    rewrite decide_False; [done|]. intros ->. apply Hd.
    by eapply list_elem_of_lookup_2.
  - rewrite decide_False by done. f_equal. apply IH.
    by apply elem_of_cons in Hin as [?|?].
Qed.

Lemma assoc_set_fmap_notin (h : Z → list dict) (ds : list Z) (k : Z) (v : list dict) :
  k ∉ ds →
  assoc_set k v ((λ d, (d, h d)) <$> ds) = ((λ d, (d, h d)) <$> ds) ++ [(k, v)].
Proof.
  induction ds as [|d ds IH]; intros Hin; [done|].
  rewrite !fmap_cons. cbn [assoc_set].
  rewrite decide_False by (intros ->; apply Hin, list_elem_of_here).
  rewrite <- app_comm_cons. f_equal. apply IH.
  intros ?. by apply Hin, list_elem_of_further.
Qed.

(** The grouping, in closed form: one entry per distinct key, in order of
    first occurrence, holding the elements with that key in list order. *)
Lemma grouped_closed_form (key : dict → Z) (l : list dict) :
  grouped key l
  = (λ d, (d, filter (λ m, key m = d) l)) <$> first_occurrences (key <$> l).
Proof.
  induction l as [|m l IH] using rev_ind; [done|].
  unfold grouped in *. rewrite fold_left_app. simpl. rewrite IH. clear IH.
  unfold group_step. rewrite fmap_app. simpl. rewrite first_occurrences_snoc.
  destruct (first_occurrences_spec (key <$> l)) as [Hnd Hin].
  rewrite assoc_get_fmap.
  destruct (decide (key m ∈ first_occurrences (key <$> l))) as [Hk|Hk]; simpl.
  - rewrite assoc_set_fmap_in by done.
    apply list_fmap_ext. intros i d Hd. f_equal.
    rewrite filter_app, filter_cons, filter_nil.
    destruct (decide (d = key m)) as [->|Hne].
    + by rewrite decide_True.
    + rewrite decide_False by done. by rewrite app_nil_r.
  - rewrite assoc_set_fmap_notin by done. rewrite fmap_app. simpl. f_equal.
    + apply list_fmap_ext. intros i d Hd. f_equal.
      rewrite filter_app, filter_cons, filter_nil.
      rewrite decide_False; [by rewrite app_nil_r|].
      intros Heq. apply Hk. rewrite Heq. by eapply list_elem_of_lookup_2.
    + f_equal. f_equal. rewrite filter_app, filter_cons, filter_nil.
      rewrite decide_True by done.
      replace (filter (λ m0, key m0 = key m) l) with (@nil dict); [done|].
      destruct (filter (λ m0, key m0 = key m) l) as [|x xs] eqn:Hf; [done|].
      exfalso. apply Hk, Hin.
      assert (x ∈ filter (λ m0, key m0 = key m) l) as [Hx1 Hx2]%list_elem_of_filter
        by (rewrite Hf; apply list_elem_of_here).
      rewrite <- Hx1. apply list_elem_of_fmap. by exists x.
Qed.
(** *** [optimize_meeting_schedule] *)

Lemma start_of_span m s e : meeting_span E m = Some (s, e) → start_of E m = s.
Proof. unfold start_of. by intros ->. Qed.

Lemma group_by_date_run ums st :
  Forall (λ m, is_Some (meeting_span E m)) ums →
  group_by_date E ums st = (Ok (grouped (λ m, date (start_of E m)) ums), st).
Proof.
  intros HF. unfold group_by_date, grouped. generalize (@nil (Z * list dict)).
  induction HF as [|m ums [[s e] Hspan] _ IH]; intros acc; [done|].
  cbn [for_each fold_left]. unfold bind_M at 1. unfold bind_M at 1.
  rewrite (parse_start_span _ _ _ _ Hspan). unfold ret at 1.
  rewrite IH.
  replace (group_step (λ m, date (start_of E m)) acc m)
    with (assoc_set (date s) (default [] (assoc_get (date s) acc) ++ [m]) acc);
    [done|].
  unfold group_step. by rewrite (start_of_span _ _ _ Hspan).
Qed.

Lemma overloaded_days_of_int n g :
  overloaded_days_of (PInt n) g
  = Ok (filter (λ dm, n < Z.of_nat (length dm.2)) g).
Proof.
  induction g as [|[d ms] g IH]; [done|].
  cbn [overloaded_days_of py_int_gt]. unfold bind_result. rewrite IH.
  rewrite filter_cons. simpl.
  destruct (n <? Z.of_nat (length ms)) eqn:Hlt.
  - apply Z.ltb_lt in Hlt. by rewrite decide_True.
  - apply Z.ltb_ge in Hlt. rewrite decide_False; [done|lia].
Qed.

Lemma field_of_each_titles l :
  Forall (λ m, is_Some (m !! "title")) l → field_of_each "title" l = Ok (titles_of l).
Proof.
  induction 1 as [|m l [t Ht] _ IH]; [done|].
  cbn [field_of_each]. unfold bind_result, getitem. rewrite Ht, IH.
  unfold titles_of. rewrite fmap_cons. by rewrite Ht.
Qed.

Lemma overloaded_recommendations_int n (ov : list (Z * list dict)) :
  Forall (λ dm, Forall (λ m, is_Some (m !! "title")) dm.2) ov →
  overloaded_recommendations (PInt n) ov
  = Ok ((λ dm, overloaded_day dm.1 (Z.of_nat (length dm.2))
                 (titles_of (slice_from n dm.2))) <$> ov).
Proof.
  induction 1 as [|[d ms] ov Ht _ IH]; [done|].
  cbn [overloaded_recommendations py_slice_from]. unfold bind_result.
  rewrite field_of_each_titles.
  - by rewrite IH.
  - simpl in Ht. destruct (0 <=? n); by apply Forall_drop.
Qed.

Lemma non_business_meetings_of_run ums st :
  Forall (λ m, is_Some (meeting_span E m)) ums →
  non_business_meetings_of E ums st
  = (Ok (filter (λ m, start_hour_outside_8_to_18 (start_of E m) = true) ums), st).
Proof.
  intros HF. unfold non_business_meetings_of.
  match goal with
  | |- for_each _ ?body [] st = _ =>
      enough (∀ acc, for_each ums body acc st
                = (Ok (acc ++ filter (λ m, start_hour_outside_8_to_18 (start_of E m) = true)
                                ums), st)) as H by apply (H [])
  end.
  induction HF as [|m ums [[s e] Hspan] _ IH]; intros acc.
  { cbn [for_each]. unfold ret. by rewrite filter_nil, app_nil_r. }
  cbn [for_each]. unfold bind_M at 1. unfold bind_M at 1.
  rewrite (parse_start_span _ _ _ _ Hspan). unfold ret at 1.
  rewrite IH, filter_cons, (start_of_span _ _ _ Hspan).
  unfold start_hour_outside_8_to_18.
  destruct ((hour s <? 8) || (18 <? hour s)).
  - rewrite decide_True by done. by rewrite <- app_assoc.
  - by rewrite decide_False by done.
Qed.

Lemma insert_sorted_str x l :
  str_key x → Forall str_key l →
  ∃ r, insert_sorted x l = Ok r ∧ r ≡ₚ x :: l.
Proof.
  intros [sx Hx]. induction 1 as [|y ys [sy Hy] _ IH].
  { by exists [x]. }
  cbn [insert_sorted]. rewrite Hx, Hy. unfold bind_result. simpl.
  destruct (String.ltb sy sx).
  - destruct IH as (r & -> & Hr). exists (y :: r). split; [done|].
    rewrite Hr. apply Permutation_swap.
  - by eexists.
Qed.

Lemma sort_by_key_str l :
  Forall str_key l → ∃ r, sort_by_key l = Ok r ∧ r ≡ₚ l.
Proof.
  induction 1 as [|x xs Hx HF IH].
  { by exists []. }
  cbn [sort_by_key]. destruct IH as (r & -> & Hr). unfold bind_result.
  destruct (insert_sorted_str x r Hx) as (r' & -> & Hr').
  { by rewrite Hr. }
  exists r'. split; [done|]. by rewrite Hr', Hr.
Qed.

Lemma field_of_each_start ms :
  Forall (λ m, is_Some (meeting_span E m)) ms →
  ∃ keys, field_of_each "start_time" ms = Ok keys
          ∧ Forall str_key (zip keys ms) ∧ (zip keys ms).*2 = ms.
Proof.
  induction 1 as [|m ms [[s e] Hspan] _ (keys & IH & Hk & Hz)].
  { by exists []. }
  destruct (meeting_span_fields _ _ _ Hspan) as (vs & ve & Hvs & _ & Hks & _).
  cbn [field_of_each]. unfold bind_result, getitem. rewrite Hvs, IH.
  exists (vs :: keys). split; [done|]. split.
  - constructor; [|done]. destruct vs; try discriminate. by eexists.
  - cbn. f_equal. exact Hz.
Qed.

Lemma break_scan_ok day l :
  Forall (scheduled_meeting E) l →
  ∀ recs st, ∃ extra,
    break_scan E day l recs st = (Ok (recs ++ extra), st)
    ∧ Forall is_insufficient_break extra.
Proof.
  induction 1 as [|m1 rest [[[s1 e1] H1] [t1 Ht1]] HF IH]; intros recs st.
  { exists []. by rewrite app_nil_r. }
  cbn [break_scan]. destruct rest as [|m2 rest'].
  { exists []. by rewrite app_nil_r. }
  pose proof (Forall_inv HF) as [[[s2 e2] H2] [t2 Ht2]].
  unfold bind_M at 1. rewrite (parse_end_span _ _ _ _ H1).
  unfold bind_M at 1. rewrite (parse_start_span _ _ _ _ H2).
  destruct (meeting_span_aware _ _ _ H1) as [_ Ae1].
  destruct (meeting_span_aware _ _ _ H2) as [As2 _].
  unfold bind_M at 1. unfold lift at 1. rewrite dt_sub_aware by done.
  unfold bind_M at 1.
  destruct (total_seconds (instant s2 - instant e1) <? 900)%float.
  - unfold bind_M, lift, ret, getitem. rewrite Ht1, Ht2.
    destruct (IH (recs ++ [insufficient_break day t1 t2]) st) as (extra & -> & Hex).
    exists (insufficient_break day t1 t2 :: extra).
    split; [by rewrite <- app_assoc|]. by constructor.
  - unfold ret at 1. apply IH.
Qed.

Lemma break_recommendations_ok (g : list (Z * list dict)) :
  Forall (λ dm, Forall (scheduled_meeting E) dm.2) g →
  ∀ recs st, ∃ extra,
    break_recommendations E g recs st = (Ok (recs ++ extra), st)
    ∧ Forall is_insufficient_break extra.
Proof.
  unfold break_recommendations.
  induction 1 as [|[d ms] g Hms _ IH]; intros recs st.
  { exists []. by rewrite app_nil_r. }
  cbn [for_each]. unfold bind_M at 1. simpl in Hms.
  destruct (1 <? Z.of_nat (length ms)).
  - assert (Forall (λ m, is_Some (meeting_span E m)) ms) as Hsp
      by (eapply Forall_impl; [exact Hms|by intros ? [? _]]).
    destruct (field_of_each_start ms Hsp) as (keys & Hkeys & Hstr & Hz).
    unfold bind_M at 1. unfold lift at 1. rewrite Hkeys.
    destruct (sort_by_key_str _ Hstr) as (sorted & Hsort & Hperm).
    unfold bind_M at 1. unfold lift at 1. rewrite Hsort.
    destruct (break_scan_ok d (sorted.*2)) with (recs := recs) (st := st)
      as (extra1 & -> & Hex1).
    { rewrite Hperm, Hz. exact Hms. }
    destruct (IH (recs ++ extra1) st) as (extra2 & -> & Hex2).
    exists (extra1 ++ extra2). split; [by rewrite app_assoc|].
    by apply Forall_app.
  - unfold ret at 1. apply IH.
Qed.

Lemma length_filter_fmap {A B} (f : A → B) (P : B → Prop) `{∀ x, Decision (P x)}
    (l : list A) :
  length (filter P (f <$> l)) = length (filter (λ x, P (f x)) l).
Proof.
  induction l as [|x l IH]; [done|].
  rewrite fmap_cons, !filter_cons. destruct (decide (P (f x))); simpl; by rewrite IH.
Qed.

Lemma first_occurrences_constant (l : list Z) (day : Z) :
  l ≠ [] → Forall (λ d, d = day) l → first_occurrences l = [day].
Proof.
  intros Hne HF. destruct (first_occurrences_spec l) as [Hnd Hin].
  assert (∀ d, d ∈ first_occurrences l → d = day) as Hall.
  { intros d Hd%Hin. rewrite Forall_forall in HF. by apply HF. }
  destruct l as [|d0 l]; [done|].
  assert (day ∈ first_occurrences (d0 :: l)) as Hday.
  { apply Hin. rewrite (Forall_inv HF). apply list_elem_of_here. }
  destruct (first_occurrences (d0 :: l)) as [|a [|b D]].
  - by apply elem_of_nil in Hday.
  - f_equal. apply Hall, list_elem_of_here.
  - exfalso. apply NoDup_cons in Hnd as [Hab _]. apply Hab.
    rewrite (Hall a), (Hall b); [apply list_elem_of_here|..].
    + apply list_elem_of_further, list_elem_of_here.
    + apply list_elem_of_here.
Qed.

Lemma Forall_filter {A} (P Q : A → Prop) `{∀ x, Decision (Q x)} (l : list A) :
  Forall P l → Forall P (filter Q l).
Proof.
  induction 1 as [|x l Hx _ IH]; [constructor|].
  rewrite filter_cons. destruct (decide (Q x)); [by constructor|done].
Qed.

Lemma filter_overloaded_breaks extra :
  Forall is_insufficient_break extra →
  filter (λ r, is_overloaded_day r = true) extra = [].
Proof.
  induction 1 as [|r extra Hr _ IH]; [done|].
  rewrite filter_cons, IH. destruct r; try done.
Qed.

Lemma filter_all {A} (P : A → Prop) `{∀ x, Decision (P x)} (l : list A) :
  Forall P l → filter P l = l.
Proof.
  induction 1 as [|x l Hx _ IH]; [done|].
  by rewrite filter_cons, decide_True, IH.
Qed.

Lemma filter_none {A} (P : A → Prop) `{∀ x, Decision (P x)} (l : list A) :
  Forall (λ x, ¬ P x) l → filter P l = [].
Proof.
  induction 1 as [|x l Hx _ IH]; [done|].
  by rewrite filter_cons, decide_False, IH.
Qed.

Lemma match_nonempty {A B} (l : list A) (a b : B) :
  l ≠ [] → match l with [] => a | _ :: _ => b end = b.
Proof. by destruct l. Qed.

Lemma optimize_meeting_schedule_run req st user_meetings user_prefs limit :
  user_meetings_of (op_user_id req) (meetings st) = Ok user_meetings →
  user_meetings ≠ [] →
  user_preferences_of (op_user_id req) (users st) = Ok user_prefs →
  max_daily_limit_of user_prefs = Ok (PInt limit) →
  Forall (scheduled_meeting E) user_meetings →
  let key := λ m, date (start_of E m) in
  let overloaded := filter (λ dm : Z * list dict, limit < Z.of_nat (length dm.2))
                      (grouped key user_meetings) in
  let non_business := filter (λ m, start_hour_outside_8_to_18 (start_of E m) = true)
                        user_meetings in
  ∃ extra insights,
    Forall is_insufficient_break extra
    ∧ optimize_meeting_schedule E req st
      = (Ok (Optimized (op_user_id req) (Z.of_nat (length user_meetings))
               (Z.max 0 (100 - Z.of_nat (length overloaded) * 20
                             - Z.of_nat (length non_business) * 10))
               (((λ dm : Z * list dict,
                    overloaded_day dm.1 (Z.of_nat (length dm.2))
                      (titles_of (slice_from limit dm.2))) <$> overloaded)
                ++ extra
                ++ match non_business with
                   | [] => []
                   | _ => [non_business_hours (titles_of non_business)]
                   end)
               insights), st).
Proof.
  intros Hums Hne Hprefs Hlimit HF key overloaded non_business.
  assert (Forall (λ m, is_Some (meeting_span E m)) user_meetings) as Hsp
    by (eapply Forall_impl; [exact HF|by intros ? [? _]]).
  assert (Forall (λ m, is_Some (m !! "title")) user_meetings) as Htt
    by (eapply Forall_impl; [exact HF|by intros ? [_ ?]]).
  assert (Forall (λ dm : Z * list dict, Forall (scheduled_meeting E) dm.2)
            (grouped key user_meetings)) as Hgroups.
  { rewrite grouped_closed_form. apply Forall_fmap, Forall_forall. intros d _. simpl.
    by apply Forall_filter. }
  unfold optimize_meeting_schedule.
  unfold bind_M at 1. rewrite get_user_meetings_run, Hums.
  unfold bind_M at 1. rewrite get_user_preferences_run, Hprefs.
  rewrite match_nonempty by done.
  unfold bind_M at 1. rewrite (group_by_date_run _ _ Hsp).
  unfold bind_M at 1. unfold lift at 1. rewrite Hlimit.
  unfold bind_M at 1. unfold lift at 1. rewrite overloaded_days_of_int.
  fold key. fold overloaded.
  unfold bind_M at 1. unfold lift at 1. rewrite overloaded_recommendations_int.
  2:{ apply Forall_filter. eapply Forall_impl; [exact Hgroups|].
      intros dm Hdm. eapply Forall_impl; [exact Hdm|by intros ? [_ ?]]. }
  unfold bind_M at 1.
  match goal with
  | |- context [break_recommendations E _ ?recs st] =>
      destruct (break_recommendations_ok _ Hgroups recs st) as (extra & -> & Hextra)
  end.
  unfold bind_M at 1. rewrite (non_business_meetings_of_run _ _ Hsp).
  fold non_business.
  exists extra.
  unfold bind_M at 1.
  assert (Forall (λ m, is_Some (m !! "title")) non_business) as Hnbt
    by by apply Forall_filter.
  destruct non_business as [|nb0 nbs].
  - eexists. split; [exact Hextra|].
    unfold ret. rewrite app_nil_r. reflexivity.
  - eexists. split; [exact Hextra|].
    unfold bind_M, lift, ret. rewrite (field_of_each_titles _ Hnbt).
    rewrite <- app_assoc. reflexivity.
Qed.

Lemma optimization_score_of_grouped limit (l : list dict) :
  Z.max 0 (100 - Z.of_nat (length (filter (λ dm : Z * list dict,
                                      limit < Z.of_nat (length dm.2))
                                     (grouped (λ m, date (start_of E m)) l))) * 20
               - Z.of_nat (length (filter (λ m, start_hour_outside_8_to_18
                                                 (start_of E m) = true) l)) * 10)
  = optimization_score_of start_hour_outside_8_to_18 E limit l.
Proof.
  unfold optimization_score_of, overloaded_dates, dates_of, meetings_on.
  rewrite grouped_closed_form, length_filter_fmap. simpl. f_equal. lia.
Qed.

(** C8 (amended). For a user who has meetings, [optimize_meeting_schedule]
    returns optimization_score = max(0, 100 - 20 * (number of dates
    with more meetings than the user's limit) - 10 * (number of meetings
    whose start hour is below 8 or above 18)). When all the meetings are on
    one day, exceed the limit by two and start in business hours, there is
    exactly one overloaded_day recommendation, which lists the meetings
    after the first [limit] in stored order, and the score is 80. *)
Theorem optimize_meeting_schedule_score req st user_meetings user_prefs limit :
  user_meetings_of (op_user_id req) (meetings st) = Ok user_meetings →
  user_meetings ≠ [] →
  user_preferences_of (op_user_id req) (users st) = Ok user_prefs →
  max_daily_limit_of user_prefs = Ok (PInt limit) →
  Forall (scheduled_meeting E) user_meetings →
  ∃ recs insights,
    optimize_meeting_schedule E req st
      = (Ok (Optimized (op_user_id req) (Z.of_nat (length user_meetings))
               (optimization_score_of start_hour_outside_8_to_18 E limit user_meetings)
               recs insights), st)
    ∧ ∀ day,
        Forall (λ m, date (start_of E m) = day) user_meetings →
        0 ≤ limit →
        length user_meetings = (Z.to_nat limit + 2)%nat →
        Forall (λ m, start_hour_outside_8_to_18 (start_of E m) = false) user_meetings →
        filter (λ r, is_overloaded_day r = true) recs
          = [overloaded_day day (limit + 2)
               (titles_of (drop (Z.to_nat limit) user_meetings))]
        ∧ optimization_score_of start_hour_outside_8_to_18 E limit user_meetings = 80.
Proof.
  intros Hums Hne Hprefs Hlimit HF.
  destruct (optimize_meeting_schedule_run req st user_meetings user_prefs limit
              Hums Hne Hprefs Hlimit HF) as (extra & insights & Hextra & Hrun).
  rewrite optimization_score_of_grouped in Hrun.
  eexists _, insights. split; [exact Hrun|].
  intros day Hday Hlim Hlen Hout.
  assert (grouped (λ m, date (start_of E m)) user_meetings = [(day, user_meetings)])
    as Hg.
  { rewrite grouped_closed_form.
    rewrite (first_occurrences_constant _ day).
    - simpl. by rewrite filter_all.
    - by intros ?%fmap_nil_inv.
    - by apply Forall_fmap. }
  assert (filter (λ m, start_hour_outside_8_to_18 (start_of E m) = true) user_meetings
          = []) as Hnb.
  { apply filter_none. eapply Forall_impl; [exact Hout|]. intros m ->. done. }
  assert (Z.of_nat (length user_meetings) = limit + 2) as Hlen' by lia.
  assert (filter (λ dm : Z * list dict, limit < Z.of_nat (length dm.2))
            [(day, user_meetings)] = [(day, user_meetings)]) as Hov.
  { rewrite filter_cons, filter_nil. simpl. rewrite decide_True; [done|lia]. }
  split.
  - rewrite Hg, Hov, Hnb. rewrite fmap_cons, fmap_nil. rewrite !filter_app.
    rewrite filter_nil, app_nil_r, (filter_overloaded_breaks _ Hextra), app_nil_r.
    rewrite filter_cons, filter_nil. simpl.
    unfold slice_from. rewrite (proj2 (Z.leb_le 0 limit) Hlim). by rewrite Hlen'.
  - rewrite <- optimization_score_of_grouped. rewrite Hg, Hov, Hnb. done.
Qed.

End Proofs.

(** C1 (amended). For a meeting whose stored effectiveness score is not
    positive (0, or absent), so that the historical factor is left out,
    the effectiveness score returned by [score_meeting_effectiveness] is at
    most 7.8; and it is 7.8 when the sub-scores are 10 for the duration,
    10 for the participants, 10 for the time of day, 9 for the type and 10
    for the agenda: 0.2*10 + 0.15*10 + 0.15*10 + 0.2*9 + 0.1*10 = 7.8. *)
Theorem effectiveness_without_history_at_most_7_8
    (E : env) (req : EffectivenessScoreRequest) (st st' : state)
    (meeting : dict) (resp : EffectivenessResponse) :
  find_meeting (es_meeting_id req) (meetings st) = Ok (Some meeting) →
  py_gt_zero (get_default meeting "effectiveness_score" (PInt 0)) = Ok false →
  score_meeting_effectiveness E req st = (Ok resp, st') →
  (effectiveness_score resp <=? 7.8)%float = true
  ∧ historical_score (er_score_breakdown resp) = None
  ∧ (duration_score (er_score_breakdown resp) = 10 →
     participant_score (er_score_breakdown resp) = 10 →
     time_score (er_score_breakdown resp) = 10 →
     type_score (er_score_breakdown resp) = 9 →
     agenda_score (er_score_breakdown resp) = 10 →
     effectiveness_score resp = 7.8%float).
Proof.
  intros Hf Hh Hrun.
  rewrite (score_meeting_effectiveness_found E _ _ _ Hf) in Hrun.
  destruct (negb (truthy (PDict meeting))); [discriminate|].
  apply score_meeting_breakdown in Hrun as (Hd & Hp & Ht & Hty & Ha & Hs).
  destruct (Hs Hh) as [Hnone ->]. split_and!; [|done|].
  - by apply weighted_score_bound.
  - intros -> -> -> -> ->. vm_compute. reflexivity.
Qed.

Lemma effectiveness_best_meeting_scores_7_8 :
  find_meeting "m1" [best_meeting] = Ok (Some best_meeting)
  ∧ py_gt_zero (get_default best_meeting "effectiveness_score" (PInt 0)) = Ok false
  ∧ score_meeting_effectiveness sample_env {| es_meeting_id := "m1" |}
      (sample_state [best_meeting] []) = (Ok best_response, sample_state [best_meeting] [])
  ∧ (effectiveness_score best_response <=? 7.8)%float = true
  ∧ historical_score (er_score_breakdown best_response) = None
  ∧ (duration_score (er_score_breakdown best_response) = 10 →
     participant_score (er_score_breakdown best_response) = 10 →
     time_score (er_score_breakdown best_response) = 10 →
     type_score (er_score_breakdown best_response) = 9 →
     agenda_score (er_score_breakdown best_response) = 10 →
     effectiveness_score best_response = 7.8%float).
Proof.
  split; [vm_compute; reflexivity|].
  split; [vm_compute; reflexivity|].
  split; [vm_compute; reflexivity|].
  apply (effectiveness_without_history_at_most_7_8 sample_env
           {| es_meeting_id := "m1" |} (sample_state [best_meeting] [])
           (sample_state [best_meeting] []) best_meeting best_response);
    vm_compute; reflexivity.
Defined.

(** C1 as stated fails: the meeting [best_meeting] has a stored score of 0
    and the sub-scores 10, 10, 10, 9, 10, and its effectiveness score is
    7.8, not 8.0. *)
Lemma effectiveness_best_meeting_is_not_8 :
  best_meeting !! "effectiveness_score" = Some (PFloat 0)
  ∧ score_meeting_effectiveness sample_env {| es_meeting_id := "m1" |}
      (sample_state [best_meeting] []) = (Ok best_response, sample_state [best_meeting] [])
  ∧ er_score_breakdown best_response
      = {| duration_score := 10; participant_score := 10; time_score := 10;
           type_score := 9; agenda_score := 10; historical_score := None |}
  ∧ effectiveness_score best_response = 7.8%float
  ∧ effectiveness_score best_response ≠ 8%float.
Proof.
  split_and!; try (vm_compute; reflexivity).
  intros Heq.
  assert (PrimFloat.eqb (effectiveness_score best_response) 8 = true) as Hb
    by (rewrite Heq; reflexivity).
  vm_compute in Hb. discriminate Hb.
Qed.

Lemma example_slots_loop_spec now duration indices acc out :
  example_slots_loop now duration indices acc = Ok out →
  out = acc ++ (slot_after now duration <$> indices).
Proof.
  revert acc out. induction indices as [|i rest IH]; intros acc out.
  { intros [= <-]. by rewrite app_nil_r. }
  cbn [example_slots_loop]. unfold bind_result.
  destruct (dt_plus now (i + 1) 9 0) as [slot_start|] eqn:Hs; [|discriminate].
  destruct (dt_plus slot_start 0 0 duration) as [slot_end|] eqn:He; [|discriminate].
  intros Hrest. apply IH in Hrest. subst out.
  apply dt_plus_Ok in Hs. apply dt_plus_Ok in He. subst slot_end slot_start.
  rewrite fmap_cons, <- app_assoc. do 2 f_equal.
  unfold slot_after. simpl.
  f_equal; f_equal; (apply (f_equal2 Build_datetime); [lia|done]).
Qed.

(** C3 (what the code does). [find_optimal_slots] answers with five slots
    of scores 10, 9, 8, 7, 6, the first two recommended, whatever the
    participants (or with an error 500 when a date leaves the calendar);
    slot [i] starts [i+1] days and 9 hours after the clock reading, not at
    09:00: read at 14:30 on 2024-01-01, the clock gives slots that start
    at 23:30 on the five following days. *)
Theorem find_optimal_slots_nine_hours_after_now :
  (∀ (E : env) (req : OptimalSlotsRequest) (st : state),
     let now := {| wall := localtime E (clock E (ticks st)); tzinfo := None |} in
     (∃ resp,
        find_optimal_slots E req st = (Ok resp, after_clock_reading st)
        ∧ optimal_slots resp = slot_after now (os_duration req) <$> [0; 1; 2; 3; 4]
        ∧ ai_score <$> optimal_slots resp = [10; 9; 8; 7; 6]
        ∧ recommended <$> optimal_slots resp = [true; true; false; false; false]
        ∧ osr_participants resp = os_participants req)
     ∨ find_optimal_slots E req st
       = (Raise (HTTPException 500), after_clock_reading st))
  ∧ (∀ participants,
       ∃ resp,
         find_optimal_slots sample_env
           {| os_participants := participants; os_duration := 60; os_date_range := [] |}
           (sample_state [] []) = (Ok resp, after_clock_reading (sample_state [] []))
         ∧ (sample_isoformat ∘ opt_start_time) <$> optimal_slots resp
           = ["2024-01-02T23:30:00"; "2024-01-03T23:30:00"; "2024-01-04T23:30:00";
              "2024-01-05T23:30:00"; "2024-01-06T23:30:00"]
         ∧ (hour ∘ opt_start_time) <$> optimal_slots resp = [23; 23; 23; 23; 23]).
Proof.
  split.
  - intros E req st now.
    unfold find_optimal_slots, try_except, bind_M, now_local, lift, ret.
    fold now. fold (after_clock_reading st).
    destruct (example_slots_loop now (os_duration req) (seqZ 0 5) []) as [out|e] eqn:Hloop.
    + left. apply example_slots_loop_spec in Hloop as ->.
      eexists. split; [reflexivity|]. split_and!; reflexivity.
    + right. reflexivity.
  - intros participants. eexists. split; [vm_compute; reflexivity|].
    split; vm_compute; reflexivity.
Qed.

Lemma touching_meetings_do_not_conflict :
  let st := sample_state [meeting_9_to_10; meeting_10_to_11] [] in
  meeting_span sample_env meeting_9_to_10
    = Some (on_2024_01_15 9 0, on_2024_01_15 10 0)
  ∧ meeting_span sample_env meeting_10_to_11
    = Some (on_2024_01_15 10 0, on_2024_01_15 11 0)
  ∧ check_time_conflict sample_env meeting_9_to_10 meeting_10_to_11 st = (Ok false, st)
  ∧ check_time_conflict sample_env meeting_10_to_11 meeting_9_to_10 st
    = check_time_conflict sample_env meeting_9_to_10 meeting_10_to_11 st.
Proof.
  intros st.
  assert (meeting_span sample_env meeting_9_to_10
          = Some (on_2024_01_15 9 0, on_2024_01_15 10 0)) as H1
    by (vm_compute; reflexivity).
  assert (meeting_span sample_env meeting_10_to_11
          = Some (on_2024_01_15 10 0, on_2024_01_15 11 0)) as H2
    by (vm_compute; reflexivity).
  destruct (check_time_conflict_half_open sample_env _ _ _ _ _ _ st H1 H2)
    as (_ & Hsym & Htouch).
  split; [exact H1|]. split; [exact H2|]. split; [|exact Hsym].
  apply Htouch. reflexivity.
Defined.

Lemma missing_end_time_is_no_conflict :
  let st := sample_state [meeting_9_to_10] [] in
  (meeting_9_to_10 !! "start_time" = None ∨ meeting_9_to_10 !! "end_time" = None
   ∨ meeting_without_end !! "start_time" = None
   ∨ meeting_without_end !! "end_time" = None)
  ∧ (check_time_conflict sample_env meeting_9_to_10 meeting_without_end st).1
    = Ok false.
Proof.
  intros st.
  assert (meeting_9_to_10 !! "start_time" = None ∨ meeting_9_to_10 !! "end_time" = None
          ∨ meeting_without_end !! "start_time" = None
          ∨ meeting_without_end !! "end_time" = None) as Hmiss
    by (right; right; right; vm_compute; reflexivity).
  split; [exact Hmiss|].
  exact (proj1 (proj2 (check_time_conflict_absorbs_errors sample_env
                         meeting_9_to_10 meeting_without_end st)) Hmiss).
Defined.

Lemma idle_team_of_one_raises :
  let req := {| wb_team_members := ["nobody@example.com"] |} in
  let st := sample_state [best_meeting] [] in
  wb_team_members req ≠ []
  ∧ Forall (idle_member st) (wb_team_members req)
  ∧ calculate_workload_balance sample_env req st = (Raise ZeroDivisionError, st).
Proof.
  intros req st.
  assert (wb_team_members req ≠ []) as Hne by discriminate.
  assert (Forall (idle_member st) (wb_team_members req)) as Hidle.
  { repeat constructor. exists None, (PInt 5). split; reflexivity. }
  split; [exact Hne|]. split; [exact Hidle|].
  exact (calculate_workload_balance_idle_team_raises sample_env req st Hne Hidle).
Defined.

(** C9. The busy intervals that [find_available_slots] collects are the
    spans of the participants' meetings whose start lies in
    [rangeStart, rangeEnd], both bounds included: a meeting that starts
    before rangeStart is not among them. So a returned slot can overlap a
    meeting in progress: with a meeting from 08:00 to 10:30 and the range
    09:00-12:00, the slot 09:00-10:00 is returned. *)
Theorem busy_times_only_from_meetings_starting_in_range :
  (∀ (E : env) (participants : list string) (range_start range_end : datetime)
     (st : state),
     aware range_start → aware range_end →
     timed_participants E (meetings st) participants →
     collect_busy_times E participants range_start range_end st
       = (Ok (participants ≫= λ p,
                spans_starting_in E range_start range_end
                  (meetings_of (meetings st) p)), st)
     ∧ ∀ b, b ∈ (participants ≫= λ p,
                   spans_starting_in E range_start range_end
                     (meetings_of (meetings st) p)) →
            instant range_start ≤ instant b.1 ≤ instant range_end)
  ∧ (let st := sample_state [in_progress_meeting] [] in
     ∃ slots sl s e,
       find_available_slots sample_env 4 ["alice"] 60 morning_range st
         = (Ok (Some slots), st)
       ∧ sl ∈ slots
       ∧ in_progress_meeting ∈ meetings_of (meetings st) "alice"
       ∧ meeting_span sample_env in_progress_meeting = Some (s, e)
       ∧ instant s < instant (on_2024_01_15 9 0)
       ∧ slot_start_time sl = on_2024_01_15 9 0
       ∧ slot_end_time sl = on_2024_01_15 10 0
       ∧ intervalsOverlap (instant (slot_start_time sl)) (instant (slot_end_time sl))
           (instant s) (instant e) = true).
Proof.
  split.
  - intros E participants rs re st Hrs Hre HF.
    split; [by apply collect_busy_times_spans|].
    intros b (p & Hb & _)%list_elem_of_bind.
    apply spans_starting_in_inside in Hb. unfold falls_inside in Hb.
    apply andb_true_iff in Hb as [H1 H2]. apply Z.leb_le in H1, H2. lia.
  - intros st.
    exists [{| slot_start_time := on_2024_01_15 9 0;
               slot_end_time := on_2024_01_15 10 0;
               slot_duration_minutes := 60 |};
            {| slot_start_time := on_2024_01_15 10 0;
               slot_end_time := on_2024_01_15 11 0;
               slot_duration_minutes := 60 |};
            {| slot_start_time := on_2024_01_15 11 0;
               slot_end_time := on_2024_01_15 12 0;
               slot_duration_minutes := 60 |}].
    eexists _, (on_2024_01_15 8 0), (on_2024_01_15 10 30).
    split; [vm_compute; reflexivity|].
    split; [apply list_elem_of_here|].
    split; [vm_compute; apply list_elem_of_here|].
    split_and!; vm_compute; reflexivity.
Qed.

Lemma meeting_ending_at_range_start_is_reported :
  let req := {| cf_user_id := "alice";
                cf_time_range := ["2024-01-15T10:00:00"; "2024-01-15T12:00:00"] |} in
  let st := sample_state [meeting_9_to_10; meeting_10_to_11] [] in
  let rs := on_2024_01_15 10 0 in
  let re := on_2024_01_15 12 0 in
  user_meetings_of "alice" (meetings st) = Ok [meeting_9_to_10; meeting_10_to_11]
  ∧ Forall (listed_meeting sample_env) [meeting_9_to_10; meeting_10_to_11]
  ∧ parse_datetime sample_env (PStr "2024-01-15T10:00:00") st = (Ok rs, st)
  ∧ parse_datetime sample_env (PStr "2024-01-15T12:00:00") st = (Ok re, st)
  ∧ instant rs ≤ instant re
  ∧ ∃ resp,
      detect_scheduling_conflicts sample_env req st = (Ok resp, st)
      ∧ conflicts resp = [range_conflict_of meeting_9_to_10;
                          range_conflict_of meeting_10_to_11]
      ∧ intervalsOverlap (instant (on_2024_01_15 9 0)) (instant (on_2024_01_15 10 0))
          (instant rs) (instant re) = false.
Proof.
  intros req st rs re.
  assert (user_meetings_of "alice" (meetings st) = Ok [meeting_9_to_10; meeting_10_to_11])
    as Hums by (vm_compute; reflexivity).
  assert (Forall (listed_meeting sample_env) [meeting_9_to_10; meeting_10_to_11]) as HF.
  { repeat constructor; eexists; vm_compute; reflexivity. }
  assert (parse_datetime sample_env (PStr "2024-01-15T10:00:00") st = (Ok rs, st)) as Hp0
    by (vm_compute; reflexivity).
  assert (parse_datetime sample_env (PStr "2024-01-15T12:00:00") st = (Ok re, st)) as Hp1
    by (vm_compute; reflexivity).
  assert (instant rs ≤ instant re) as Hle by (vm_compute; discriminate).
  split_and!; try done.
  destruct (detect_scheduling_conflicts_inclusive sample_env req st st st
              [meeting_9_to_10; meeting_10_to_11]
              "2024-01-15T10:00:00" "2024-01-15T12:00:00" rs re
              Hums HF eq_refl eq_refl Hp0 Hp1 Hle)
    as (resp & Hrun & Hconf & _ & Hend).
  exists resp. split; [exact Hrun|]. split.
  - rewrite Hconf. vm_compute. reflexivity.
  - apply (Hend meeting_9_to_10 (on_2024_01_15 9 0) (on_2024_01_15 10 0)).
    + apply list_elem_of_here.
    + vm_compute. reflexivity.
    + reflexivity.
Defined.

Lemma morning_slots_are_available :
  let st := sample_state [meeting_10_to_11] [] in
  let rs := on_2024_01_15 9 0 in
  let re := on_2024_01_15 12 0 in
  let busy := [(on_2024_01_15 10 0, on_2024_01_15 11 0)] in
  parse_datetime sample_env (PStr "2024-01-15T09:00:00") st = (Ok rs, st)
  ∧ parse_datetime sample_env (PStr "2024-01-15T12:00:00") st = (Ok re, st)
  ∧ collect_busy_times sample_env ["alice"] rs re st = (Ok busy, st)
  ∧ (scan_fuel rs re 60 ≤ 4)%nat
  ∧ ∃ slots,
      find_available_slots sample_env 4 ["alice"] 60 morning_range st
        = (Ok (Some slots), st)
      ∧ (length slots ≤ 5)%nat
      ∧ Forall (available_slot rs re 60 busy) slots.
Proof.
  intros st rs re busy.
  assert (parse_datetime sample_env (PStr "2024-01-15T09:00:00") st = (Ok rs, st)) as Hp0
    by (vm_compute; reflexivity).
  assert (parse_datetime sample_env (PStr "2024-01-15T12:00:00") st = (Ok re, st)) as Hp1
    by (vm_compute; reflexivity).
  assert (collect_busy_times sample_env ["alice"] rs re st = (Ok busy, st)) as Hb
    by (vm_compute; reflexivity).
  assert (scan_fuel rs re 60 ≤ 4)%nat as Hfuel by (vm_compute; lia).
  split_and!; try done.
  destruct (find_available_slots_sound sample_env ["alice"] 60 morning_range st)
    as [Hsound Hreturns].
  destruct (Hreturns _ _ rs re st st busy st eq_refl eq_refl Hp0 Hp1 Hb 4%nat Hfuel)
    as [[slots Hrun]|[e Hrun]]; [|vm_compute in Hrun; discriminate Hrun].
  exists slots. split; [exact Hrun|].
  destruct (Hsound 4%nat slots st Hrun)
    as (r0 & r1 & rs' & re' & st1 & st2 & busy' & H0 & H1 & Hq0 & Hq1 & Hb' & Hlen & Hav).
  injection H0 as <-. injection H1 as <-.
  rewrite Hp0 in Hq0. injection Hq0 as <- <-.
  rewrite Hp1 in Hq1. injection Hq1 as <- <-.
  rewrite Hb in Hb'. injection Hb' as <-.
  split; [exact Hlen|exact Hav].
Defined.

Lemma in_progress_meeting_is_not_busy :
  let st := sample_state [in_progress_meeting] [] in
  let rs := on_2024_01_15 9 0 in
  let re := on_2024_01_15 12 0 in
  aware rs ∧ aware re
  ∧ timed_participants sample_env (meetings st) ["alice"]
  ∧ collect_busy_times sample_env ["alice"] rs re st = (Ok [], st).
Proof.
  intros st rs re.
  assert (aware rs) as Hrs by (eexists; reflexivity).
  assert (aware re) as Hre by (eexists; reflexivity).
  assert (timed_participants sample_env (meetings st) ["alice"]) as HF.
  { repeat constructor. exists [in_progress_meeting].
    split; [vm_compute; reflexivity|].
    repeat constructor. eexists. vm_compute. reflexivity. }
  split; [exact Hrs|]. split; [exact Hre|]. split; [exact HF|].
  rewrite (proj1 (proj1 busy_times_only_from_meetings_starting_in_range
                    sample_env ["alice"] rs re st Hrs Hre HF)).
  vm_compute. reflexivity.
Defined.

(** C8 as stated fails. A meeting that starts at 18:30 starts after 18:00,
    so the stated formula gives 100 - 10 = 90; its start hour is 18, and
    [optimize_meeting_schedule] returns 100. And a user without meetings
    gets no score at all. *)
Lemma evening_meeting_is_not_penalised :
  let st := sample_state [evening_meeting] [alice_preferences] in
  optimize_meeting_schedule sample_env {| op_user_id := "alice" |} st
    = (Ok (Optimized "alice" 1 100 []
             {| schedule_efficiency := "Good";
                workload_distribution_label := "Balanced";
                time_utilization := "Optimal" |}), st)
  ∧ start_of sample_env evening_meeting = on_2024_01_15 18 30
  ∧ starts_before_8_or_after_18 (on_2024_01_15 18 30) = true
  ∧ optimization_score_of starts_before_8_or_after_18 sample_env 5 [evening_meeting] = 90
  ∧ optimize_meeting_schedule sample_env {| op_user_id := "bob" |} st
    = (Ok (NoMeetings "bob" "No meetings found for optimization"), st).
Proof. intros st. split_and!; vm_compute; reflexivity. Qed.

Lemma busy_day_scores_80 :
  let req := {| op_user_id := "alice" |} in
  let st := sample_state busy_day [alice_preferences] in
  let day := date (on_2024_01_15 0 0) in
  user_meetings_of "alice" (meetings st) = Ok busy_day
  ∧ busy_day ≠ []
  ∧ user_preferences_of "alice" (users st) = Ok (Some alice_preferences)
  ∧ max_daily_limit_of (Some alice_preferences) = Ok (PInt 5)
  ∧ Forall (scheduled_meeting sample_env) busy_day
  ∧ Forall (λ m, date (start_of sample_env m) = day) busy_day
  ∧ length busy_day = (Z.to_nat 5 + 2)%nat
  ∧ Forall (λ m, start_hour_outside_8_to_18 (start_of sample_env m) = false) busy_day
  ∧ ∃ recs insights,
      optimize_meeting_schedule sample_env req st
        = (Ok (Optimized "alice" 7 80 recs insights), st)
      ∧ filter (λ r, is_overloaded_day r = true) recs
        = [overloaded_day day 7 [PStr "Meeting 6"; PStr "Meeting 7"]].
Proof.
  intros req st day.
  assert (user_meetings_of "alice" (meetings st) = Ok busy_day) as Hums
    by (vm_compute; reflexivity).
  assert (busy_day ≠ []) as Hne by discriminate.
  assert (user_preferences_of "alice" (users st) = Ok (Some alice_preferences)) as Hprefs
    by (vm_compute; reflexivity).
  assert (max_daily_limit_of (Some alice_preferences) = Ok (PInt 5)) as Hlimit
    by (vm_compute; reflexivity).
  assert (Forall (scheduled_meeting sample_env) busy_day) as HF.
  { repeat constructor; eexists; vm_compute; reflexivity. }
  assert (Forall (λ m, date (start_of sample_env m) = day) busy_day) as Hday.
  { repeat constructor; vm_compute; reflexivity. }
  assert (length busy_day = (Z.to_nat 5 + 2)%nat) as Hlen by reflexivity.
  assert (Forall (λ m, start_hour_outside_8_to_18 (start_of sample_env m) = false)
            busy_day) as Hout.
  { repeat constructor; vm_compute; reflexivity. }
  split_and!; try assumption.
  destruct (optimize_meeting_schedule_score sample_env req st busy_day
              (Some alice_preferences) 5 Hums Hne Hprefs Hlimit HF)
    as (recs & insights & Hrun & Hscenario).
  destruct (Hscenario day Hday ltac:(lia) Hlen Hout) as [Hrecs Hscore].
  exists recs, insights. split.
  - rewrite Hrun, Hscore. reflexivity.
  - rewrite Hrecs. reflexivity.
Defined.

(** * Further properties of the helpers and endpoints *)

Section Further.
Context (E : env).

(** ** [get_user_meetings] and [get_user_preferences] *)

Lemma attends_spec user_id m :
  attends user_id m = true
  ↔ ∃ l, m !! "participants" = Some (PList l) ∧ PStr user_id ∈ l.
Proof.
  unfold attends. split.
  - destruct (m !! "participants") as [[| | | | |l|]|]; try discriminate.
    intros (v & Hin & Hv)%existsb_exists. exists l. split; [done|].
    destruct v; try discriminate. apply String.eqb_eq in Hv as ->.
    by apply list_elem_of_In.
  - intros (l & -> & Hin). apply existsb_exists. exists (PStr user_id).
    split; [by apply list_elem_of_In|]. simpl. apply String.eqb_refl.
Qed.

Lemma user_meetings_of_filter user_id data_meetings :
  Forall has_participant_list data_meetings →
  user_meetings_of user_id data_meetings
    = Ok (filter (λ m, attends user_id m = true) data_meetings).
Proof.
  induction 1 as [|m rest [l Hl] _ IH]; [done|].
  cbn [user_meetings_of]. unfold getitem, bind_result. rewrite Hl. cbn [py_in].
  rewrite IH, filter_cons.
  assert (attends user_id m = existsb (λ v, py_eq_str v user_id) l) as Ha
    by (unfold attends; by rewrite Hl).
  assert (existsb (λ x, match x with PStr s => String.eqb s user_id | _ => false end) l
          = attends user_id m) as -> by (by rewrite Ha).
  destruct (attends user_id m).
  - by rewrite decide_True.
  - by rewrite decide_False.
Qed.

(** X1. When every stored meeting has a list of participants,
    [get_user_meetings] returns exactly the stored meetings whose list
    names the user, in stored order, and changes nothing. *)
Theorem get_user_meetings_filter user_id st :
  Forall has_participant_list (meetings st) →
  get_user_meetings user_id st
    = (Ok (filter (λ m, attends user_id m = true) (meetings st)), st)
  ∧ ∀ m, m ∈ filter (λ m, attends user_id m = true) (meetings st)
         ↔ m ∈ meetings st
           ∧ ∃ l, m !! "participants" = Some (PList l) ∧ PStr user_id ∈ l.
Proof.
  intros HF. split.
  - by rewrite get_user_meetings_run, user_meetings_of_filter.
  - intros m. rewrite list_elem_of_filter, attends_spec. tauto.
Qed.

Lemma user_meetings_of_missing user_id data_meetings m :
  m ∈ data_meetings → m !! "participants" = None →
  ∃ e, user_meetings_of user_id data_meetings = Raise e.
Proof.
  intros Hin Hm. induction data_meetings as [|m' rest IH]; [by apply elem_of_nil in Hin|].
  cbn [user_meetings_of]. unfold getitem, bind_result.
  apply elem_of_cons in Hin as [<-|Hin].
  - rewrite Hm. eauto.
  - destruct (m' !! "participants") as [ps|]; [|eauto].
    destruct (py_in user_id ps) as [b|]; [|eauto].
    destruct (IH Hin) as [e ->]. eauto.
Qed.

(** X2. One stored meeting without [participants] makes
    [get_user_meetings] raise for every user id, and with it every
    endpoint that starts with that lookup; the data is left as it was. *)
Theorem meeting_without_participants_breaks_lookups st m :
  m ∈ meetings st → m !! "participants" = None →
  (∀ user_id, ∃ e, get_user_meetings user_id st = (Raise e, st))
  ∧ (∀ req, ∃ e, detect_scheduling_conflicts E req st = (Raise e, st))
  ∧ (∀ req, ∃ e, analyze_meeting_patterns E req st = (Raise e, st))
  ∧ (∀ req, ∃ e, optimize_meeting_schedule E req st = (Raise e, st))
  ∧ (∀ req, ag_participants req ≠ [] →
       ∃ e, generate_agenda_suggestions req st = (Raise e, st))
  ∧ (∀ req, wb_team_members req ≠ [] →
       ∃ e, calculate_workload_balance E req st = (Raise e, st)).
Proof.
  intros Hin Hm.
  assert (∀ user_id, ∃ e, get_user_meetings user_id st = (Raise e, st)) as Hget.
  { intros u. destruct (user_meetings_of_missing u _ _ Hin Hm) as [e He].
    exists e. by rewrite get_user_meetings_run, He. }
  split_and!; [done|..].
  - intros req. destruct (Hget (cf_user_id req)) as [e He]. exists e.
    unfold detect_scheduling_conflicts. unfold bind_M at 1. by rewrite He.
  - intros req. destruct (Hget (pa_user_id req)) as [e He]. exists e.
    unfold analyze_meeting_patterns. unfold bind_M at 1. by rewrite He.
  - intros req. destruct (Hget (op_user_id req)) as [e He]. exists e.
    unfold optimize_meeting_schedule. unfold bind_M at 1. by rewrite He.
  - intros req Hne. destruct (ag_participants req) as [|p ps] eqn:Hps; [done|].
    destruct (Hget p) as [e He]. exists e.
    unfold generate_agenda_suggestions. rewrite Hps. cbn [for_each].
    unfold bind_M. by rewrite He.
  - intros req Hne. destruct (wb_team_members req) as [|p ps] eqn:Hps; [done|].
    destruct (Hget p) as [e He]. exists e.
    unfold calculate_workload_balance. rewrite Hps. cbn [for_each].
    unfold member_workload_of. unfold bind_M. by rewrite He.
Qed.

Lemma user_preferences_of_skip user_id before rest :
  Forall (field_differs "user_id" user_id) before →
  user_preferences_of user_id (before ++ rest) = user_preferences_of user_id rest.
Proof.
  induction 1 as [|u before (v & Hv & Hne) _ IH]; [done|].
  cbn [app user_preferences_of]. unfold getitem, bind_result. by rewrite Hv, Hne.
Qed.

(** X3. [get_user_preferences] returns the first record of [data["users"]]
    whose [user_id] is the one asked for, whatever follows that record
    (a second record of the same user, a record without [user_id]); when
    every record is of another user it returns None. *)
Theorem get_user_preferences_first_match user_id st :
  (∀ before u after,
     users st = before ++ u :: after →
     Forall (field_differs "user_id" user_id) before →
     u !! "user_id" = Some (PStr user_id) →
     get_user_preferences user_id st = (Ok (Some u), st))
  ∧ (Forall (field_differs "user_id" user_id) (users st) →
     get_user_preferences user_id st = (Ok None, st)).
Proof.
  split.
  - intros before u after Hus Hb Hu.
    rewrite get_user_preferences_run, Hus, user_preferences_of_skip by done.
    cbn [user_preferences_of]. unfold getitem, bind_result. rewrite Hu.
    cbn [py_eq_str]. by rewrite String.eqb_refl.
  - intros HF. rewrite get_user_preferences_run.
    rewrite <- (app_nil_r (users st)), user_preferences_of_skip by done. done.
Qed.

(** ** [parse_datetime] on values that are not text *)

(** X4. [parse_datetime] takes any false value (None, [0], [0.0], [False], an
    empty string, list or dict) for a missing timestamp and returns the
    clock reading in UTC; on a true value that is not a str it raises
    TypeError, which none of its handlers catches, without reading the
    clock. *)
Theorem parse_datetime_on_other_values (v : pyval) (st : state) :
  (truthy v = false →
   parse_datetime E v st = (Ok (current_instant_utc E st), after_clock_reading st))
  ∧ (truthy v = true → (∀ s, v ≠ PStr s) →
     parse_datetime E v st = (Raise TypeError, st)).
Proof.
  split.
  - intros Hv. unfold parse_datetime. by rewrite Hv.
  - intros Hv Hs. unfold parse_datetime. rewrite Hv. cbn [negb].
    destruct v; try done; by destruct (Hs s).
Qed.

(** ** Ranges *)

Lemma parse_datetime_text s st :
  ∃ d st', parse_datetime E (PStr s) st = (Ok d, st').
Proof.
  pose proof (parse_datetime_opt_str E (Some s) st) as H. simpl in H. eauto.
Qed.

(** X5. A range with fewer than two bounds makes [find_available_slots]
    and [detect_scheduling_conflicts] raise IndexError, whatever the other
    arguments are. *)
Theorem range_without_two_bounds_raises_IndexError (range : list string) :
  (length range < 2)%nat →
  (∀ fuel participants duration st,
     ∃ st', find_available_slots E fuel participants duration range st
            = (Raise IndexError, st'))
  ∧ (∀ user_id st user_meetings,
       user_meetings_of user_id (meetings st) = Ok user_meetings →
       ∃ st', detect_scheduling_conflicts E
                {| cf_user_id := user_id; cf_time_range := range |} st
              = (Raise IndexError, st')).
Proof.
  intros Hlen. split.
  - intros fuel participants duration st. unfold find_available_slots.
    destruct range as [|r0 [|r1 rest]]; [by eexists| |simpl in Hlen; lia].
    unfold bind_M at 1. unfold lift at 1. cbn [py_index lookup list_lookup].
    unfold bind_M at 1.
    destruct (parse_datetime_text r0 st) as (d & st1 & ->). by eexists.
  - intros user_id st ums Hums. unfold detect_scheduling_conflicts.
    unfold bind_M at 1. rewrite get_user_meetings_run. cbn [cf_user_id cf_time_range].
    rewrite Hums.
    destruct range as [|r0 [|r1 rest]]; [by eexists| |simpl in Hlen; lia].
    unfold bind_M at 1. unfold lift at 1. cbn [py_index lookup list_lookup].
    unfold bind_M at 1.
    destruct (parse_datetime_text r0 st) as (d & st1 & ->). by eexists.
Qed.

Lemma detect_scheduling_conflicts_run req st st1 st2 user_meetings r0 r1
    range_start range_end :
  user_meetings_of (cf_user_id req) (meetings st) = Ok user_meetings →
  Forall (listed_meeting E) user_meetings →
  cf_time_range req !! 0%nat = Some r0 →
  cf_time_range req !! 1%nat = Some r1 →
  parse_datetime E (PStr r0) st = (Ok range_start, st1) →
  parse_datetime E (PStr r1) st1 = (Ok range_end, st2) →
  detect_scheduling_conflicts E req st
    = (Ok {| cfr_status := "success";
             cfr_user_id := cf_user_id req;
             cfr_time_range := cf_time_range req;
             conflicts_found :=
               Z.of_nat (length (filter (λ m, reported_by_code E range_start range_end m = true)
                                   user_meetings));
             conflicts :=
               range_conflict_of
                 <$> filter (λ m, reported_by_code E range_start range_end m = true)
                       user_meetings |}, st2).
Proof.
  intros Hums HF H0 H1 Hp0 Hp1.
  pose proof (parse_datetime_aware _ _ _ _ _ Hp0) as Ars.
  pose proof (parse_datetime_aware _ _ _ _ _ Hp1) as Are.
  unfold detect_scheduling_conflicts.
  unfold bind_M at 1. rewrite get_user_meetings_run, Hums.
  unfold bind_M at 1. unfold lift at 1. rewrite (py_index_lookup _ _ _ H0).
  unfold bind_M at 1. rewrite Hp0.
  unfold bind_M at 1. unfold lift at 1. rewrite (py_index_lookup _ _ _ H1).
  unfold bind_M at 1. rewrite Hp1.
  unfold bind_M at 1. rewrite (detect_loop E range_start range_end) by done.
  unfold ret. simpl. by rewrite length_fmap.
Qed.

(** X6. When the range is given backwards (its end before its start),
    [detect_scheduling_conflicts] reports exactly the user's meetings that
    are in progress at the first bound: a meeting that lies between the
    two bounds is not reported. *)
Theorem detect_scheduling_conflicts_backward_range
    (req : ConflictRequest) (st st1 st2 : state) (user_meetings : list dict)
    (r0 r1 : string) (range_start range_end : datetime) :
  user_meetings_of (cf_user_id req) (meetings st) = Ok user_meetings →
  Forall (listed_meeting E) user_meetings →
  cf_time_range req !! 0%nat = Some r0 →
  cf_time_range req !! 1%nat = Some r1 →
  parse_datetime E (PStr r0) st = (Ok range_start, st1) →
  parse_datetime E (PStr r1) st1 = (Ok range_end, st2) →
  instant range_end < instant range_start →
  ∃ resp,
    detect_scheduling_conflicts E req st = (Ok resp, st2)
    ∧ conflicts resp
      = range_conflict_of
          <$> filter (λ m, in_progress_at E range_start m = true) user_meetings
    ∧ ∀ m s e,
        meeting_span E m = Some (s, e) → instant e < instant range_start →
        m ∉ filter (λ m, in_progress_at E range_start m = true) user_meetings.
Proof.
  intros Hums HF H0 H1 Hp0 Hp1 Hlt.
  rewrite (detect_scheduling_conflicts_run _ _ _ _ _ _ _ _ _ Hums HF H0 H1 Hp0 Hp1).
  eexists. split; [reflexivity|]. cbn [conflicts].
  assert (filter (λ m, reported_by_code E range_start range_end m = true) user_meetings
          = filter (λ m, in_progress_at E range_start m = true) user_meetings) as ->.
  { apply list_filter_iff. intros m. unfold reported_by_code, in_progress_at.
    destruct (meeting_span E m) as [[s e]|]; [|done].
    unfold falls_inside.
    rewrite !orb_true_iff, !andb_true_iff, !Z.leb_le. lia. }
  split; [reflexivity|].
  intros m s e Hspan He [Hp _]%list_elem_of_filter.
  unfold in_progress_at, falls_inside in Hp. rewrite Hspan in Hp.
  apply andb_true_iff in Hp as [_ Hp%Z.leb_le]. lia.
Qed.

(** ** [score_meeting_effectiveness] *)

Lemma find_meeting_skip meeting_id before rest :
  Forall (field_differs "id" meeting_id) before →
  find_meeting meeting_id (before ++ rest) = find_meeting meeting_id rest.
Proof.
  induction 1 as [|m before (v & Hv & Hne) _ IH]; [done|].
  cbn [app find_meeting]. unfold getitem, bind_result. by rewrite Hv, Hne.
Qed.

Lemma find_meeting_cases meeting_id l :
  Forall (λ m, is_Some (m !! "id")) l →
  Forall (field_differs "id" meeting_id) l
  ∨ ∃ before m after,
      l = before ++ m :: after
      ∧ Forall (field_differs "id" meeting_id) before
      ∧ m !! "id" = Some (PStr meeting_id).
Proof.
  induction 1 as [|m rest [v Hv] _ IH]; [by left|].
  destruct (py_eq_str v meeting_id) eqn:Heq.
  - right. exists [], m, rest. split_and!; [done|constructor|].
    destruct v; try discriminate. by apply String.eqb_eq in Heq as ->.
  - destruct IH as [IH|(before & m' & after & -> & Hb & Hm')].
    + left. constructor; [by exists v|done].
    + right. exists (m :: before), m', after.
      split_and!; [done| |done]. constructor; [by exists v|done].
Qed.

Lemma parse_datetime_raises v st e st' :
  parse_datetime E v st = (Raise e, st') → e = TypeError.
Proof.
  destruct v as [|b|n|f|s|l|d];
    try (unfold parse_datetime; destruct (truthy _); cbn [negb];
         [unfold_monad; simpl; by intros [= <- <-] | discriminate]).
  destruct (parse_datetime_text s st) as (d & st1 & ->). discriminate.
Qed.

Lemma parse_field_raises m k st e st' :
  parse_field E m k st = (Raise e, st') → e = KeyError ∨ e = TypeError.
Proof.
  unfold parse_field, bind_M, lift, getitem.
  destruct (m !! k) as [v|]; [|intros [= <- <-]; by left].
  intros ->%parse_datetime_raises. by right.
Qed.

Lemma duration_minutes_raises m st e st' :
  duration_minutes E m st = (Raise e, st') → e = KeyError ∨ e = TypeError.
Proof.
  unfold duration_minutes, bind_M, lift, ret.
  destruct (parse_field E m "end_time" st) as [[d1|e1] st1] eqn:H1;
    [|intros [= <- <-]; by eapply parse_field_raises].
  destruct (parse_field E m "start_time" st1) as [[d2|e2] st2] eqn:H2;
    [|intros [= <- <-]; by eapply parse_field_raises].
  unfold dt_sub. destruct (tzinfo d1), (tzinfo d2); intros [= <- <-]; by right.
Qed.

(** [score_meeting] raises none of the HTTP errors. *)
Lemma score_meeting_raises meeting_id m st e st' :
  score_meeting E meeting_id m st = (Raise e, st') →
  ∀ status_code, e ≠ HTTPException status_code.
Proof.
  unfold score_meeting, bind_M, lift, ret. intros H code. cbv zeta in H.
  destruct (duration_minutes E m st) as [[duration|e1] st1] eqn:H1.
  2: { injection H as <- <-. apply duration_minutes_raises in H1 as [->| ->]; done. }
  destruct (getitem m "participants") as [ps|e2] eqn:H2.
  2: { injection H as <- <-. unfold getitem in H2. destruct (m !! _); by simplify_eq. }
  destruct (py_len ps) as [participant_count|e3] eqn:H3.
  2: { injection H as <- <-. destruct ps; by simplify_eq/=. }
  destruct (parse_field E m "start_time" st1) as [[start_time|e4] st2] eqn:H4.
  2: { injection H as <- <-. apply parse_field_raises in H4 as [->| ->]; done. }
  destruct (type_scores_get _) as [ty|e5] eqn:H5.
  2: { injection H as <- <-. unfold type_scores_get in H5.
       destruct (get_default m _ _); by simplify_eq. }
  destruct (py_len (get_default m "agenda" _)) as [agenda_len|e6] eqn:H6.
  2: { injection H as <- <-. destruct (get_default m "agenda" _); by simplify_eq/=. }
  destruct (py_gt_zero _) as [has_history|e7] eqn:H7.
  2: { injection H as <- <-. destruct (get_default m "effectiveness_score" _);
         by simplify_eq/=. }
  destruct has_history.
  - destruct (getitem m "effectiveness_score") as [h|e8] eqn:H8.
    2: { injection H as <- <-. unfold getitem in H8. destruct (m !! _); by simplify_eq. }
    destruct (py_mul_float h _) as [hw|e9] eqn:H9.
    2: { injection H as <- <-. unfold py_mul_float in H9.
         destruct h; try by simplify_eq. destruct (is_infinity _); by simplify_eq. }
    destruct (getitem m "title") as [t|e10] eqn:H10; [discriminate|].
    injection H as <- <-. unfold getitem in H10. destruct (m !! _); by simplify_eq.
  - destruct (getitem m "title") as [t|e10] eqn:H10; [discriminate|].
    injection H as <- <-. unfold getitem in H10. destruct (m !! _); by simplify_eq.
Qed.

(** X7. When every stored meeting has an [id],
    [score_meeting_effectiveness] answers with an HTTP error exactly when
    no stored meeting has the id asked for, and the error is 404; when
    several meetings have the id, the first one in stored order is scored. *)
Theorem score_meeting_effectiveness_404 (req : EffectivenessScoreRequest) (st : state) :
  Forall (λ m, is_Some (m !! "id")) (meetings st) →
  (∀ status_code st',
     score_meeting_effectiveness E req st = (Raise (HTTPException status_code), st')
     ↔ status_code = 404 ∧ st' = st
       ∧ Forall (field_differs "id" (es_meeting_id req)) (meetings st))
  ∧ (∀ before m after,
       meetings st = before ++ m :: after →
       Forall (field_differs "id" (es_meeting_id req)) before →
       m !! "id" = Some (PStr (es_meeting_id req)) →
       score_meeting_effectiveness E req st
         = score_meeting E (es_meeting_id req) m st).
Proof.
  intros Hids.
  assert (∀ before m after,
            meetings st = before ++ m :: after →
            Forall (field_differs "id" (es_meeting_id req)) before →
            m !! "id" = Some (PStr (es_meeting_id req)) →
            score_meeting_effectiveness E req st
              = score_meeting E (es_meeting_id req) m st) as Hfound.
  { intros before m after Hst Hb Hm.
    rewrite (score_meeting_effectiveness_found E req st m).
    - assert (m ≠ ∅) as Hne by (intros ->; by rewrite lookup_empty in Hm).
      cbn [truthy]. by rewrite bool_decide_eq_false_2.
    - rewrite Hst, find_meeting_skip by done. cbn [find_meeting].
      unfold getitem, bind_result. rewrite Hm. cbn [py_eq_str].
      by rewrite String.eqb_refl. }
  assert (Forall (field_differs "id" (es_meeting_id req)) (meetings st) →
          score_meeting_effectiveness E req st = (Raise (HTTPException 404), st))
    as Hmissing.
  { intros HF. unfold score_meeting_effectiveness, bind_M, get_meetings, lift.
    rewrite <- (app_nil_r (meetings st)), find_meeting_skip by done. done. }
  split; [|exact Hfound].
  intros code st'. split.
  - intros Hrun.
    destruct (find_meeting_cases (es_meeting_id req) _ Hids)
      as [HF|(before & m & after & Hst & Hb & Hm)].
    + rewrite (Hmissing HF) in Hrun. by injection Hrun as <- <-.
    + rewrite (Hfound _ _ _ Hst Hb Hm) in Hrun.
      by apply score_meeting_raises with (status_code := code) in Hrun.
  - intros (-> & -> & HF). by apply Hmissing.
Qed.

Lemma three_levels (c1 c2 : bool) : level (if c1 then 10 else if c2 then 7 else 4).
Proof. destruct c1, c2; unfold level; auto. Qed.

Lemma suggestion_for_level (s : Z) (text : string) :
  level s →
  Z.of_nat (length (if s <? 7 then [text] else [])) = b2z (s =? 4)
  ∧ ((if s <? 7 then [text] else []) = [] ↔ 7 ≤ s).
Proof.
  intros [-> | [-> | ->]]; (split; [reflexivity|]); cbn; split; (done || lia).
Qed.

(** The suggestions of an answer, from its sub-scores (lines 558-567). *)
Lemma score_meeting_suggestions meeting_id m st resp st' :
  score_meeting E meeting_id m st = (Ok resp, st') →
  let b := er_score_breakdown resp in
  (level (duration_score b) ∧ level (participant_score b)
   ∧ level (time_score b) ∧ level (agenda_score b))
  ∧ improvement_suggestions resp
    = (if duration_score b <? 7
       then ["Consider adjusting meeting duration for better engagement"] else [])
      ++ (if participant_score b <? 7
          then ["Review participant list to ensure optimal group size"] else [])
      ++ (if time_score b <? 7
          then ["Consider rescheduling to business hours for better attendance"]
          else [])
      ++ (if agenda_score b <? 7
          then ["Add detailed agenda items to improve meeting focus"] else []).
Proof.
  unfold score_meeting, bind_M, lift, ret. intros H.
  destruct (duration_minutes E m st) as [[duration|?] st1]; [|discriminate].
  destruct (getitem m "participants") as [ps|]; [|discriminate].
  destruct (py_len ps) as [participant_count|]; [|discriminate].
  destruct (parse_field E m "start_time" st1) as [[start_time|?] st2]; [|discriminate].
  destruct (type_scores_get _) as [ty|]; [|discriminate].
  destruct (py_len _) as [agenda_len|]; [|discriminate].
  destruct (py_gt_zero _) as [has_history|]; [|discriminate].
  destruct has_history.
  - destruct (getitem m "effectiveness_score") as [h|]; [|discriminate].
    destruct (py_mul_float h _) as [hw|]; [|discriminate].
    destruct (getitem m "title") as [t|]; [|discriminate].
    injection H as <- <-. split; [|reflexivity].
    cbn [er_score_breakdown duration_score participant_score time_score agenda_score].
    split_and!; apply three_levels.
  - destruct (getitem m "title") as [t|]; [|discriminate].
    injection H as <- <-. split; [|reflexivity].
    cbn [er_score_breakdown duration_score participant_score time_score agenda_score].
    split_and!; apply three_levels.
Qed.

(** X8. The improvement suggestions of [score_meeting_effectiveness] are
    one for each of the four sub-scores (duration, participants, time of
    day, agenda) that is at its lowest value 4; the meeting type never
    adds one. So there is no suggestion exactly when the four sub-scores
    are 7 or more. *)
Theorem improvement_suggestions_count
    (req : EffectivenessScoreRequest) (st st' : state) (resp : EffectivenessResponse) :
  score_meeting_effectiveness E req st = (Ok resp, st') →
  let b := er_score_breakdown resp in
  Z.of_nat (length (improvement_suggestions resp))
    = b2z (duration_score b =? 4) + b2z (participant_score b =? 4)
      + b2z (time_score b =? 4) + b2z (agenda_score b =? 4)
  ∧ (improvement_suggestions resp = []
     ↔ 7 ≤ duration_score b ∧ 7 ≤ participant_score b
       ∧ 7 ≤ time_score b ∧ 7 ≤ agenda_score b).
Proof.
  unfold score_meeting_effectiveness, bind_M, get_meetings, lift.
  destruct (find_meeting _ _) as [[m|]|]; try discriminate.
  destruct (negb _); [discriminate|].
  intros [(Hd & Hp & Ht & Ha) Hs]%score_meeting_suggestions. cbv zeta.
  rewrite Hs.
  destruct (suggestion_for_level _
              "Consider adjusting meeting duration for better engagement" Hd) as [Ld Nd].
  destruct (suggestion_for_level _
              "Review participant list to ensure optimal group size" Hp) as [Lp Np].
  destruct (suggestion_for_level _
              "Consider rescheduling to business hours for better attendance" Ht)
    as [Lt Nt].
  destruct (suggestion_for_level _
              "Add detailed agenda items to improve meeting focus" Ha) as [La Na].
  split.
  - rewrite !length_app, !Nat2Z.inj_add, Ld, Lp, Lt, La. lia.
  - rewrite !app_nil, Nd, Np, Nt, Na. tauto.
Qed.

(** ** Only [create_meeting] writes to the data *)

Lemma keeps_data_now_local : keeps_data (now_local E).
Proof. intros st. by split. Qed.

Lemma keeps_data_get_user_preferences u : keeps_data (get_user_preferences u).
Proof. intros st. apply same_data_refl. Qed.

Ltac keeps_data_auto :=
  repeat first
    [ apply keeps_data_ret | apply keeps_data_raise | apply keeps_data_lift
    | apply keeps_data_now_utc | apply keeps_data_now_local
    | apply keeps_data_get_meetings | apply keeps_data_get_users
    | apply keeps_data_get_user_meetings | apply keeps_data_get_user_preferences
    | apply keeps_data_parse_datetime | apply keeps_data_parse_field
    | apply keeps_data_bind; [|intros ?]
    | apply keeps_data_try
    | apply keeps_data_for_each; intros ? ?
    | match goal with
      | |- keeps_data (if ?b then _ else _) => destruct b
      | |- keeps_data (match ?x with _ => _ end) => destruct x
      | |- keeps_data (let '(_, _) := ?x in _) => destruct x
      end ].

Lemma keeps_data_duration_minutes m : keeps_data (duration_minutes E m).
Proof. unfold duration_minutes. keeps_data_auto. Qed.

Lemma keeps_data_break_scan day sorted_meetings recommendations :
  keeps_data (break_scan E day sorted_meetings recommendations).
Proof.
  revert recommendations.
  induction sorted_meetings as [|m1 rest IH]; intros recommendations;
    cbn [break_scan]; [apply keeps_data_ret|].
  destruct rest as [|m2 rest]; [apply keeps_data_ret|].
  keeps_data_auto. apply IH.
Qed.

(** X9. Every endpoint but [create_meeting] leaves [data] (the meetings and
    the users) as it was, whether it answers or raises. *)
Theorem queries_leave_the_data_unchanged :
  (∀ fuel participants duration date_range,
     keeps_data (find_available_slots E fuel participants duration date_range))
  ∧ (∀ req, keeps_data (find_optimal_slots E req))
  ∧ (∀ req, keeps_data (detect_scheduling_conflicts E req))
  ∧ (∀ req, keeps_data (analyze_meeting_patterns E req))
  ∧ (∀ req, keeps_data (generate_agenda_suggestions req))
  ∧ (∀ req, keeps_data (calculate_workload_balance E req))
  ∧ (∀ req, keeps_data (score_meeting_effectiveness E req))
  ∧ (∀ req, keeps_data (optimize_meeting_schedule E req)).
Proof.
  split_and!.
  - intros fuel participants duration date_range.
    unfold find_available_slots, collect_busy_times. keeps_data_auto.
  - intros req. unfold find_optimal_slots. keeps_data_auto.
  - intros req. unfold detect_scheduling_conflicts. keeps_data_auto.
  - intros req. unfold analyze_meeting_patterns. keeps_data_auto;
      apply keeps_data_duration_minutes.
  - intros req. unfold generate_agenda_suggestions. keeps_data_auto.
  - intros req. unfold calculate_workload_balance, member_workload_of.
    keeps_data_auto; apply keeps_data_duration_minutes.
  - intros req. unfold score_meeting_effectiveness, score_meeting.
    keeps_data_auto; apply keeps_data_duration_minutes.
  - intros req. unfold optimize_meeting_schedule, group_by_date,
      break_recommendations, non_business_meetings_of.
    keeps_data_auto; apply keeps_data_break_scan.
Qed.

(** ** [create_meeting] *)

Lemma create_meeting_run req st :
  let now := current_instant_utc E st in
  let st1 := after_clock_reading st in
  (∀ end_time st2,
     end_time_of E req now st1 = (Ok end_time, st2) →
     ∃ resp st',
       create_meeting E req st = (Ok resp, st')
       ∧ meetings st' = meetings st ++ [cm_meeting resp]
       ∧ users st' = users st
       ∧ cm_meeting resp !! "id"
         = Some (PStr ("m" +:+ pretty (Z.of_nat (length (meetings st)) + 1)))
       ∧ cm_meeting resp !! "title" = Some (PStr (mc_title req))
       ∧ cm_meeting resp !! "participants"
         = Some (PList (PStr <$> mc_participants req))
       ∧ cm_meeting resp !! "start_time"
         = Some (PStr (str_or (mc_start_time req) (isoformat E now)))
       ∧ cm_meeting resp !! "end_time" = Some (PStr end_time)
       ∧ cm_meeting resp !! "effectiveness_score" = Some (PFloat 0))
  ∧ (∀ e st2,
       end_time_of E req now st1 = (Raise e, st2) →
       create_meeting E req st = (Raise (HTTPException 500), st2)).
Proof.
  intros now st1. split.
  - intros end_time st2 Hend.
    pose proof (keeps_data_end_time_of E req now st1) as Hd2.
    rewrite Hend in Hd2. simpl in Hd2.
    unfold create_meeting.
    unfold try_except at 1. unfold bind_M at 1. unfold get_meetings at 1.
    unfold bind_M at 1. unfold now_utc at 1.
    fold (after_clock_reading st). fold (current_instant_utc E st).
    fold now. fold st1.
    unfold bind_M at 1. rewrite Hend.
    unfold bind_M at 1. unfold try_print.
    match goal with
    | |- context [scan_conflicts E ?nm ?ps st2] =>
        pose proof (scan_conflicts_inv E nm ps st2) as [Hd3 _];
        destruct (scan_conflicts E nm ps st2) as [[conflicts oe] st3]
    end.
    simpl in Hd3. unfold bind_M, append_meeting, ret. cbn [fst snd].
    eexists _, _. split; [reflexivity|]. cbn [meetings users cm_meeting].
    destruct Hd3 as [-> ->], Hd2 as [-> ->].
    split_and!; [reflexivity|reflexivity|..]; by simplify_map_eq.
  - intros e st2 Hend.
    unfold create_meeting.
    unfold try_except at 1. unfold bind_M at 1. unfold get_meetings at 1.
    unfold bind_M at 1. unfold now_utc at 1.
    fold (after_clock_reading st). fold (current_instant_utc E st).
    fold now. fold st1.
    unfold bind_M at 1. rewrite Hend. reflexivity.
Qed.

Lemma end_time_of_fallback req now st d :
  dt_plus now 0 0 (mc_duration req) = Ok d →
  ∃ end_time st', end_time_of E req now st = (Ok end_time, st').
Proof.
  intros Hd. unfold end_time_of.
  destruct (truthy _).
  - unfold try_except.
    match goal with |- context [match ?c st with _ => _ end] =>
      destruct (c st) as [[a|e] st1] end; [by eauto|].
    cbn [except_Exception]. unfold bind_M, lift, ret. rewrite Hd. eauto.
  - unfold bind_M, lift, ret. rewrite Hd. eauto.
Qed.

(** X10. [create_meeting] either answers and appends exactly the meeting
    of its answer to [data["meetings"]], with the id [m<n+1>] for [n]
    stored meetings, the participants and title of the request and a
    stored score of [0.0], or it raises the HTTP error 500 and leaves the
    data as it was; no other exception leaves it. It answers whenever the
    clock reading plus the duration is a date of the calendar. *)
Theorem create_meeting_all_or_nothing (req : MeetingCreateRequest) (st : state) :
  ((∃ resp st',
      create_meeting E req st = (Ok resp, st')
      ∧ meetings st' = meetings st ++ [cm_meeting resp]
      ∧ users st' = users st
      ∧ cm_meeting resp !! "id"
        = Some (PStr ("m" +:+ pretty (Z.of_nat (length (meetings st)) + 1)))
      ∧ cm_meeting resp !! "title" = Some (PStr (mc_title req))
      ∧ cm_meeting resp !! "participants"
        = Some (PList (PStr <$> mc_participants req))
      ∧ cm_meeting resp !! "effectiveness_score" = Some (PFloat 0))
   ∨ (∃ st', create_meeting E req st = (Raise (HTTPException 500), st')
             ∧ same_data st st'))
  ∧ (∀ d, dt_plus (current_instant_utc E st) 0 0 (mc_duration req) = Ok d →
       ∃ resp st', create_meeting E req st = (Ok resp, st')).
Proof.
  destruct (create_meeting_run req st) as [Hok Hfail].
  pose proof (keeps_data_end_time_of E req (current_instant_utc E st)
                (after_clock_reading st)) as Hd.
  split.
  - destruct (end_time_of E req (current_instant_utc E st) (after_clock_reading st))
      as [[end_time|e] st2] eqn:Hend.
    + left. destruct (Hok _ _ eq_refl) as (resp & st' & ? & ? & ? & ? & ? & ? & ? & ? & ?).
      exists resp, st'. by split_and!.
    + right. exists st2. split; [by apply (Hfail e)|].
      simpl in Hd. destruct Hd as [? ?]. by split.
  - intros d Hplus.
    destruct (end_time_of_fallback req _ (after_clock_reading st) d Hplus)
      as (end_time & st2 & Hend).
    destruct (Hok _ _ Hend) as (resp & st' & ? & _). eauto.
Qed.

Lemma user_meetings_of_app user_id data_meetings more user_meetings :
  user_meetings_of user_id data_meetings = Ok user_meetings →
  user_meetings_of user_id (data_meetings ++ more)
    = (r ←ᵣ user_meetings_of user_id more; Ok (user_meetings ++ r)).
Proof.
  revert user_meetings. induction data_meetings as [|m' rest IH]; intros ums.
  - intros [= <-]. cbn [app]. by destruct (user_meetings_of user_id more).
  - cbn [app user_meetings_of]. unfold bind_result at 1 2 3 4 5 6.
    destruct (getitem m' "participants") as [ps|]; [|discriminate].
    destruct (py_in user_id ps) as [b|]; [|discriminate].
    destruct (user_meetings_of user_id rest) as [r|] eqn:Hr; [|discriminate].
    intros [= <-]. rewrite (IH r eq_refl). unfold bind_result.
    destruct (user_meetings_of user_id more) as [r'|]; [|done]. by destruct b.
Qed.

Lemma py_in_participants user_id (participants : list string) :
  py_in user_id (PList (PStr <$> participants))
    = Ok (bool_decide (user_id ∈ participants)).
Proof.
  cbn [py_in]. f_equal. induction participants as [|p ps IH]; [done|].
  cbn [fmap list_fmap existsb]. rewrite IH.
  destruct (String.eqb p user_id) eqn:Hp.
  - apply String.eqb_eq in Hp as ->. cbn [orb].
    by rewrite bool_decide_eq_true_2 by apply list_elem_of_here.
  - apply String.eqb_neq in Hp. cbn [orb].
    apply bool_decide_ext. rewrite elem_of_cons.
    split; [by right|]. by intros [Heq|?]; [destruct Hp|].
Qed.

Lemma find_meeting_app meeting_id data_meetings more :
  find_meeting meeting_id (data_meetings ++ more)
    = match find_meeting meeting_id data_meetings with
      | Ok None => find_meeting meeting_id more
      | r => r
      end.
Proof.
  induction data_meetings as [|m' rest IH]; [done|].
  cbn [app find_meeting]. unfold bind_result.
  destruct (getitem m' "id") as [i|]; [|done].
  by destruct (py_eq_str i meeting_id).
Qed.

(** X11. A meeting that [create_meeting] has stored is found again: it is
    the last of the meetings of each of its participants, the meetings of
    anyone else are as before, and [score_meeting_effectiveness] finds it
    under its new id, unless a meeting stored before has that id already,
    which then stays the one that is found. *)
Theorem created_meeting_is_found_again
    (req : MeetingCreateRequest) (st st' : state) (resp : CreateMeetingResponse) :
  create_meeting E req st = (Ok resp, st') →
  (∀ user_id user_meetings,
     user_meetings_of user_id (meetings st) = Ok user_meetings →
     user_meetings_of user_id (meetings st')
       = Ok (if bool_decide (user_id ∈ mc_participants req)
             then user_meetings ++ [cm_meeting resp] else user_meetings))
  ∧ (let meeting_id := "m" +:+ pretty (Z.of_nat (length (meetings st)) + 1) in
     (find_meeting meeting_id (meetings st) = Ok None →
      find_meeting meeting_id (meetings st') = Ok (Some (cm_meeting resp)))
     ∧ (∀ m, find_meeting meeting_id (meetings st) = Ok (Some m) →
             find_meeting meeting_id (meetings st') = Ok (Some m))).
Proof.
  intros Hrun. destruct (create_meeting_run req st) as [Hok Hfail].
  destruct (end_time_of E req (current_instant_utc E st) (after_clock_reading st))
    as [[end_time|e] st2] eqn:Hend.
  2: { rewrite (Hfail e st2 eq_refl) in Hrun. discriminate. }
  destruct (Hok _ _ eq_refl) as (resp0 & st0 & Hrun0 & Hm & _ & Hid & _ & Hps & _).
  rewrite Hrun in Hrun0. injection Hrun0 as <- <-. rewrite Hm. split.
  - intros user_id ums Hums. rewrite (user_meetings_of_app _ _ [cm_meeting resp] _ Hums).
    cbn [user_meetings_of]. unfold getitem, bind_result. rewrite Hps.
    rewrite py_in_participants.
    destruct (bool_decide _); [done|by rewrite app_nil_r].
  - split.
    + intros Hnone. rewrite find_meeting_app, Hnone.
      cbn [find_meeting]. unfold getitem, bind_result. rewrite Hid.
      cbn [py_eq_str]. by rewrite String.eqb_refl.
    + intros m Hsome. by rewrite find_meeting_app, Hsome.
Qed.

Lemma end_time_of_absent req now st :
  truthy (opt_str (mc_start_time req)) = false →
  end_time_of E req now st
    = (match dt_plus now 0 0 (mc_duration req) with
       | Ok end_dt => Ok (isoformat E end_dt)
       | Raise e => Raise e
       end, st).
Proof.
  intros Hs. unfold end_time_of. rewrite Hs. unfold bind_M, lift, ret.
  by destruct (dt_plus now 0 0 (mc_duration req)).
Qed.

Lemma end_time_of_given req now st s start_dt st1 end_dt :
  mc_start_time req = Some s → s ≠ "" →
  parse_datetime E (PStr s) st = (Ok start_dt, st1) →
  dt_plus start_dt 0 0 (mc_duration req) = Ok end_dt →
  end_time_of E req now st = (Ok (isoformat E end_dt), st1).
Proof.
  intros Hs Hne Hp Hplus. unfold end_time_of. rewrite Hs. cbn [opt_str truthy].
  apply String.eqb_neq in Hne. rewrite Hne. cbn [negb].
  unfold try_except, bind_M, lift, ret. by rewrite Hp, Hplus.
Qed.

(** X12. The times that [create_meeting] stores. Without a start time (or
    with an empty one) the meeting starts at the clock reading and ends
    [duration] minutes later. A start time that is given is stored as it
    was written, and the end is [duration] minutes after the instant that
    it parses to; when it does not parse, that instant is a second reading
    of the clock, so that the stored end does not follow from the stored
    start. *)
Theorem create_meeting_stored_times
    (req : MeetingCreateRequest) (st st' : state) (resp : CreateMeetingResponse) :
  create_meeting E req st = (Ok resp, st') →
  let now := current_instant_utc E st in
  (truthy (opt_str (mc_start_time req)) = false →
   ∃ end_dt,
     dt_plus now 0 0 (mc_duration req) = Ok end_dt
     ∧ cm_meeting resp !! "start_time" = Some (PStr (isoformat E now))
     ∧ cm_meeting resp !! "end_time" = Some (PStr (isoformat E end_dt)))
  ∧ (∀ s, mc_start_time req = Some s → s ≠ "" →
       cm_meeting resp !! "start_time" = Some (PStr s)
       ∧ (∀ d end_dt,
            first_parsed E s = Some d →
            dt_plus (assign_utc_if_naive d) 0 0 (mc_duration req) = Ok end_dt →
            cm_meeting resp !! "end_time" = Some (PStr (isoformat E end_dt)))
       ∧ (∀ end_dt,
            first_parsed E s = None →
            dt_plus (current_instant_utc E (after_clock_reading st)) 0 0
              (mc_duration req) = Ok end_dt →
            cm_meeting resp !! "end_time" = Some (PStr (isoformat E end_dt)))).
Proof.
  intros Hrun now. destruct (create_meeting_run req st) as [Hok Hfail].
  destruct (end_time_of E req (current_instant_utc E st) (after_clock_reading st))
    as [[end_time|e] st2] eqn:Hend.
  2: { rewrite (Hfail e st2 eq_refl) in Hrun. discriminate. }
  destruct (Hok _ _ eq_refl) as (resp0 & st0 & Hrun0 & _ & _ & _ & _ & _ & Hstart & Hstop & _).
  rewrite Hrun in Hrun0. injection Hrun0 as <- <-. fold now in Hstart, Hend.
  split.
  - intros Habsent. rewrite (end_time_of_absent _ _ _ Habsent) in Hend.
    destruct (dt_plus now 0 0 (mc_duration req)) as [end_dt|]; [|discriminate].
    injection Hend as <- <-. exists end_dt. split_and!; [done| |done].
    rewrite Hstart. unfold str_or. destruct (mc_start_time req) as [s|]; [|done].
    simpl in Habsent. by destruct (String.eqb s "").
  - intros s Hs Hne. split_and!.
    + rewrite Hstart, Hs. cbn [str_or]. apply String.eqb_neq in Hne. by rewrite Hne.
    + intros d end_dt Hd Hplus.
      rewrite (end_time_of_given req now _ s (assign_utc_if_naive d)
                 (after_clock_reading st) end_dt) in Hend; [by simplify_eq|done..| |done].
      rewrite parse_datetime_str by (by apply String.eqb_neq). by rewrite Hd.
    + intros end_dt Hd Hplus.
      rewrite (end_time_of_given req now _ s
                 (current_instant_utc E (after_clock_reading st))
                 (after_clock_reading (after_clock_reading st)) end_dt) in Hend;
        [by simplify_eq|done..| |done].
      rewrite parse_datetime_str by (by apply String.eqb_neq). by rewrite Hd.
Qed.

(** ** [find_available_slots]: which slots are returned *)

Lemma slot_is_free_existsb busy sl :
  slot_is_free busy sl
    = negb (existsb (λ b, intervalsOverlap (instant (slot_start_time sl))
                            (instant (slot_end_time sl)) (instant b.1) (instant b.2))
              busy).
Proof.
  unfold slot_is_free. induction busy as [|b busy IH]; [done|].
  cbn [forallb existsb]. rewrite IH. by rewrite negb_orb.
Qed.

Lemma candidates_none cur range_end duration :
  instant range_end < instant cur + duration * us_per_minute →
  candidates cur range_end duration = 0.
Proof.
  intros Hlt. unfold candidates. pose proof us_per_hour_pos as Hpos.
  assert ((instant range_end - instant cur - duration * us_per_minute) / us_per_hour < 0).
  { apply Z.div_lt_upper_bound; lia. }
  lia.
Qed.

Lemma candidates_next cur next range_end duration :
  instant next = instant cur + us_per_hour →
  instant cur + duration * us_per_minute ≤ instant range_end →
  0 ≤ candidates next range_end duration
  ∧ candidates cur range_end duration = candidates next range_end duration + 1.
Proof.
  intros Hnext Hfit. unfold candidates. rewrite Hnext.
  pose proof us_per_hour_pos as Hpos.
  set (x := instant range_end - instant cur - duration * us_per_minute).
  replace (instant range_end - (instant cur + us_per_hour) - duration * us_per_minute)
    with (x + (-1) * us_per_hour) by (unfold x; lia).
  rewrite Z.div_add by lia.
  assert (0 ≤ x / us_per_hour) by (apply Z.div_pos; unfold x; lia).
  lia.
Qed.

Lemma slot_at_next cur next duration k :
  next = {| wall := wall cur + us_per_hour; tzinfo := tzinfo cur |} →
  slot_at cur duration (1 + k) = slot_at next duration k.
Proof.
  intros ->. unfold slot_at. cbn [wall tzinfo].
  f_equal; (apply (f_equal2 Build_datetime); [|done]);
    unfold us_per_hour, us_per_minute, us_per_second; lia.
Qed.

Lemma slot_scan_exact range_end duration busy fuel :
  aware range_end → Forall aware_pair busy →
  ∀ cur acc slots,
    aware cur →
    slot_scan fuel busy duration range_end cur acc = Some (Ok slots) →
    slots = acc ++ free_slots cur range_end duration busy.
Proof.
  intros Hre Hbusy. induction fuel as [|fuel IH];
    intros cur acc slots Hcur; [discriminate|].
  cbn [slot_scan]. unfold bind_result.
  destruct (dt_plus cur 0 0 duration) as [slot_end|] eqn:Hend; [|discriminate].
  pose proof (dt_plus_aware _ _ _ _ _ Hend Hcur) as Aend.
  pose proof (dt_plus_instant _ _ _ _ _ Hend) as Iend.
  rewrite dt_le_aware by done.
  destruct (instant slot_end <=? instant range_end) eqn:Hfit.
  2: { intros [= <-]. apply Z.leb_gt in Hfit. unfold free_slots.
       rewrite candidates_none by lia. by rewrite app_nil_r. }
  apply Z.leb_le in Hfit.
  rewrite slot_conflict_aware by done.
  destruct (dt_plus cur 0 1 0) as [next|] eqn:Hnext; [|discriminate].
  pose proof (dt_plus_aware _ _ _ _ _ Hnext Hcur) as Anext.
  pose proof (dt_plus_instant _ _ _ _ _ Hnext) as Inext.
  intros Hscan. apply IH in Hscan; [|done]. rewrite Hscan. clear Hscan IH.
  destruct (candidates_next cur next range_end duration) as [Hn Hc]; [lia|lia|].
  assert (slot_at cur duration 0
          = {| slot_start_time := cur; slot_end_time := slot_end;
               slot_duration_minutes := duration |}) as Hfirst.
  { apply dt_plus_Ok in Hend as ->. unfold slot_at. destruct cur as [w tz].
    cbn [wall tzinfo]. f_equal; (apply (f_equal2 Build_datetime); [|done]);
      unfold us_per_day, us_per_hour, us_per_minute, us_per_second; lia. }
  assert (free_slots cur range_end duration busy
          = (if slot_is_free busy (slot_at cur duration 0)
             then [slot_at cur duration 0] else [])
            ++ free_slots next range_end duration busy) as ->.
  { unfold free_slots. rewrite Hc.
    rewrite seqZ_cons by lia. rewrite fmap_cons, filter_cons.
    replace (Z.pred (candidates next range_end duration + 1))
      with (candidates next range_end duration) by lia.
    replace (Z.succ 0) with (1 + 0) by lia.
    rewrite <- (fmap_add_seqZ 1 0), <- list_fmap_compose.
    rewrite (list_fmap_ext (slot_at cur duration ∘ Z.add 1) (slot_at next duration)
               (seqZ 0 (candidates next range_end duration))).
    2: { intros i k _. cbn [compose]. apply slot_at_next.
         apply dt_plus_Ok in Hnext as ->. reflexivity. }
    destruct (slot_is_free busy (slot_at cur duration 0)).
    - by rewrite decide_True.
    - by rewrite decide_False. }
  rewrite slot_is_free_existsb, Hfirst. cbn [slot_start_time slot_end_time].
  match goal with |- context [existsb ?f busy] => destruct (existsb f busy) end;
    cbn [negb]; by rewrite <- ?app_assoc.
Qed.

(** X13. The slots that [find_available_slots] returns are the first five
    free candidates of the hourly walk, in the order of the walk
    (candidate [k] starts [k] hours after the range start; it is free when
    it overlaps none of the busy intervals): a free candidate is left out
    only when five earlier ones are free. *)
Theorem find_available_slots_first_five_free
    (fuel : nat) (participants : list string) (duration : Z)
    (date_range : list string) (st st' : state) (slots : list slot) :
  find_available_slots E fuel participants duration date_range st
    = (Ok (Some slots), st') →
  ∃ r0 r1 range_start range_end st1 st2 busy_times,
    date_range !! 0%nat = Some r0 ∧ date_range !! 1%nat = Some r1
    ∧ parse_datetime E (PStr r0) st = (Ok range_start, st1)
    ∧ parse_datetime E (PStr r1) st1 = (Ok range_end, st2)
    ∧ collect_busy_times E participants range_start range_end st2
      = (Ok busy_times, st')
    ∧ slots = take 5 (free_slots range_start range_end duration busy_times).
Proof.
  unfold find_available_slots, py_index.
  unfold bind_M at 1. unfold lift at 1.
  destruct (date_range !! 0%nat) as [r0|]; [|discriminate].
  unfold bind_M at 1.
  destruct (parse_datetime E (PStr r0) st) as [[rs|] st1] eqn:Hp0; [|discriminate].
  unfold bind_M at 1. unfold lift at 1.
  destruct (date_range !! 1%nat) as [r1|]; [|discriminate].
  unfold bind_M at 1.
  destruct (parse_datetime E (PStr r1) st1) as [[re|] st2] eqn:Hp1; [|discriminate].
  unfold bind_M at 1.
  destruct (collect_busy_times E participants rs re st2) as [[busy|] st3] eqn:Hb;
    [|discriminate].
  destruct (slot_scan fuel busy duration re rs []) as [[all|]|] eqn:Hscan;
    unfold bind_M, lift, ret; try discriminate.
  intros [= <- <-]. exists r0, r1, rs, re, st1, st2, busy.
  split_and!; try done. f_equal.
  pose proof (parse_datetime_aware _ _ _ _ _ Hp0) as Ars.
  pose proof (parse_datetime_aware _ _ _ _ _ Hp1) as Are.
  apply (slot_scan_exact re duration busy fuel Are
           (collect_busy_times_aware _ _ _ _ _ _ _ Hb) rs [] all Ars Hscan).
Qed.

(** ** [analyze_meeting_patterns] *)

Lemma total_count_cons {K} (k : K) (n : Z) (d : list (K * Z)) :
  total_count ((k, n) :: d) = n + total_count d.
Proof. reflexivity. Qed.

Lemma total_count_key_set (k : pyval) (d : list (pyval * Z)) :
  total_count (key_set k (key_get k 0 d + 1) d) = total_count d + 1.
Proof.
  induction d as [|[k' n] d IH]; [done|].
  cbn [key_set key_get]. destruct (key_eq k k'); cbv iota; rewrite !total_count_cons; lia.
Qed.

Lemma total_count_assoc_set (k : Z) (d : list (Z * Z)) :
  total_count (assoc_set k (default 0 (assoc_get k d) + 1) d) = total_count d + 1.
Proof.
  induction d as [|[k' n] d IH]; [done|].
  cbn [assoc_set assoc_get].
  destruct (decide (k = k')); cbv iota; cbn [default from_option id];
    rewrite !total_count_cons; lia.
Qed.

Lemma assoc_set_count_Forall (P : Z → Prop) (k : Z) (d : list (Z * Z)) :
  P k → Forall (λ kv, P kv.1 ∧ 1 ≤ kv.2) d →
  Forall (λ kv, P kv.1 ∧ 1 ≤ kv.2) (assoc_set k (default 0 (assoc_get k d) + 1) d).
Proof.
  intros Hk. induction 1 as [|[k' n] d [Hk' Hn] HF IH]; cbn [assoc_set assoc_get].
  - repeat constructor; [done|simpl; lia].
  - cbn [fst snd] in *. destruct (decide (k = k')).
    + constructor; [|done]. cbn [default from_option id fst snd]. split; [done|lia].
    + constructor; [done|]. exact IH.
Qed.

Lemma hour_range dt : 0 ≤ hour dt ≤ 23.
Proof.
  unfold hour.
  assert (0 ≤ wall dt mod us_per_day < us_per_day) as Hmod
    by (apply Z.mod_pos_bound; reflexivity).
  split.
  - apply Z.div_pos; [lia|reflexivity].
  - assert (wall dt mod us_per_day / us_per_hour < 24); [|lia].
    apply Z.div_lt_upper_bound; [reflexivity|].
    change (us_per_hour * 24) with us_per_day. lia.
Qed.

Lemma type_counts_total (l : list dict) acc st acc' st' :
  for_each l (λ (meeting_types : list (pyval * Z)) meeting,
    let meeting_type := get_default meeting "meeting_type" (PStr "unknown") in
    if py_hashable meeting_type then
      ret (key_set meeting_type (key_get meeting_type 0 meeting_types + 1)
             meeting_types)
    else raise TypeError) acc st = (Ok acc', st') →
  total_count acc' = total_count acc + Z.of_nat (length l).
Proof.
  revert acc st. induction l as [|m l IH]; intros acc st; cbn [for_each].
  - unfold ret. intros [= <- <-]. cbn [length]. lia.
  - unfold bind_M at 1. cbv zeta.
    destruct (py_hashable _); [|discriminate]. unfold ret at 1.
    intros H%IH. rewrite H, total_count_key_set. cbn [length]. lia.
Qed.

Lemma key_counts_total (key : datetime → Z) (P : Z → Prop) (l : list dict) :
  (∀ d, P (key d)) →
  ∀ acc st acc' st',
    Forall (λ kv, P kv.1 ∧ 1 ≤ kv.2) acc →
    for_each l (λ (counts : list (Z * Z)) meeting,
      start_time ← parse_field E meeting "start_time";
      ret (assoc_set (key start_time)
             (default 0 (assoc_get (key start_time) counts) + 1) counts)) acc st
      = (Ok acc', st') →
    total_count acc' = total_count acc + Z.of_nat (length l)
    ∧ Forall (λ kv, P kv.1 ∧ 1 ≤ kv.2) acc'.
Proof.
  intros Hkey. induction l as [|m l IH]; intros acc st acc' st' HF; cbn [for_each].
  - unfold ret. intros [= <- <-]. split; [cbn [length]; lia|done].
  - unfold bind_M at 1. unfold bind_M at 1.
    destruct (parse_field E m "start_time" st) as [[start_time|] st1]; [|discriminate].
    unfold ret at 1.
    intros H%IH.
    + destruct H as [H HF']. split; [|done].
      rewrite H, total_count_assoc_set. cbn [length]. lia.
    + by apply (assoc_set_count_Forall P).
Qed.

Lemma float_cmp_Z_lt_mono f a b :
  a ≤ b → float_cmp_Z f a = Some Lt → float_cmp_Z f b = Some Lt.
Proof.
  intros Hab. unfold float_cmp_Z. destruct (Prim2SF f) as [s|[]| |s m e]; try done.
  - intros H. assert (0 < a) by (apply Z.compare_lt_iff; congruence).
    f_equal. apply Z.compare_lt_iff. lia.
  - destruct (0 <=? e) eqn:He; [|apply Z.leb_gt in He].
    + intros H.
      assert ((if s then Z.neg m else Z.pos m) * 2 ^ e < a)
        by (apply Z.compare_lt_iff; congruence).
      f_equal. apply Z.compare_lt_iff. lia.
    + intros H.
      assert ((if s then Z.neg m else Z.pos m) < a * 2 ^ (- e))
        by (apply Z.compare_lt_iff; congruence).
      assert (0 < 2 ^ (- e)) by (apply Z.pow_pos_nonneg; lia).
      f_equal. apply Z.compare_lt_iff. nia.
Qed.

(** No score is both 8 or more and less than 6. *)
Lemma high_is_not_low v : py_ge_int v 8 = Ok true → py_lt_int v 6 = Ok true → False.
Proof.
  destruct v as [|b|n|f|s|l|d]; cbn [py_ge_int py_lt_int]; try discriminate.
  - intros [= H1] [= H2]. destruct b; simpl in *; lia.
  - intros [= H1] [= H2]. lia.
  - intros [= H1] [= H2].
    destruct (float_cmp_Z f 6) as [[]|] eqn:H6; try discriminate.
    rewrite (float_cmp_Z_lt_mono f 6 8) in H1 by (done || lia). discriminate.
Qed.

Lemma select_if_disjoint (l high low : list pyval) :
  select_if (λ s, py_ge_int s 8) l = Ok high →
  select_if (λ s, py_lt_int s 6) l = Ok low →
  (length high + length low ≤ length l)%nat.
Proof.
  revert high low. induction l as [|v l IH]; intros high low; cbn [select_if].
  - intros [= <-] [= <-]. simpl. lia.
  - unfold bind_result.
    destruct (py_ge_int v 8) as [b1|] eqn:H1; [|discriminate].
    destruct (select_if _ l) as [h|]; [|discriminate]. intros [= <-].
    destruct (py_lt_int v 6) as [b2|] eqn:H2; [|discriminate].
    destruct (select_if _ l) as [lo|]; [|discriminate]. intros [= <-].
    specialize (IH h lo eq_refl eq_refl).
    destruct b1, b2; cbn [length]; try lia.
    destruct (high_is_not_low v H1 H2).
Qed.

(** X14. What [analyze_meeting_patterns] counts. The answer carries only a
    message exactly when the user has no meeting. Otherwise total_meetings
    is the number of the user's meetings, the counts of
    meeting_type_distribution add up to it and so do those of
    hour_distribution, whose keys are hours from 0 to 23 with a count of
    at least one; and the high- and low-effectiveness meetings together
    are no more than all. *)
Theorem analyze_meeting_patterns_counts
    (req : PatternAnalysisRequest) (st st' : state) (resp : PatternAnalysisResponse) :
  analyze_meeting_patterns E req st = (Ok resp, st') →
  ∃ user_meetings,
    user_meetings_of (pa_user_id req) (meetings st) = Ok user_meetings
    ∧ match resp with
      | NoMeetingsFound _ _ _ => user_meetings = []
      | Patterns _ _ p =>
          let n := Z.of_nat (length user_meetings) in
          user_meetings ≠ []
          ∧ pt_total_meetings p = n
          ∧ total_count (meeting_type_distribution p) = n
          ∧ total_count (hour_distribution p) = n
          ∧ Forall (λ kv, 0 ≤ kv.1 ≤ 23 ∧ 1 ≤ kv.2) (hour_distribution p)
          ∧ 0 ≤ high_effectiveness_meetings (productivity_trends p)
          ∧ 0 ≤ low_effectiveness_meetings (productivity_trends p)
          ∧ high_effectiveness_meetings (productivity_trends p)
            + low_effectiveness_meetings (productivity_trends p) ≤ n
      end.
Proof.
  unfold analyze_meeting_patterns. unfold bind_M at 1.
  rewrite get_user_meetings_run.
  destruct (user_meetings_of (pa_user_id req) (meetings st)) as [ums|]; [|discriminate].
  intros H. exists ums. split; [done|].
  destruct ums as [|m0 ums0] eqn:Hums; [by injection H as <- <-|].
  assert (ums ≠ []) as Hne by (by rewrite Hums).
  rewrite <- Hums in *. clear Hums.
  revert H. unfold bind_M at 1.
  destruct (for_each ums _ [] st) as [[durations|] st1]; [|discriminate].
  unfold bind_M at 1.
  match goal with |- context [for_each ums ?body [] st1] =>
    destruct (for_each ums body [] st1) as [[meeting_types|] st2] eqn:Htypes end;
    [|discriminate].
  apply type_counts_total in Htypes.
  unfold bind_M at 1. unfold lift at 1.
  match goal with |- context [match ?r with Ok _ => _ | Raise _ => _ end] =>
    destruct r as [avg|] end; [|discriminate].
  unfold bind_M at 1.
  match goal with |- context [for_each ums ?body [] st2] =>
    destruct (for_each ums body [] st2) as [[hours|] st3] eqn:Hhours end;
    [|discriminate].
  apply (key_counts_total hour (λ k, 0 ≤ k ≤ 23) ums hour_range) in Hhours
    as [Hhours Hkeys]; [|constructor].
  unfold bind_M at 1. unfold lift at 1.
  destruct (select_if (λ s, py_ge_int s 8) _) as [high|] eqn:Hhigh; [|discriminate].
  unfold bind_M at 1. unfold lift at 1.
  destruct (select_if (λ s, py_lt_int s 6) _) as [low|] eqn:Hlow; [|discriminate].
  unfold ret. intros [= <- <-].
  pose proof (select_if_disjoint _ _ _ Hhigh Hlow) as Hdis.
  rewrite length_fmap in Hdis.
  cbn [pt_total_meetings meeting_type_distribution hour_distribution
       productivity_trends high_effectiveness_meetings low_effectiveness_meetings].
  change (total_count []) with 0 in Htypes, Hhours.
  split_and!; try done; try lia.
Qed.

Lemma with_period_bind {A} period (c : M A) (k k' : A → M PatternAnalysisResponse) st :
  (∀ a st1,
     k' a st1 = (match (k a st1).1 with
                 | Ok r => Ok (with_period period r)
                 | Raise e => Raise e
                 end, (k a st1).2)) →
  bind_M c k' st = (match (bind_M c k st).1 with
                    | Ok r => Ok (with_period period r)
                    | Raise e => Raise e
                    end, (bind_M c k st).2).
Proof.
  intros Hk. unfold bind_M. destruct (c st) as [[a|e] st1]; [apply Hk|done].
Qed.

(** X15. [analyze_meeting_patterns] does not use the period: with another
    period it does the same and returns the same answer, but for the
    period that the answer repeats. *)
Theorem analyze_meeting_patterns_ignores_period
    (user_id period period' : string) (st : state) :
  analyze_meeting_patterns E {| pa_user_id := user_id; pa_period := period' |} st
  = (match (analyze_meeting_patterns E
              {| pa_user_id := user_id; pa_period := period |} st).1 with
     | Ok r => Ok (with_period period' r)
     | Raise e => Raise e
     end,
     (analyze_meeting_patterns E {| pa_user_id := user_id; pa_period := period |} st).2).
Proof.
  unfold analyze_meeting_patterns. cbn [pa_user_id pa_period].
  apply with_period_bind. intros ums st1.
  destruct ums as [|m ums]; [done|].
  repeat (apply with_period_bind; intros ? ?). done.
Qed.

(** ** [generate_agenda_suggestions] *)

Lemma participant_meetings_loop (participants : list string) acc st :
  ∀ pm st',
    for_each participants (λ participant_meetings participant,
      user_meetings ← get_user_meetings participant;
      ret (participant_meetings ++ user_meetings)) acc st = (Ok pm, st') →
    st' = st ∧ pm = acc ++ (participants ≫= meetings_of (meetings st)).
Proof.
  revert acc. induction participants as [|p ps IH]; intros acc pm st'; cbn [for_each].
  - unfold ret. intros [= <- <-]. by rewrite app_nil_r.
  - unfold bind_M at 1. unfold bind_M at 1. rewrite get_user_meetings_run.
    destruct (user_meetings_of p (meetings st)) as [ums|] eqn:Hums; [|discriminate].
    unfold ret at 1. intros [-> ->]%IH. split; [done|].
    rewrite bind_cons, app_assoc. unfold meetings_of at 2. by rewrite Hums.
Qed.

Lemma select_if_similar meeting_topic (l r : list dict) :
  select_if (similar_title meeting_topic) l = Ok r →
  r = filter (λ m, title_mentions meeting_topic m = true) l.
Proof.
  revert r. induction l as [|m l IH]; intros r; cbn [select_if].
  - by intros [= <-].
  - unfold bind_result. unfold title_mentions at 1.
    destruct (similar_title meeting_topic m) as [b|] eqn:Hb; [|discriminate].
    destruct (select_if _ l) as [r'|]; [|discriminate]. intros [= <-].
    rewrite filter_cons. unfold title_mentions at 1. rewrite Hb.
    rewrite (IH r' eq_refl). destruct b.
    + by rewrite decide_True.
    + by rewrite decide_False.
Qed.

Lemma filter_bind {A B} (P : B → Prop) `{∀ x, Decision (P x)} (f : A → list B) l :
  filter P (l ≫= f) = l ≫= λ x, filter P (f x).
Proof.
  induction l as [|x l IH]; [done|]. by rewrite !bind_cons, filter_app, IH.
Qed.

Lemma generate_agenda_suggestions_run req st resp st' :
  generate_agenda_suggestions req st = (Ok resp, st') →
  let topic := lower (ag_meeting_topic req) in
  let similar_meetings :=
    ag_participants req ≫= λ p,
      filter (λ m, title_mentions (ag_meeting_topic req) m = true)
        (meetings_of (meetings st) p) in
  st' = st
  ∧ based_on_history resp = Z.of_nat (length similar_meetings)
  ∧ agenda_suggestions resp
    = (if str_contains "planning" topic then planning_agenda
       else if str_contains "review" topic then review_agenda
       else if str_contains "sync" topic then sync_agenda
       else general_agenda)
      ++ (if 0 <? based_on_history resp then history_agenda else []).
Proof.
  unfold generate_agenda_suggestions. unfold bind_M at 1.
  match goal with |- context [for_each ?l ?body [] st] =>
    destruct (for_each l body [] st) as [[pm|] st1] eqn:Hloop end; [|discriminate].
  apply participant_meetings_loop in Hloop as [-> ->]. cbn [app].
  unfold bind_M at 1. unfold lift at 1.
  destruct (select_if _ _) as [similar|] eqn:Hsim; [|discriminate].
  apply select_if_similar in Hsim. rewrite filter_bind in Hsim. subst similar.
  unfold ret. intros [= <- <-]. cbv zeta.
  cbn [based_on_history agenda_suggestions]. split_and!; [done..|].
  match goal with |- context [length ?l] => destruct l as [|m l'] end.
  - cbn [length]. by rewrite app_nil_r.
  - cbn [length]. by rewrite (proj2 (Z.ltb_lt 0 _)) by lia.
Qed.

(** X16. The agenda that [generate_agenda_suggestions] returns is one of
    four fixed lists of five items, chosen by the first of the words
    planning, review, sync that the topic contains, whatever its case
    (the general list when it contains none), followed by two fixed items
    exactly when based_on_history is positive; and the request reads no
    clock. *)
Theorem agenda_suggestions_by_keyword
    (req : AgendaSuggestionRequest) (st st' : state) (resp : AgendaSuggestionResponse) :
  generate_agenda_suggestions req st = (Ok resp, st') →
  let topic := lower (ag_meeting_topic req) in
  st' = st
  ∧ (∃ template,
       agenda_suggestions resp
         = template ++ (if 0 <? based_on_history resp then history_agenda else [])
       ∧ length template = 5%nat
       ∧ (str_contains "planning" topic = true → template = planning_agenda)
       ∧ (str_contains "planning" topic = false →
          str_contains "review" topic = true → template = review_agenda)
       ∧ (str_contains "planning" topic = false →
          str_contains "review" topic = false →
          str_contains "sync" topic = true → template = sync_agenda)
       ∧ (str_contains "planning" topic = false →
          str_contains "review" topic = false →
          str_contains "sync" topic = false → template = general_agenda))
  ∧ length (agenda_suggestions resp)
    = (if 0 <? based_on_history resp then 7%nat else 5%nat).
Proof.
  intros Hrun topic.
  apply generate_agenda_suggestions_run in Hrun as (-> & _ & Hs). fold topic in Hs.
  split; [done|]. rewrite Hs. split.
  - eexists. split; [reflexivity|].
    destruct (str_contains "planning" topic), (str_contains "review" topic),
      (str_contains "sync" topic); by split_and!.
  - rewrite length_app.
    destruct (str_contains "planning" topic), (str_contains "review" topic),
      (str_contains "sync" topic), (0 <? based_on_history resp); reflexivity.
Qed.

(** X17. based_on_history counts, for each entry of the participants list,
    the meetings of that participant whose title is a str that contains
    the topic (case ignored): a meeting that two of the participants
    attend, or a participant listed twice, is counted twice. *)
Theorem based_on_history_counts_each_participant
    (req : AgendaSuggestionRequest) (st st' : state) (resp : AgendaSuggestionResponse) :
  generate_agenda_suggestions req st = (Ok resp, st') →
  based_on_history resp
  = Z.of_nat (length (ag_participants req ≫= λ p,
                        filter (λ m, title_mentions (ag_meeting_topic req) m = true)
                          (meetings_of (meetings st) p))).
Proof. by intros (_ & H & _)%generate_agenda_suggestions_run. Qed.

(** ** [calculate_workload_balance] *)

Lemma fold_max_counts (l : list Z) (n : Z) :
  Forall (λ c, 1 ≤ c) l → 1 ≤ n →
  1 ≤ fold_left Z.max l n ≤ n + foldr Z.add 0 l.
Proof.
  intros HF. revert n. induction HF as [|c l Hc _ IH]; intros n Hn; cbn [fold_left foldr].
  - lia.
  - specialize (IH (Z.max n c) ltac:(lia)).
    set (s := foldr Z.add 0 l) in *. lia.
Qed.

Lemma max_daily_bounds (daily_meetings : list (Z * Z)) :
  Forall (λ kv, True ∧ 1 ≤ kv.2) daily_meetings →
  let max_daily :=
    match daily_meetings with
    | [] => 0
    | (_, n) :: rest => fold_left Z.max (snd <$> rest) n
    end in
  0 ≤ max_daily ≤ total_count daily_meetings
  ∧ (0 < total_count daily_meetings → 1 ≤ max_daily).
Proof.
  intros HF. destruct daily_meetings as [|[k n] rest]; cbv zeta.
  - change (total_count []) with 0. lia.
  - apply Forall_cons in HF as [[_ Hn] HF]. cbn [snd] in Hn.
    rewrite total_count_cons. unfold total_count.
    assert (Forall (λ c, 1 ≤ c) (snd <$> rest)) as HF'.
    { apply Forall_fmap. eapply Forall_impl; [exact HF|]. by intros [? ?] [_ ?]. }
    pose proof (fold_max_counts _ n HF' Hn) as Hmax.
    set (s := foldr Z.add 0 (snd <$> rest)) in *.
    set (mx := fold_left Z.max (snd <$> rest) n) in *. lia.
Qed.

Lemma member_workload_of_counts member st w st' :
  member_workload_of E member st = (Ok w, st') →
  counts_of_member (meetings st) (member, w).
Proof.
  unfold member_workload_of. unfold bind_M at 1. rewrite get_user_meetings_run.
  destruct (user_meetings_of member (meetings st)) as [ums|] eqn:Hums; [|discriminate].
  unfold bind_M at 1.
  destruct (get_user_preferences member st) as [[prefs|] st0]; [|discriminate].
  unfold bind_M at 1.
  destruct (for_each ums _ [] st0) as [[durations|] st1]; [|discriminate].
  unfold bind_M at 1.
  match goal with |- context [for_each ums ?body [] st1] =>
    destruct (for_each ums body [] st1) as [[daily|] st2] eqn:Hdaily end;
    [|discriminate].
  apply (key_counts_total date (λ _, True) ums (λ _, I)) in Hdaily
    as [Htotal Hcounts]; [|constructor].
  change (total_count []) with 0 in Htotal.
  unfold bind_M at 1. unfold lift at 1.
  destruct (max_daily_limit_of prefs) as [limit|]; [|discriminate].
  unfold ret. intros [= <- <-].
  unfold counts_of_member, meetings_of. cbn [fst snd total_meetings max_daily_meetings].
  rewrite Hums.
  pose proof (max_daily_bounds daily Hcounts) as Hmax. cbv zeta in Hmax.
  rewrite Htotal in Hmax. split; [done|]. split; [|intros ?]; apply Hmax; lia.
Qed.

Lemma keeps_data_member_workload_of member : keeps_data (member_workload_of E member).
Proof.
  unfold member_workload_of. keeps_data_auto; apply keeps_data_duration_minutes.
Qed.

Lemma assoc_set_keys {V} (k : string) (v : V) (l : list (string * V)) :
  (assoc_set k v l).*1 = if decide (k ∈ l.*1) then l.*1 else l.*1 ++ [k].
Proof.
  induction l as [|[k' v'] l IH]; [done|].
  cbn [assoc_set]. rewrite !fmap_cons. cbn [fst].
  destruct (decide (k = k')) as [->|Hne].
  - rewrite fmap_cons. cbn [fst]. by rewrite decide_True by apply list_elem_of_here.
  - rewrite fmap_cons, IH. cbn [fst]. destruct (decide (k ∈ l.*1)) as [Hin|Hin].
    + by rewrite decide_True by (by apply list_elem_of_further).
    + rewrite decide_False; [done|]. by intros [?|?]%elem_of_cons.
Qed.

Lemma assoc_set_Forall_entry {V} (P : string * V → Prop) (k : string) (v : V) l :
  P (k, v) → Forall P l → Forall P (assoc_set k v l).
Proof.
  intros Hv. induction 1 as [|[k' v'] l Hx HF IH]; cbn [assoc_set].
  - by repeat constructor.
  - destruct (decide (k = k')); constructor; auto.
Qed.

Lemma team_workload_loop (members : list string) st0 :
  ∀ acc st acc' st',
    same_data st0 st → NoDup acc.*1 →
    Forall (counts_of_member (meetings st0)) acc →
    for_each members (λ team_workload member,
      w ← member_workload_of E member;
      ret (assoc_set member w team_workload)) acc st = (Ok acc', st') →
    NoDup acc'.*1
    ∧ (∀ m, m ∈ acc'.*1 ↔ m ∈ acc.*1 ∨ m ∈ members)
    ∧ Forall (counts_of_member (meetings st0)) acc'.
Proof.
  induction members as [|member members IH]; intros acc st acc' st' Hd Hnd HF;
    cbn [for_each].
  - unfold ret. intros [= <- <-]. split_and!; [done| |done].
    intros m. rewrite elem_of_nil. tauto.
  - unfold bind_M at 1. unfold bind_M at 1.
    pose proof (keeps_data_member_workload_of member st) as Hk.
    destruct (member_workload_of E member st) as [[w|] st1] eqn:Hw; [|discriminate].
    cbn [snd] in Hk. apply member_workload_of_counts in Hw.
    destruct Hd as [Hm Hu]. rewrite Hm in Hw.
    unfold ret at 1. intros H%IH.
    + destruct H as (Hnd' & Hin & HF'). split_and!; [done| |done].
      intros m. rewrite Hin, assoc_set_keys, elem_of_cons.
      destruct (decide (member ∈ acc.*1)).
      * split; [intros [?|?]; auto|]. intros [?|[->|?]]; auto.
      * rewrite elem_of_app, list_elem_of_singleton. tauto.
    + eapply same_data_trans; [|exact Hk]. by split.
    + rewrite assoc_set_keys. destruct (decide (member ∈ acc.*1)); [done|].
      apply NoDup_app. split_and!; [done| |apply NoDup_singleton].
      by intros x Hx ->%list_elem_of_singleton.
    + by apply assoc_set_Forall_entry.
Qed.

Lemma calculate_workload_balance_entries req st resp st' :
  calculate_workload_balance E req st = (Ok resp, st') →
  NoDup (workload_distribution resp).*1
  ∧ (∀ m, m ∈ (workload_distribution resp).*1 ↔ m ∈ wb_team_members req)
  ∧ Forall (counts_of_member (meetings st)) (workload_distribution resp).
Proof.
  unfold calculate_workload_balance. unfold bind_M at 1.
  match goal with |- context [for_each ?l ?body [] st] =>
    destruct (for_each l body [] st) as [[tw|] st1] eqn:Hloop end; [|discriminate].
  apply (team_workload_loop _ st) in Hloop as (Hnd & Hin & HF);
    [|apply same_data_refl|constructor|constructor].
  unfold bind_M, lift.
  destruct (balance_score_of _) as [bs|]; [|discriminate].
  unfold ret. intros [= <- <-]. cbn [workload_distribution].
  split_and!; [done| |done].
  intros m. rewrite Hin, fmap_nil, elem_of_nil. tauto.
Qed.

(** X18. [workload_distribution] has one entry for each distinct team
    member: a member listed twice gets one entry, and nobody else gets
    one. *)
Theorem workload_distribution_one_entry_per_member
    (req : WorkloadBalanceRequest) (st st' : state) (resp : WorkloadBalanceResponse) :
  calculate_workload_balance E req st = (Ok resp, st') →
  NoDup (workload_distribution resp).*1
  ∧ (∀ m, m ∈ (workload_distribution resp).*1 ↔ m ∈ wb_team_members req)
  ∧ (length (workload_distribution resp) ≤ length (wb_team_members req))%nat.
Proof.
  intros (Hnd & Hin & _)%calculate_workload_balance_entries. split_and!; [done..|].
  rewrite <- (length_fmap fst). apply submseteq_length.
  apply NoDup_submseteq; [done|]. intros m. by rewrite Hin.
Qed.

(** X19. In every entry of [workload_distribution], total_meetings is the
    number of the stored meetings of the member, and max_daily_meetings is
    between 1 and that number (0 when the member has no meeting). *)
Theorem workload_counts_agree_with_meetings
    (req : WorkloadBalanceRequest) (st st' : state) (resp : WorkloadBalanceResponse) :
  calculate_workload_balance E req st = (Ok resp, st') →
  Forall (counts_of_member (meetings st)) (workload_distribution resp).
Proof. by intros (_ & _ & HF)%calculate_workload_balance_entries. Qed.

(** ** [optimize_meeting_schedule]: the score and the insights *)

(** X20. In an answer of [optimize_meeting_schedule] the insights agree
    with the score: the score is a multiple of 10 from 0 to 100, the
    schedule efficiency is Good exactly when the score is 80 or more, and
    the score is 100 exactly when the workload is called Balanced and the
    time utilization Optimal. *)
Theorem optimize_insights_agree_with_score
    (req : OptimizeScheduleRequest) (st st' : state) (user_id : string)
    (count score : Z) (recs : list recommendation) (insights : ai_insights) :
  optimize_meeting_schedule E req st
    = (Ok (Optimized user_id count score recs insights), st') →
  0 ≤ score ≤ 100
  ∧ score mod 10 = 0
  ∧ (schedule_efficiency insights = "Good" ↔ 80 ≤ score)
  ∧ (score = 100
     ↔ workload_distribution_label insights = "Balanced"
       ∧ time_utilization insights = "Optimal").
Proof.
  unfold optimize_meeting_schedule. unfold bind_M at 1.
  destruct (get_user_meetings (op_user_id req) st) as [[ums|] st0]; [|discriminate].
  unfold bind_M at 1.
  destruct (get_user_preferences (op_user_id req) st0) as [[prefs|] st1]; [|discriminate].
  destruct ums as [|m0 ums0]; [discriminate|].
  unfold bind_M at 1.
  destruct (group_by_date E (m0 :: ums0) st1) as [[daily|] st2]; [|discriminate].
  unfold bind_M at 1. unfold lift at 1.
  destruct (max_daily_limit_of prefs) as [limit|]; [|discriminate].
  unfold bind_M at 1. unfold lift at 1.
  destruct (overloaded_days_of limit daily) as [overloaded|]; [|discriminate].
  unfold bind_M at 1. unfold lift at 1.
  destruct (overloaded_recommendations limit overloaded) as [recs0|]; [|discriminate].
  unfold bind_M at 1.
  destruct (break_recommendations E daily recs0 st2) as [[recs1|] st3]; [|discriminate].
  unfold bind_M at 1.
  destruct (non_business_meetings_of E (m0 :: ums0) st3) as [[outside|] st4];
    [|discriminate].
  unfold bind_M at 1.
  set (k := Z.of_nat (length overloaded)).
  set (n := Z.of_nat (length outside)).
  assert (0 ≤ k) as Hk by (unfold k; lia).
  assert (0 ≤ n) as Hn by (unfold n; lia).
  assert (k = 0 ↔ overloaded = []) as Hk0
    by (unfold k; destruct overloaded; cbn [length]; split; (done || lia)).
  assert (n = 0 ↔ outside = []) as Hn0
    by (unfold n; destruct outside; cbn [length]; split; (done || lia)).
  intros Hrun.
  assert (score = Z.max 0 (100 - k * 20 - n * 10)
          ∧ schedule_efficiency insights
            = (if 80 <=? 100 - k * 20 - n * 10 then "Good" else "Needs improvement")
          ∧ workload_distribution_label insights
            = match overloaded with [] => "Balanced" | _ => "Unbalanced" end
          ∧ time_utilization insights
            = match outside with [] => "Optimal" | _ => "Suboptimal" end)
    as (-> & -> & -> & ->).
  { destruct outside as [|o outside'].
    - unfold ret in Hrun. by injection Hrun as <- <- <- <- <-.
    - unfold bind_M, lift, ret in Hrun.
      destruct (field_of_each "title" (o :: outside')) as [titles|]; [|discriminate].
      by injection Hrun as <- <- <- <- <-. }
  split; [lia|]. split; [|split].
  - destruct (Z.max_spec 0 (100 - k * 20 - n * 10)) as [[_ ->]|[_ ->]]; [|done].
    replace (100 - k * 20 - n * 10) with ((10 - k * 2 - n) * 10) by lia.
    apply Z.mod_mul. lia.
  - destruct (80 <=? 100 - k * 20 - n * 10) eqn:H80.
    + apply Z.leb_le in H80. split; [lia|done].
    + apply Z.leb_gt in H80. split; [discriminate|lia].
  - split.
    + intros H100. assert (k = 0 ∧ n = 0) as [Hk' Hn'] by lia.
      apply Hk0 in Hk'. apply Hn0 in Hn'. by subst.
    + intros [Hb Ho].
      assert (overloaded = []) as Hov by (by destruct overloaded).
      assert (outside = []) as Hout by (by destruct outside).
      apply Hk0 in Hov. apply Hn0 in Hout. lia.
Qed.

End Further.

(** ** The properties on the sample data *)

(** On three stored meetings: those of alice are the first two. *)
Lemma alice_attends_two_of_three :
  let st := sample_state three_meetings [] in
  Forall has_participant_list (meetings st)
  ∧ get_user_meetings "alice" st = (Ok [meeting_9_to_10; meeting_10_to_11], st).
Proof.
  intros st.
  assert (Forall has_participant_list (meetings st)) as HF
    by (repeat constructor; eexists; reflexivity).
  split; [exact HF|].
  rewrite (proj1 (get_user_meetings_filter "alice" st HF)). reflexivity.
Defined.

(** With a record without participants among the stored meetings. *)
Lemma record_without_participants_fails_bob :
  let st := sample_state [meeting_10_to_11; meeting_without_participants] [] in
  meeting_without_participants ∈ meetings st
  ∧ meeting_without_participants !! "participants" = None
  ∧ (∃ e, get_user_meetings "bob" st = (Raise e, st))
  ∧ ∃ e, optimize_meeting_schedule sample_env {| op_user_id := "bob" |} st
         = (Raise e, st).
Proof.
  intros st.
  assert (meeting_without_participants ∈ meetings st) as Hin
    by (apply list_elem_of_further, list_elem_of_here).
  assert (meeting_without_participants !! "participants" = None) as Hm
    by reflexivity.
  split; [exact Hin|]. split; [exact Hm|].
  destruct (meeting_without_participants_breaks_lookups sample_env st _ Hin Hm)
    as (Hget & _ & _ & Hopt & _).
  split; [apply Hget|apply Hopt].
Defined.

(** With the records of bob, of alice, and a second one of alice. *)
Lemma first_record_of_alice_is_returned :
  let st := sample_state [] [bob_preferences; alice_preferences; alice_second_record] in
  users st = [bob_preferences] ++ alice_preferences :: [alice_second_record]
  ∧ Forall (field_differs "user_id" "alice") [bob_preferences]
  ∧ alice_preferences !! "user_id" = Some (PStr "alice")
  ∧ get_user_preferences "alice" st = (Ok (Some alice_preferences), st).
Proof.
  intros st.
  assert (Forall (field_differs "user_id" "alice") [bob_preferences]) as Hb
    by (repeat constructor; eexists; split; reflexivity).
  assert (alice_preferences !! "user_id" = Some (PStr "alice")) as Hu
    by reflexivity.
  split; [reflexivity|]. split; [exact Hb|]. split; [exact Hu|].
  exact (proj1 (get_user_preferences_first_match "alice" st)
           [bob_preferences] alice_preferences [alice_second_record] eq_refl Hb Hu).
Defined.

(** On the number 5: TypeError, and the clock is not read. *)
Lemma a_number_is_no_timestamp :
  let st := sample_state [] [] in
  truthy (PInt 5) = true
  ∧ (∀ s, PInt 5 ≠ PStr s)
  ∧ parse_datetime sample_env (PInt 5) st = (Raise TypeError, st).
Proof.
  intros st.
  assert (truthy (PInt 5) = true) as Hv by reflexivity.
  assert (∀ s, PInt 5 ≠ PStr s) as Hs by discriminate.
  split; [exact Hv|]. split; [exact Hs|].
  exact (proj2 (parse_datetime_on_other_values sample_env (PInt 5) st) Hv Hs).
Defined.

(** On a range that has a start and no end. *)
Lemma range_with_one_bound_raises :
  let st := sample_state three_meetings [] in
  (length ["2024-01-15T09:00:00"] < 2)%nat
  ∧ (∃ st', find_available_slots sample_env 10 ["alice"] 60 ["2024-01-15T09:00:00"] st
            = (Raise IndexError, st'))
  ∧ user_meetings_of "alice" (meetings st) = Ok [meeting_9_to_10; meeting_10_to_11]
  ∧ ∃ st', detect_scheduling_conflicts sample_env
             {| cf_user_id := "alice"; cf_time_range := ["2024-01-15T09:00:00"] |} st
           = (Raise IndexError, st').
Proof.
  intros st.
  assert (length ["2024-01-15T09:00:00"] < 2)%nat as Hlen by (simpl; lia).
  assert (user_meetings_of "alice" (meetings st) = Ok [meeting_9_to_10; meeting_10_to_11])
    as Hums by reflexivity.
  destruct (range_without_two_bounds_raises_IndexError sample_env
              ["2024-01-15T09:00:00"] Hlen) as [Hslots Hdetect].
  split; [exact Hlen|]. split; [apply Hslots|]. split; [exact Hums|].
  exact (Hdetect "alice" st _ Hums).
Defined.

(** On the range from 12:00 back to 09:30: the meeting of bob from 11:30
    to 12:30 is reported. *)
Lemma backward_range_reports_meeting_at_noon :
  let st := sample_state three_meetings [] in
  let req := {| cf_user_id := "bob"; cf_time_range := backward_range |} in
  user_meetings_of "bob" (meetings st) = Ok [bob_meeting]
  ∧ Forall (listed_meeting sample_env) [bob_meeting]
  ∧ parse_datetime sample_env (PStr "2024-01-15T12:00:00") st
    = (Ok (on_2024_01_15 12 0), st)
  ∧ parse_datetime sample_env (PStr "2024-01-15T09:30:00") st
    = (Ok (on_2024_01_15 9 30), st)
  ∧ instant (on_2024_01_15 9 30) < instant (on_2024_01_15 12 0)
  ∧ ∃ resp,
      detect_scheduling_conflicts sample_env req st = (Ok resp, st)
      ∧ conflicts resp = [range_conflict_of bob_meeting].
Proof.
  intros st req.
  assert (user_meetings_of "bob" (meetings st) = Ok [bob_meeting]) as Hums
    by reflexivity.
  assert (Forall (listed_meeting sample_env) [bob_meeting]) as HF
    by (repeat constructor; eexists; reflexivity).
  assert (parse_datetime sample_env (PStr "2024-01-15T12:00:00") st
          = (Ok (on_2024_01_15 12 0), st)) as Hp0 by reflexivity.
  assert (parse_datetime sample_env (PStr "2024-01-15T09:30:00") st
          = (Ok (on_2024_01_15 9 30), st)) as Hp1 by reflexivity.
  assert (instant (on_2024_01_15 9 30) < instant (on_2024_01_15 12 0)) as Hlt
    by reflexivity.
  split_and!; [exact Hums|exact HF|exact Hp0|exact Hp1|exact Hlt|].
  destruct (detect_scheduling_conflicts_backward_range sample_env req st st st
              [bob_meeting] "2024-01-15T12:00:00" "2024-01-15T09:30:00"
              (on_2024_01_15 12 0) (on_2024_01_15 9 30)
              Hums HF eq_refl eq_refl Hp0 Hp1 Hlt) as (resp & Hrun & Hconf & _).
  exists resp. split; [exact Hrun|]. rewrite Hconf. reflexivity.
Defined.

(** On three stored meetings: no meeting has the id m9. *)
Lemma unknown_meeting_id_is_404 :
  let st := sample_state three_meetings [] in
  let req := {| es_meeting_id := "m9" |} in
  Forall (λ m, is_Some (m !! "id")) (meetings st)
  ∧ Forall (field_differs "id" "m9") (meetings st)
  ∧ score_meeting_effectiveness sample_env req st = (Raise (HTTPException 404), st).
Proof.
  intros st req.
  assert (Forall (λ m, is_Some (m !! "id")) (meetings st)) as Hids
    by (repeat constructor; eexists; reflexivity).
  assert (Forall (field_differs "id" "m9") (meetings st)) as Hdiff
    by (repeat constructor; eexists; split; reflexivity).
  split; [exact Hids|]. split; [exact Hdiff|].
  apply (proj1 (score_meeting_effectiveness_404 sample_env req st Hids)).
  split; [reflexivity|]. split; [reflexivity|exact Hdiff].
Defined.

(** On the meeting of bob alone: one suggestion, for the participants. *)
Lemma one_participant_gets_one_suggestion :
  let st := sample_state three_meetings [] in
  ∃ resp,
    score_meeting_effectiveness sample_env {| es_meeting_id := "m3" |} st = (Ok resp, st)
    ∧ Z.of_nat (length (improvement_suggestions resp))
      = b2z (duration_score (er_score_breakdown resp) =? 4)
        + b2z (participant_score (er_score_breakdown resp) =? 4)
        + b2z (time_score (er_score_breakdown resp) =? 4)
        + b2z (agenda_score (er_score_breakdown resp) =? 4).
Proof.
  intros st.
  assert (∃ resp, score_meeting_effectiveness sample_env {| es_meeting_id := "m3" |} st
                  = (Ok resp, st)) as [resp Hrun] by (eexists; reflexivity).
  exists resp. split; [exact Hrun|].
  exact (proj1 (improvement_suggestions_count sample_env _ _ _ _ Hrun)).
Defined.

(** On the request for a weekly sync: the clock reading plus 30 minutes
    is a date, and the meeting is stored as m4. *)
Lemma weekly_sync_is_created :
  let st := sample_state three_meetings [] in
  (∃ d, dt_plus (current_instant_utc sample_env st) 0 0 (mc_duration sync_request) = Ok d)
  ∧ ∃ resp st',
      create_meeting sample_env sync_request st = (Ok resp, st')
      ∧ meetings st' = three_meetings ++ [cm_meeting resp]
      ∧ cm_meeting resp !! "id" = Some (PStr "m4").
Proof.
  intros st.
  assert (∃ d, dt_plus (current_instant_utc sample_env st) 0 0
                 (mc_duration sync_request) = Ok d) as [d Hd]
    by (eexists; reflexivity).
  split; [by exists d|].
  destruct (create_meeting_all_or_nothing sample_env sync_request st) as [Hall Hdate].
  destruct (Hdate d Hd) as (resp & st' & Hrun).
  destruct Hall as [(resp0 & st0 & Hrun0 & Hm & _ & Hid & _)|(st0 & Hfail & _)].
  - rewrite Hrun in Hrun0. injection Hrun0 as <- <-.
    exists resp, st'. split; [exact Hrun|]. split; [exact Hm|exact Hid].
  - rewrite Hrun in Hfail. discriminate Hfail.
Defined.

(** On the same request: the new meeting is the last of the meetings
    of alice, and it is found under the id m4. *)
Lemma weekly_sync_is_found_again :
  let st := sample_state three_meetings [] in
  ∃ resp st',
    create_meeting sample_env sync_request st = (Ok resp, st')
    ∧ user_meetings_of "alice" (meetings st')
      = Ok [meeting_9_to_10; meeting_10_to_11; cm_meeting resp]
    ∧ find_meeting "m4" (meetings st') = Ok (Some (cm_meeting resp)).
Proof.
  intros st.
  assert (match (create_meeting sample_env sync_request st).1 with
          | Ok _ => true
          | Raise _ => false
          end = true) as Hok by reflexivity.
  destruct (create_meeting sample_env sync_request st) as [[resp|e] st'] eqn:Hrun;
    [|discriminate Hok].
  destruct (created_meeting_is_found_again sample_env sync_request st st' resp Hrun)
    as [Hums [Hnew _]].
  exists resp, st'. split; [reflexivity|]. split.
  - exact (Hums "alice" [meeting_9_to_10; meeting_10_to_11] eq_refl).
  - exact (Hnew eq_refl).
Defined.

(** On a start time that is no timestamp: it is stored as written, and
    the end is half an hour after the second reading of the clock. *)
Lemma vague_start_is_stored_as_written :
  let st := sample_state three_meetings [] in
  ∃ resp st',
    create_meeting sample_env vague_request st = (Ok resp, st')
    ∧ first_parsed sample_env "tomorrow-ish" = None
    ∧ cm_meeting resp !! "start_time" = Some (PStr "tomorrow-ish")
    ∧ cm_meeting resp !! "end_time" = Some (PStr "2024-01-01T15:00:01+00:00").
Proof.
  intros st.
  assert (match (create_meeting sample_env vague_request st).1 with
          | Ok _ => true
          | Raise _ => false
          end = true) as Hok by reflexivity.
  destruct (create_meeting sample_env vague_request st) as [[resp|e] st'] eqn:Hrun;
    [|discriminate Hok].
  destruct (create_meeting_stored_times sample_env vague_request st st' resp Hrun)
    as [_ Hgiven].
  destruct (Hgiven "tomorrow-ish" eq_refl ltac:(discriminate)) as (Hstart & _ & Hend).
  assert (first_parsed sample_env "tomorrow-ish" = None) as Hnone by reflexivity.
  exists resp, st'. split; [reflexivity|]. split; [exact Hnone|]. split; [exact Hstart|].
  exact (Hend {| wall := clock sample_env 1 + 30 * us_per_minute; tzinfo := Some 0 |}
           Hnone eq_refl).
Defined.

(** On the morning of alice, who is busy from 09:00 to 11:00: the only
    free candidate is the one at 11:00. *)
Lemma morning_has_one_free_slot :
  let st := sample_state three_meetings [] in
  find_available_slots sample_env 10 ["alice"] 60 morning_range st
    = (Ok (Some [slot_at (on_2024_01_15 9 0) 60 2]), st)
  ∧ ∃ busy_times,
      [slot_at (on_2024_01_15 9 0) 60 2]
      = take 5 (free_slots (on_2024_01_15 9 0) (on_2024_01_15 12 0) 60 busy_times).
Proof.
  intros st.
  assert (find_available_slots sample_env 10 ["alice"] 60 morning_range st
          = (Ok (Some [slot_at (on_2024_01_15 9 0) 60 2]), st)) as Hrun by reflexivity.
  split; [exact Hrun|].
  destruct (find_available_slots_first_five_free sample_env _ _ _ _ _ _ _ Hrun)
    as (r0 & r1 & rs & re & st1 & st2 & busy & H0 & H1 & Hp0 & Hp1 & _ & Hslots).
  injection H0 as <-. injection H1 as <-.
  assert (parse_datetime sample_env (PStr "2024-01-15T09:00:00") st
          = (Ok (on_2024_01_15 9 0), st)) as Hq0 by reflexivity.
  rewrite Hq0 in Hp0. injection Hp0 as <- <-.
  assert (parse_datetime sample_env (PStr "2024-01-15T12:00:00") st
          = (Ok (on_2024_01_15 12 0), st)) as Hq1 by reflexivity.
  rewrite Hq1 in Hp1. injection Hp1 as <- <-.
  exists busy. exact Hslots.
Defined.

(** On the two meetings of alice. *)
Lemma alice_patterns_count_two_meetings :
  let st := sample_state three_meetings [] in
  ∃ user_id period p,
    analyze_meeting_patterns sample_env
      {| pa_user_id := "alice"; pa_period := "2024-01" |} st
      = (Ok (Patterns user_id period p), st)
    ∧ pt_total_meetings p = 2
    ∧ total_count (meeting_type_distribution p) = 2
    ∧ total_count (hour_distribution p) = 2.
Proof.
  intros st.
  assert (∃ u p pt,
            analyze_meeting_patterns sample_env
              {| pa_user_id := "alice"; pa_period := "2024-01" |} st
            = (Ok (Patterns u p pt), st)) as (u & p & pt & Hrun)
    by (eexists _, _, _; reflexivity).
  destruct (analyze_meeting_patterns_counts sample_env _ _ _ _ Hrun)
    as (ums & Hums & _ & Htotal & Htypes & Hhours & _).
  assert (user_meetings_of "alice" (meetings st) = Ok [meeting_9_to_10; meeting_10_to_11])
    as Hq by reflexivity.
  cbn [pa_user_id] in Hums. rewrite Hq in Hums. injection Hums as <-.
  exists u, p, pt. split; [exact Hrun|].
  split; [exact Htotal|]. split; [exact Htypes|exact Hhours].
Defined.

(** On a topic that names a review and, later, planning: the planning
    agenda is chosen. *)
Lemma planning_comes_before_review :
  let st := sample_state three_meetings [] in
  let req := {| ag_meeting_topic := "Budget REVIEW planning";
                ag_participants := ["alice"; "bob"; "bob"] |} in
  ∃ resp,
    generate_agenda_suggestions req st = (Ok resp, st)
    ∧ str_contains "review" (lower (ag_meeting_topic req)) = true
    ∧ str_contains "planning" (lower (ag_meeting_topic req)) = true
    ∧ take 5 (agenda_suggestions resp) = planning_agenda.
Proof.
  intros st req.
  assert (∃ resp, generate_agenda_suggestions req st = (Ok resp, st)) as [resp Hrun]
    by (eexists; reflexivity).
  destruct (agenda_suggestions_by_keyword req st st resp Hrun)
    as (_ & (template & Hs & _ & Hplanning & _) & _).
  exists resp. split; [exact Hrun|]. split; [reflexivity|]. split; [reflexivity|].
  rewrite Hs, (Hplanning eq_refl). reflexivity.
Defined.

(** On a review with bob listed twice: the review of alice once, the
    budget review of bob twice. *)
Lemma participant_listed_twice_counts_twice :
  let st := sample_state three_meetings [] in
  let req := {| ag_meeting_topic := "Review";
                ag_participants := ["alice"; "bob"; "bob"] |} in
  ∃ resp,
    generate_agenda_suggestions req st = (Ok resp, st)
    ∧ based_on_history resp = 3.
Proof.
  intros st req.
  assert (∃ resp, generate_agenda_suggestions req st = (Ok resp, st)) as [resp Hrun]
    by (eexists; reflexivity).
  exists resp. split; [exact Hrun|].
  rewrite (based_on_history_counts_each_participant req st st resp Hrun). reflexivity.
Defined.

(** On a team in which alice is listed twice: one entry for alice and one
    for bob. *)
Lemma member_listed_twice_has_one_entry :
  let st := sample_state three_meetings [bob_preferences; alice_preferences] in
  let req := {| wb_team_members := ["alice"; "bob"; "alice"] |} in
  ∃ resp,
    calculate_workload_balance sample_env req st = (Ok resp, st)
    ∧ NoDup (workload_distribution resp).*1
    ∧ (∀ m, m ∈ (workload_distribution resp).*1 ↔ m ∈ ["alice"; "bob"; "alice"])
    ∧ (length (workload_distribution resp) ≤ 3)%nat.
Proof.
  intros st req.
  assert ((calculate_workload_balance sample_env req st).2 = st) as Hst by reflexivity.
  assert (match (calculate_workload_balance sample_env req st).1 with
          | Ok _ => true
          | Raise _ => false
          end = true) as Hok by reflexivity.
  destruct (calculate_workload_balance sample_env req st) as [[resp|e] st'] eqn:Hrun;
    [|discriminate Hok].
  cbn [snd] in Hst. subst st'. exists resp. split; [reflexivity|].
  exact (workload_distribution_one_entry_per_member sample_env req st st resp Hrun).
Defined.

(** On the same team: the counts of every entry agree with the three
    stored meetings. *)
Lemma team_counts_agree_with_three_meetings :
  let st := sample_state three_meetings [bob_preferences; alice_preferences] in
  let req := {| wb_team_members := ["alice"; "bob"; "alice"] |} in
  ∃ resp,
    calculate_workload_balance sample_env req st = (Ok resp, st)
    ∧ Forall (counts_of_member three_meetings) (workload_distribution resp).
Proof.
  intros st req.
  assert ((calculate_workload_balance sample_env req st).2 = st) as Hst by reflexivity.
  assert (match (calculate_workload_balance sample_env req st).1 with
          | Ok _ => true
          | Raise _ => false
          end = true) as Hok by reflexivity.
  destruct (calculate_workload_balance sample_env req st) as [[resp|e] st'] eqn:Hrun;
    [|discriminate Hok].
  cbn [snd] in Hst. subst st'. exists resp. split; [reflexivity|].
  exact (workload_counts_agree_with_meetings sample_env req st st resp Hrun).
Defined.

(** The seven meetings of alice on one day, two more than her limit: the
    score is 80 and the efficiency Good, though not both of Balanced and
    Optimal. *)
Lemma busy_day_is_good_but_unbalanced :
  let st := sample_state busy_day [alice_preferences] in
  let recs := [overloaded_day (date (on_2024_01_15 0 0)) 7
                 [PStr "Meeting 6"; PStr "Meeting 7"]] in
  let insights := {| schedule_efficiency := "Good";
                     workload_distribution_label := "Unbalanced";
                     time_utilization := "Optimal" |} in
  optimize_meeting_schedule sample_env {| op_user_id := "alice" |} st
    = (Ok (Optimized "alice" 7 80 recs insights), st)
  ∧ (schedule_efficiency insights = "Good" ↔ 80 ≤ 80)
  ∧ (80 = 100
     ↔ workload_distribution_label insights = "Balanced"
       ∧ time_utilization insights = "Optimal").
Proof.
  intros st recs insights.
  assert (optimize_meeting_schedule sample_env {| op_user_id := "alice" |} st
          = (Ok (Optimized "alice" 7 80 recs insights), st)) as Hrun by reflexivity.
  split; [exact Hrun|].
  exact (proj2 (proj2 (optimize_insights_agree_with_score sample_env _ _ _ _ _ _ _ _ Hrun))).
Defined.
